(** * hydpy.cythons.modelutils: the Cython code generator and its build driver

    A shallow embedding of [src/hydpy/cythons/modelutils.py]: the text
    utilities of Python that the module relies on, the classes [Lines],
    [Cythonizer], [PyxWriter] and [FuncConverter], and the properties the
    design document states about them.

    Conventions.  A Python [str] is a [string], each character standing
    for the code point of its number (texts are those of code points below
    256); a Python [int] that counts
    something (an indentation level, a dimensionality) is a [nat], one that
    can become negative is a [Z]; a Python exception is a constructor of
    [exception] and code that may raise returns a [result]. *)

From Stdlib Require Import String Ascii List ZArith Lia Bool DecimalString.
From stdpp Require Import base option list gmap strings.

Local Open Scope string_scope.
Local Open Scope list_scope.

(** ** Python: exceptions, strings, lists *)

Module Py.

Inductive exception : Type :=
| TypeError (msg : string)
| IOError (msg : string)
| OSError (msg : string)
| NotImplementedError (msg : string)
| AttributeError (msg : string)
| IndexError (msg : string)
| KeyError (key : string)
| StopIteration.

Inductive result (A : Type) : Type :=
| Ok (a : A)
| Raise (e : exception).
Arguments Ok {A} a.
Arguments Raise {A} e.

#[global] Instance result_ret : MRet result := @Ok.
#[global] Instance result_bind : MBind result :=
  fun A B f m => match m with Ok a => f a | Raise e => Raise e end.
#[global] Instance result_fmap : FMap result :=
  fun A B f m => match m with Ok a => Ok (f a) | Raise e => Raise e end.

Definition is_Ok {A} (r : result A) : bool :=
  match r with Ok _ => true | Raise _ => false end.

(** [n * s] *)
Fixpoint rep (n : nat) (s : string) : string :=
  match n with
  | O => ""
  | S k => s +:+ rep k s
  end.

(** [str(n)] and the conversion [%d] for a non-negative [int] *)
Definition str_of_nat (n : nat) : string :=
  NilEmpty.string_of_uint (Nat.to_uint n).

(** [sep.join(l)] *)
Fixpoint join (sep : string) (l : list string) : string :=
  match l with
  | [] => ""
  | [s] => s
  | s :: t => s +:+ sep +:+ join sep t
  end.

(** [s.count(c)] for a one-character [c] *)
Fixpoint count (s : string) (c : ascii) : nat :=
  match s with
  | "" => 0
  | String d s' => (if Ascii.eqb d c then 1 else 0) + count s' c
  end.

(** [c.isspace()] for a character of a Python 3 [str] whose code point lies
    below 256: the ASCII white space, the separators U+001C to U+001F, the
    next line U+0085 and the no-break space U+00A0. *)
Definition isspace (c : ascii) : bool :=
  match c with
  | "009" | "010" | "011" | "012" | "013"
  | "028" | "029" | "030" | "031" | " "
  | "133" | "160" => true
  | _ => false
  end%char.

(** [s.lstrip()] *)
Fixpoint lstrip (s : string) : string :=
  match s with
  | "" => ""
  | String c s' => if isspace c then lstrip s' else s
  end.

(** [s.rstrip()] *)
Fixpoint rstrip (s : string) : string :=
  match s with
  | "" => ""
  | String c s' =>
      match rstrip s' with
      | "" => if isspace c then "" else String c ""
      | r => String c r
      end
  end.

(** [s.strip()] *)
Definition strip (s : string) : string := rstrip (lstrip s).

(** [s.startswith(p)] *)
Fixpoint startswith (s p : string) : bool :=
  match p, s with
  | "", _ => true
  | String _ _, "" => false
  | String c p', String d s' => Ascii.eqb d c && startswith s' p'
  end.

(** [s[n:]] *)
Fixpoint drop (n : nat) (s : string) : string :=
  match n, s with
  | O, _ => s
  | S _, "" => ""
  | S k, String _ s' => drop k s'
  end.

(** [s[:n]] *)
Fixpoint take (n : nat) (s : string) : string :=
  match n, s with
  | O, _ => ""
  | S _, "" => ""
  | S k, String c s' => String c (take k s')
  end.

(** [s.endswith(p)] *)
Definition endswith (s p : string) : bool :=
  (String.length p <=? String.length s)%nat &&
  String.eqb (drop (String.length s - String.length p) s) p.

(** [sub in s] *)
Fixpoint contains (s sub : string) : bool :=
  startswith s sub ||
  match s with
  | "" => false
  | String _ s' => contains s' sub
  end.

(** [sub] lies across the cut between [s] and [t]: for some [k], [s] ends
    with [sub[:k]] and [t] starts with [sub[k:]], both non-empty. *)
Definition straddles (s t sub : string) : bool :=
  existsb (fun k => endswith s (take k sub) && startswith t (drop k sub))
    (List.seq 1 (String.length sub - 1)).

(** [s[:-1]] *)
Fixpoint init (s : string) : string :=
  match s with
  | "" => ""
  | String c s' => match s' with "" => "" | _ => String c (init s') end
  end.

(** Prepends a character to the first piece of a list of pieces. *)
Definition cons_head (c : ascii) (l : list string) : list string :=
  match l with
  | [] => [String c ""]
  | h :: t => String c h :: t
  end.

(** [s.split(sep)] for a non-empty [sep]: the pieces between the leftmost
    non-overlapping occurrences of [sep].  [skip] counts the characters of
    a matched separator that are still to be passed over. *)
Fixpoint split_go (sep s : string) (skip : nat) : list string :=
  match s with
  | "" => [""]
  | String c s' =>
      match skip with
      | S k => split_go sep s' k
      | O =>
          if startswith s sep
          then "" :: split_go sep s' (String.length sep - 1)
          else cons_head c (split_go sep s' 0)
      end
  end.

Definition split (s sep : string) : list string := split_go sep s 0.

(** [s.replace(old, new)] for a non-empty [old] *)
Fixpoint replace_go (old new s : string) (skip : nat) : string :=
  match s with
  | "" => ""
  | String c s' =>
      match skip with
      | S k => replace_go old new s' k
      | O =>
          if startswith s old
          then new +:+ replace_go old new s' (String.length old - 1)
          else String c (replace_go old new s' 0)
      end
  end.

Definition replace (s old new : string) : string := replace_go old new s 0.

(** The line boundaries of [str.splitlines] among the code points below
    256: line feed, vertical tab, form feed, carriage return, the separators
    U+001C to U+001E and the next line U+0085. *)
Definition islinebreak (c : ascii) : bool :=
  match c with
  | "010" | "011" | "012" | "013" | "028" | "029" | "030" | "133" => true
  | _ => false
  end%char.

(** [s.splitlines()]; [after_cr] tells that the previous character was a
    carriage return, whose line feed belongs to the same boundary. *)
Fixpoint splitlines_go (s : string) (after_cr : bool) : list string :=
  match s with
  | "" => []
  | String c s' =>
      if after_cr && Ascii.eqb c "010" then splitlines_go s' false
      else if islinebreak c then "" :: splitlines_go s' (Ascii.eqb c "013")
      else cons_head c (splitlines_go s' false)
  end.

Definition splitlines (s : string) : list string := splitlines_go s false.

(** [l[::2]] *)
Fixpoint every_other {A} (l : list A) : list A :=
  match l with
  | [] => []
  | x :: t => x :: match t with [] => [] | _ :: t' => every_other t' end
  end.

(** [x in l] for a list or tuple of strings *)
Definition mem (x : string) (l : list string) : bool :=
  existsb (String.eqb x) l.

End Py.
Import Py.

Definition LF : string := String "010" "".
Definition BACKSLASH : string := String "092" "".
Definition DQUOTE : string := String "034" "".

(** ** The configuration the module reads at import time *)

Module Options.
(** [pub.options] and the platform: [fastcython] and [skipdoctests] are
    options of HydPy, [windows] is [platform.system().lower() == 'windows']
    and [int_dtype] is [str(numpy.array([1]).dtype)]. *)
Record t : Type := {
  fastcython : bool;
  skipdoctests : bool;
  windows : bool;
  int_dtype : string
}.
End Options.

(** ** The model object the generator inspects *)

Module Model.

(** The keys of [TYPE2STR], and any other type a parameter may declare. *)
Inductive pytype : Type :=
| Tbool | Tint | Tfloat | Tstr | Tnone
| Tother (name : string).

Record Par : Type := {
  par_TYPE : pytype;
  par_NDIM : nat
}.

Record SubParameters : Type := {
  subpars_classname : string;
  subpars_items : list (string * Par)
}.

Record Sequence : Type := {
  name : string;
  NDIM : nat;
  NUMERIC : bool
}.

(** The classes of [hydpy.core.sequencetools] a group of sequences can be
    an instance of. *)
Inductive subseqs_class : Type :=
| InputSequences | FluxSequences | StateSequences
| LogSequences | AideSequences | LinkSequences.

Record SubSequences : Type := {
  subseqs_name : string;
  subseqs_class_ : subseqs_class;
  subseqs_classname : string;
  subseqs_items : list (string * Sequence)
}.

(** The function objects [inspect] hands out: the source text and the
    names of the code object. *)
Record Func : Type := {
  getsource : string;
  co_varnames : list string;
  getargs : list string
}.

Record t : Type := {
  parameters : list (string * SubParameters);
  sequences : list (string * SubSequences);
  (** the attributes of the model object: [hasattr(model, n)] holds for the
      names listed, and an attribute that is a function or a method comes
      with what [inspect] tells about it *)
  attributes : list (string * option Func);
  NUMERICAL : bool;
  _INLET_METHODS : list string;
  _OUTLET_METHODS : list string;
  _RECEIVER_METHODS : list string;
  _SENDER_METHODS : list string;
  _RUN_METHODS : list string;
  _PART_ODE_METHODS : list string;
  _FULL_ODE_METHODS : list string;
  (** [vars(model.__class__).items()], the functions among them *)
  class_functions : list (string * Func);
  (** [vars(model).items()], the bound methods among them *)
  instance_methods : list (string * Func)
}.

Definition hasattr (m : t) (n : string) : bool :=
  mem n (map fst (attributes m)).

(** [model.n] for an attribute that [inspect.getsource] is applied to. *)
Fixpoint getfunc (attrs : list (string * option Func)) (n : string)
  : result Func :=
  match attrs with
  | [] => Raise (AttributeError n)
  | (k, v) :: rest =>
      if String.eqb k n then
        match v with
        | Some f => Ok f
        | None => Raise (TypeError "module, class, method, function, traceback, frame, or code object was expected")
        end
      else getfunc rest n
  end.

(** Modelled from the spec: [hydpy.core.sequencetools.Sequences] is not
    among the sources.  Its attribute [inputs], [fluxes], [states], ... is
    the group of that name, or [None] when the model declares none; the
    groups it iterates over are the declared ones. *)
Fixpoint getattr (seqs : list (string * SubSequences)) (n : string)
  : option SubSequences :=
  match seqs with
  | [] => None
  | (k, v) :: rest => if String.eqb k n then Some v else getattr rest n
  end.

Definition declares (m : t) (n : string) : bool :=
  match getattr (sequences m) n with Some _ => true | None => false end.

(** Modelled from the spec: [SubSequences.numerics] (not among the
    sources) iterates over the sequences of the group that take part in
    the numerical integration. *)
Definition numerics (subseqs : SubSequences) : list (string * Sequence) :=
  List.filter (fun item => NUMERIC (snd item)) (subseqs_items subseqs).

(** [isinstance(subseqs, sequencetools.X)] *)
Definition isinstance_LinkSequences (s : SubSequences) : bool :=
  match subseqs_class_ s with LinkSequences => true | _ => false end.
Definition isinstance_FluxSequences (s : SubSequences) : bool :=
  match subseqs_class_ s with FluxSequences => true | _ => false end.
Definition isinstance_InputSequences (s : SubSequences) : bool :=
  match subseqs_class_ s with InputSequences => true | _ => false end.
Definition isinstance_IOSubSequences (s : SubSequences) : bool :=
  match subseqs_class_ s with
  | InputSequences | FluxSequences | StateSequences => true
  | _ => false
  end.

End Model.

(** ** class Lines *)

Module Lines.

Definition t : Type := list string.

(** [lines.add(indent, line)] for a [str] *)
Definition add (indent : nat) (line : string) (lines : t) : t :=
  lines ++ [rep (indent * 4) " " +:+ line].

(** [lines.add(indent, line)] for an iterable of strings *)
Definition add_each (indent : nat) (sublines : list string) (lines : t) : t :=
  lines ++ map (fun subline => rep (indent * 4) " " +:+ subline) sublines.

(** [lines.extend(other)] *)
Definition extend (other : t) (lines : t) : t := lines ++ other.

(** [repr(lines)] *)
Definition repr (lines : t) : string := join LF lines +:+ LF.

End Lines.

(** ** class FuncConverter *)

Module FuncConverter.

(** The operators of [remove_imath_operators], in the order of its loop. *)
Definition operators : list string :=
  ["+="; "-="; "**="; "*="; "//="; "/="; "%="].

(** One pass of the inner loop of [remove_imath_operators]. *)
Definition imath_step (line operator : string) : string :=
  let sublines := split line operator in
  if (1 <? length sublines)%nat then
    let indent := count line " " - count (lstrip line) " " in
    let sublines := map strip sublines in
    rep indent " " +:+ nth 0 sublines "" +:+ " = " +:+ nth 0 sublines ""
      +:+ " " +:+ init operator +:+ " (" +:+ nth 1 sublines "" +:+ ")"
  else line.

(** What [remove_imath_operators] leaves at [lines[idx]]. *)
Definition remove_imath_line (line : string) : string :=
  fold_left imath_step operators line.

Definition remove_imath_operators (lines : list string) : list string :=
  map remove_imath_line lines.

(** The loop of [remove_linebreaks_within_equations]: [counter] is the
    bracket depth, a Python [int]. *)
Fixpoint remove_linebreaks_go (code : string) (counter : Z) : string :=
  match code with
  | "" => ""
  | String char rest =>
      let counter :=
        if contains "([{" (String char "") then (counter + 1)%Z
        else if contains ")]}" (String char "") then (counter - 1)%Z
        else counter in
      if negb ((negb (counter =? 0)%Z) && Ascii.eqb char "010")
      then String char (remove_linebreaks_go rest counter)
      else remove_linebreaks_go rest counter
  end.

(** The value of [counter] when that loop ends: zero for balanced
    brackets. *)
Fixpoint final_counter (code : string) (counter : Z) : Z :=
  match code with
  | "" => counter
  | String char rest =>
      let counter :=
        if contains "([{" (String char "") then (counter + 1)%Z
        else if contains ")]}" (String char "") then (counter - 1)%Z
        else counter in
      final_counter rest counter
  end.

Definition remove_linebreaks_within_equations (code : string) : string :=
  let code := replace code (BACKSLASH +:+ LF) "" in
  remove_linebreaks_go code 0.

Section Converter.
Variable options : Options.t.
Variable model : Model.t.
Variable funcname : string.
Variable func : Model.Func.

Definition _nogil : string :=
  if Options.fastcython options then " nogil" else "".

Definition argnames : list string := Model.getargs func.

Definition varnames : list string := Model.co_varnames func.

Definition locnames : list string :=
  List.filter (fun vn => negb (mem vn argnames)) varnames.

Definition collectornames : list string :=
  let names :=
    List.filter (fun name => mem (take 3 name) varnames)
      (map fst (Model.parameters model) ++ map fst (Model.sequences model)) in
  let names := if mem "old" varnames then names ++ ["old_states"] else names in
  let names := if mem "new" varnames then names ++ ["new_states"] else names in
  names.

Definition collectorshortcuts : list string :=
  map (take 3) collectornames.

Definition untypedvarnames : list string :=
  List.filter (fun name => negb (mem name (collectorshortcuts ++ ["self"])))
    varnames.

Definition cleanlines : result Lines.t :=
  let code := Model.getsource func in
  let code := join LF (every_other (split code (DQUOTE +:+ DQUOTE +:+ DQUOTE))) in
  let code := replace code "modelutils." "" in
  let code :=
    fold_left
      (fun code '(name, shortcut) =>
         replace code (shortcut +:+ ".") ("self." +:+ name +:+ "."))
      (combine collectornames collectorshortcuts) code in
  let code := remove_linebreaks_within_equations code in
  let lines := splitlines code in
  let lines := remove_imath_operators lines in
  match lines with
  | [] => Raise (IndexError "list assignment index out of range")
  | _ :: rest =>
      let lines := ("def " +:+ funcname +:+ "(self):") :: rest in
      let lines := map (fun l => nth 0 (split l "#") "") lines in
      let lines := List.filter (fun l => negb (contains l "fastaccess")) lines in
      let lines :=
        map rstrip
          (List.filter (fun l => negb (String.eqb (rstrip l) "")) lines) in
      Ok lines
  end.

Definition untypedarguments : result (list string) :=
  lines ← cleanlines;
  match lines with
  | [] => Raise (IndexError "list index out of range")
  | defline :: _ =>
      Ok (List.filter
            (fun name => contains defline (", " +:+ name +:+ ",")
                         || contains defline (", " +:+ name +:+ ")"))
            untypedvarnames)
  end.

Definition untypedinternalvarnames : result (list string) :=
  args ← untypedarguments;
  Ok (List.filter (fun name => negb (mem name args)) untypedvarnames).

Definition pyxlines : result Lines.t :=
  lines ← cleanlines;
  let lines := map (fun line => "    " +:+ line) lines in
  match lines with
  | [] => Raise (IndexError "list index out of range")
  | line0 :: rest =>
      let line0 := replace line0 "def " "cpdef inline void " in
      let line0 := replace line0 "):" (") " +:+ _nogil +:+ ":") in
      args ← untypedarguments;
      let line0 :=
        fold_left
          (fun line0 name =>
             let line0 := replace line0 (", " +:+ name +:+ " ")
                            (", int " +:+ name +:+ " ") in
             replace line0 (", " +:+ name +:+ ")") (", int " +:+ name +:+ ")"))
          args line0 in
      internal ← untypedinternalvarnames;
      match internal with
      | [] => Ok (line0 :: rest)
      | _ => Ok (line0 :: ("        cdef int " +:+ join ", " internal) :: rest)
      end
  end.

End Converter.

End FuncConverter.

(** ** Module-level helpers of modelutils *)

Definition dllextension (options : Options.t) : string :=
  if Options.windows options then ".pyd" else ".so".

Definition TYPE2STR (options : Options.t) (type : Model.pytype) : result string :=
  match type with
  | Model.Tbool => Ok "bint"
  | Model.Tint => Ok ("numpy." +:+ Options.int_dtype options +:+ "_t")
  | Model.Tfloat => Ok "double"
  | Model.Tstr => Ok "str"
  | Model.Tnone => Ok "void"
  | Model.Tother n => Raise (KeyError n)
  end.

Definition NDIM2STR (ndim : nat) : result string :=
  match ndim with
  | 0 => Ok ""
  | 1 => Ok "[:]"
  | 2 => Ok "[:,:]"
  | 3 => Ok "[:,:,:]"
  | _ => Raise (KeyError (str_of_nat ndim))
  end.

Definition _nogil (options : Options.t) : string :=
  if Options.fastcython options then " nogil" else "".

Definition method_header (options : Options.t) (method_name : string)
    (nogil : bool) : string :=
  let nogil := if negb (Options.fastcython options) then false else nogil in
  let header := "cpdef inline void " +:+ method_name +:+ "(self)" in
  header +:+ (if nogil then " nogil:" else ":").

(** A [for] loop whose body may raise. *)
Fixpoint for_each {A S : Type} (l : list A) (body : S -> A -> result S) (s : S)
  : result S :=
  match l with
  | [] => Ok s
  | x :: rest => s' ← body s x; for_each rest body s'
  end.

(** [decorate_method]: the header and the lines the wrapped generator
    yields, or nothing when the model has no method of that name.  A
    generator that raises while it is consumed is a [Raise]. *)
Definition decorate_method (options : Options.t) (model : Model.t)
    (name : string) (wrapped : result (list string)) : result Lines.t :=
  let lines : Lines.t := [] in
  if Model.hasattr model name then
    let lines := Lines.add 1 (method_header options name true) lines in
    yielded ← wrapped;
    Ok (fold_left (fun lines line => Lines.add 2 line lines) yielded lines)
  else Ok lines.

(** The conversions of a [%] format that the module uses, [%s] and [%d],
    applied to arguments already rendered as text. *)
Fixpoint format_go (fmt : string) (args : list string) (after_percent : bool)
  : result string :=
  match fmt with
  | "" =>
      if after_percent then Raise (IndexError "incomplete format")
      else match args with
           | [] => Ok ""
           | _ => Raise (TypeError
                    "not all arguments converted during string formatting")
           end
  | String c rest =>
      if after_percent then
        if Ascii.eqb c "%" then String c <$> format_go rest args false
        else match args with
             | [] => Raise (TypeError "not enough arguments for format string")
             | a :: args' => String.append a <$> format_go rest args' false
             end
      else if Ascii.eqb c "%" then format_go rest args true
      else String c <$> format_go rest args false
  end.

(** [fmt % args] *)
Definition format (fmt : string) (args : list string) : result string :=
  format_go fmt args false.

(** [sorted(items)] for pairs with distinct names: by name, in the order of
    the code points. *)
Fixpoint insert_sorted {A} (x : string * A) (l : list (string * A))
  : list (string * A) :=
  match l with
  | [] => [x]
  | y :: rest =>
      if String.leb (fst x) (fst y) then x :: l else y :: insert_sorted x rest
  end.

Definition sorted {A} (l : list (string * A)) : list (string * A) :=
  fold_right insert_sorted [] l.

(** ** class Cythonizer: the attributes *)

Module CythonizerData.

(** A local of the module that created the cythonizer, as far as the
    generator looks at it: a class with, for each class of its
    [inspect.getmro], the file [inspect.getfile] tells ([None] where it
    raises [TypeError], as for a built-in class); or another object, with its
    type and its [str]. *)
Inductive member : Type :=
| Class (mro_files : list (option string))
| Object (type : Model.pytype) (text : string).

Record t : Type := {
  pymodule : string;
  (** [frame.f_locals.items()], in the order [vars(self).items()] yields *)
  locals : list (string * member);
  (** [cythons.autogen.__path__[0]] *)
  cydirpath : string;
  (** the model object the property [pyxwriter] sets up *)
  model : Model.t
}.

End CythonizerData.

(** [c.isupper()] and [c.islower()] below 128 *)
Definition ascii_isupper (c : ascii) : bool :=
  let n := nat_of_ascii c in (65 <=? n)%nat && (n <=? 90)%nat.
Definition ascii_islower (c : ascii) : bool :=
  let n := nat_of_ascii c in (97 <=? n)%nat && (n <=? 122)%nat.

(** [s.isupper()]: some cased character, and no lowercase one *)
Fixpoint isupper_go (s : string) (seen : bool) : bool :=
  match s with
  | "" => seen
  | String c rest =>
      if ascii_islower c then false
      else isupper_go rest (seen || ascii_isupper c)
  end.
Definition isupper (s : string) : bool := isupper_go s false.

(** ** class PyxWriter *)

Module PyxWriter.

Section Writer.
Variable options : Options.t.
Variable cythonizer : CythonizerData.t.
Variable model : Model.t.

Definition cythonoptions : Lines.t :=
  let flag := if Options.fastcython options then "False" else "True" in
  ["#!python";
   "#cython: boundscheck=" +:+ flag;
   "#cython: wraparound=" +:+ flag;
   "#cython: initializedcheck=" +:+ flag].

Definition cimports : Lines.t :=
  ["import numpy";
   "cimport numpy";
   "from libc.math cimport exp, fabs, log";
   "from libc.stdio cimport *";
   "from libc.stdlib cimport *";
   "import cython";
   "from cpython.mem cimport PyMem_Malloc";
   "from cpython.mem cimport PyMem_Realloc";
   "from cpython.mem cimport PyMem_Free";
   "from hydpy.cythons.autogen cimport pointerutils";
   "from hydpy.cythons.autogen cimport configutils";
   "from hydpy.cythons.autogen cimport smoothutils";
   "from hydpy.cythons.autogen cimport annutils"].

(** [numpy.array(member).ndim] is 0 for an object whose type is a key of
    [TYPE2STR]. *)
Definition constants : result Lines.t :=
  for_each (("pymodule", CythonizerData.Object Model.Tstr
                           (CythonizerData.pymodule cythonizer))
            :: CythonizerData.locals cythonizer)
    (fun lines '(name, member) =>
       match member with
       | CythonizerData.Class _ => Ok lines
       | CythonizerData.Object type text =>
           if isupper name
              && match type with Model.Tother _ | Model.Tnone => false | _ => true end
           then
             let ndim := 0 in
             t ← TYPE2STR options type;
             d ← NDIM2STR ndim;
             let ctype := t +:+ d in
             Ok (Lines.add 0 ("cdef public " +:+ ctype +:+ " " +:+ name
                              +:+ " = " +:+ text) lines)
           else Ok lines
       end)
    [].

Definition parameters : result Lines.t :=
  for_each (Model.parameters model)
    (fun lines '(name1, subpars) =>
       let lines := Lines.add 0 "@cython.final" lines in
       let lines := Lines.add 0 ("cdef class " +:+ Model.subpars_classname subpars
                                 +:+ "(object):") lines in
       for_each (Model.subpars_items subpars)
         (fun lines '(name2, par) =>
            t ← TYPE2STR options (Model.par_TYPE par);
            d ← NDIM2STR (Model.par_NDIM par);
            let ctype := t +:+ d in
            Ok (Lines.add 1 ("cdef public " +:+ ctype +:+ " " +:+ name2) lines))
         lines)
    [].

Definition iosequence (seq : Model.Sequence) : result Lines.t :=
  let n := Model.name seq in
  let lines : Lines.t := [] in
  let lines := Lines.add 1 ("cdef public bint _" +:+ n +:+ "_diskflag") lines in
  let lines := Lines.add 1 ("cdef public str _" +:+ n +:+ "_path") lines in
  let lines := Lines.add 1 ("cdef FILE *_" +:+ n +:+ "_file") lines in
  let lines := Lines.add 1 ("cdef public bint _" +:+ n +:+ "_ramflag") lines in
  d ← NDIM2STR (Model.NDIM seq + 1);
  let ctype := "double" +:+ d in
  Ok (Lines.add 1 ("cdef public " +:+ ctype +:+ " _" +:+ n +:+ "_array") lines).

Definition openfiles (subseqs : Model.SubSequences) : Lines.t :=
  let lines : Lines.t := [] in
  let lines := Lines.add 1 "cpdef openfiles(self, int idx):" lines in
  fold_left
    (fun lines '(name, seq) =>
       let lines := Lines.add 2 ("if self._" +:+ name +:+ "_diskflag:") lines in
       let lines :=
         Lines.add 3 ("self._" +:+ name +:+ "_file = fopen(str(self._" +:+ name
                      +:+ "_path).encode(), " +:+ DQUOTE +:+ "rb+" +:+ DQUOTE
                      +:+ ")") lines in
       if (Model.NDIM seq =? 0)%nat then
         Lines.add 3 ("fseek(self._" +:+ name +:+ "_file, idx*8, SEEK_SET)") lines
       else
         Lines.add 3 ("fseek(self._" +:+ name +:+ "_file, idx*self._" +:+ name
                      +:+ "_length*8, SEEK_SET)") lines)
    (Model.subseqs_items subseqs) lines.

Definition closefiles (subseqs : Model.SubSequences) : Lines.t :=
  let lines : Lines.t := [] in
  let lines := Lines.add 1 "cpdef inline closefiles(self):" lines in
  fold_left
    (fun lines '(name, seq) =>
       let lines := Lines.add 2 ("if self._" +:+ name +:+ "_diskflag:") lines in
       Lines.add 3 ("fclose(self._" +:+ name +:+ "_file)") lines)
    (sorted (Model.subseqs_items subseqs)) lines.

(** The nested [for jdx] loops of [loaddata], [savedata] and [new2old]:
    the lines added and the index text, for the loop header [header idx]. *)
Fixpoint index_loops (level : nat) (header : nat -> string) (idxs : list nat)
    (lines : Lines.t) (indexing : string) : Lines.t * string :=
  match idxs with
  | [] => (lines, indexing)
  | idx :: rest =>
      let lines := Lines.add (level + idx) (header idx) lines in
      let indexing := indexing +:+ "jdx" +:+ str_of_nat idx +:+ "," in
      index_loops level header rest lines indexing
  end.

Definition loaddata (subseqs : Model.SubSequences) : Lines.t :=
  let lines : Lines.t := [] in
  let lines := Lines.add 1 ("cpdef inline void loaddata(self, int idx) "
                            +:+ _nogil options +:+ ":") lines in
  let lines := Lines.add 2 "cdef int jdx0, jdx1, jdx2, jdx3, jdx4, jdx5" lines in
  fold_left
    (fun lines '(name, seq) =>
       let lines := Lines.add 2 ("if self._" +:+ name +:+ "_diskflag:") lines in
       let lines :=
         if (Model.NDIM seq =? 0)%nat then
           Lines.add 3 ("fread(&self." +:+ name +:+ ", 8, 1, self._" +:+ name
                        +:+ "_file)") lines
         else
           Lines.add 3 ("fread(&self." +:+ name +:+ "[0], 8, self._" +:+ name
                        +:+ "_length, self._" +:+ name +:+ "_file)") lines in
       let lines := Lines.add 2 ("elif self._" +:+ name +:+ "_ramflag:") lines in
       if (Model.NDIM seq =? 0)%nat then
         Lines.add 3 ("self." +:+ name +:+ " = self._" +:+ name +:+ "_array[idx]")
           lines
       else
         let '(lines, indexing) :=
           index_loops 3
             (fun idx => "for jdx" +:+ str_of_nat idx +:+ " in range(self._"
                         +:+ name +:+ "_length_" +:+ str_of_nat idx +:+ "):")
             (List.seq 0 (Model.NDIM seq)) lines "" in
         let indexing := init indexing in
         Lines.add (3 + Model.NDIM seq)
           ("self." +:+ name +:+ "[" +:+ indexing +:+ "] = self._" +:+ name
            +:+ "_array[idx," +:+ indexing +:+ "]") lines)
    (Model.subseqs_items subseqs) lines.

Definition savedata (subseqs : Model.SubSequences) : Lines.t :=
  let lines : Lines.t := [] in
  let lines := Lines.add 1 ("cpdef inline void savedata(self, int idx) "
                            +:+ _nogil options +:+ ":") lines in
  let lines := Lines.add 2 "cdef int jdx0, jdx1, jdx2, jdx3, jdx4, jdx5" lines in
  fold_left
    (fun lines '(name, seq) =>
       let lines := Lines.add 2 ("if self._" +:+ name +:+ "_diskflag:") lines in
       let lines :=
         if (Model.NDIM seq =? 0)%nat then
           Lines.add 3 ("fwrite(&self." +:+ name +:+ ", 8, 1, self._" +:+ name
                        +:+ "_file)") lines
         else
           Lines.add 3 ("fwrite(&self." +:+ name +:+ "[0], 8, self._" +:+ name
                        +:+ "_length, self._" +:+ name +:+ "_file)") lines in
       let lines := Lines.add 2 ("elif self._" +:+ name +:+ "_ramflag:") lines in
       if (Model.NDIM seq =? 0)%nat then
         Lines.add 3 ("self._" +:+ name +:+ "_array[idx] = self." +:+ name) lines
       else
         let '(lines, indexing) :=
           index_loops 3
             (fun idx => "for jdx" +:+ str_of_nat idx +:+ " in range(self._"
                         +:+ name +:+ "_length_" +:+ str_of_nat idx +:+ "):")
             (List.seq 0 (Model.NDIM seq)) lines "" in
         let indexing := init indexing in
         Lines.add (3 + Model.NDIM seq)
           ("self._" +:+ name +:+ "_array[idx," +:+ indexing +:+ "] = self."
            +:+ name +:+ "[" +:+ indexing +:+ "]") lines)
    (Model.subseqs_items subseqs) lines.

Definition setpointer0d (subseqs : Model.SubSequences) : Lines.t :=
  let lines : Lines.t := [] in
  let lines :=
    Lines.add 1 "cpdef inline setpointer0d(self, str name, pointerutils.PDouble value):"
      lines in
  fold_left
    (fun lines '(name, seq) =>
       let lines := Lines.add 2 ("if name == " +:+ DQUOTE +:+ name +:+ DQUOTE
                                 +:+ ":") lines in
       Lines.add 3 ("self." +:+ name +:+ " = value.p_value") lines)
    (Model.subseqs_items subseqs) lines.

Definition alloc (subseqs : Model.SubSequences) : Lines.t :=
  let lines : Lines.t := [] in
  let lines := Lines.add 1 "cpdef inline alloc(self, name, int length):" lines in
  fold_left
    (fun lines '(name, seq) =>
       let lines := Lines.add 2 ("if name == " +:+ DQUOTE +:+ name +:+ DQUOTE
                                 +:+ ":") lines in
       let lines := Lines.add 3 ("self._" +:+ name +:+ "_length_0 = length") lines in
       Lines.add 3 ("self." +:+ name
                    +:+ " = <double**> PyMem_Malloc(length * sizeof(double*))")
         lines)
    (Model.subseqs_items subseqs) lines.

Definition dealloc (subseqs : Model.SubSequences) : Lines.t :=
  let lines : Lines.t := [] in
  let lines := Lines.add 1 "cpdef inline dealloc(self):" lines in
  fold_left
    (fun lines '(name, seq) =>
       Lines.add 2 ("PyMem_Free(self." +:+ name +:+ ")") lines)
    (Model.subseqs_items subseqs) lines.

Definition setpointer1d (subseqs : Model.SubSequences) : Lines.t :=
  let lines : Lines.t := [] in
  let lines :=
    Lines.add 1
      "cpdef inline setpointer1d(self, str name, pointerutils.PDouble value, int idx):"
      lines in
  fold_left
    (fun lines '(name, seq) =>
       let lines := Lines.add 2 ("if name == " +:+ DQUOTE +:+ name +:+ DQUOTE
                                 +:+ ":") lines in
       Lines.add 3 ("self." +:+ name +:+ "[idx] = value.p_value") lines)
    (Model.subseqs_items subseqs) lines.

(** Both loops of [setpointer] leave at the [break] that ends their first
    pass: the first sequence of the group decides. *)
Definition setpointer (subseqs : Model.SubSequences) : Lines.t :=
  let lines : Lines.t := [] in
  let lines :=
    match Model.subseqs_items subseqs with
    | (name, seq) :: _ =>
        if (Model.NDIM seq =? 0)%nat
        then Lines.extend (setpointer0d subseqs) lines
        else lines
    | [] => lines
    end in
  let lines :=
    match Model.subseqs_items subseqs with
    | (name, seq) :: _ =>
        if (Model.NDIM seq =? 1)%nat then
          let lines := Lines.extend (alloc subseqs) lines in
          let lines := Lines.extend (dealloc subseqs) lines in
          Lines.extend (setpointer1d subseqs) lines
        else lines
    | [] => lines
    end in
  lines.

(** [isinstance(subseqs, sequencetools.InputSequence)]: a group of
    sequences is no single input sequence. *)
Definition isinstance_InputSequence (subseqs : Model.SubSequences) : bool := false.

Definition sequences : result Lines.t :=
  for_each (Model.sequences model)
    (fun lines '(name1, subseqs) =>
       let lines := Lines.add 0 "@cython.final" lines in
       let lines := Lines.add 0 ("cdef class " +:+ Model.subseqs_classname subseqs
                                 +:+ "(object):") lines in
       lines ←
         for_each (Model.subseqs_items subseqs)
           (fun lines '(name2, seq) =>
              d ← NDIM2STR (Model.NDIM seq);
              let ctype := "double" +:+ d in
              let lines :=
                if Model.isinstance_LinkSequences subseqs then
                  if (Model.NDIM seq =? 0)%nat then
                    Lines.add 1 ("cdef double *" +:+ name2) lines
                  else if (Model.NDIM seq =? 1)%nat then
                    let lines := Lines.add 1 ("cdef double **" +:+ name2) lines in
                    Lines.add 1 ("cdef public int len_" +:+ name2) lines
                  else lines
                else
                  Lines.add 1 ("cdef public " +:+ ctype +:+ " " +:+ name2) lines in
              let lines := Lines.add 1 ("cdef public int _" +:+ name2 +:+ "_ndim")
                             lines in
              let lines := Lines.add 1 ("cdef public int _" +:+ name2 +:+ "_length")
                             lines in
              let lines :=
                fold_left
                  (fun lines idx =>
                     Lines.add 1 ("cdef public int _" +:+ Model.name seq
                                  +:+ "_length_" +:+ str_of_nat idx) lines)
                  (List.seq 0 (Model.NDIM seq)) lines in
              lines ←
                (if Model.NUMERIC seq then
                   dn ← NDIM2STR (Model.NDIM seq + 1);
                   let ctype_numeric := "double" +:+ dn in
                   let lines := Lines.add 1 ("cdef public " +:+ ctype_numeric +:+ " _"
                                             +:+ name2 +:+ "_points") lines in
                   let lines := Lines.add 1 ("cdef public " +:+ ctype_numeric +:+ " _"
                                             +:+ name2 +:+ "_results") lines in
                   if Model.isinstance_FluxSequences subseqs then
                     let lines := Lines.add 1 ("cdef public " +:+ ctype_numeric +:+ " _"
                                               +:+ name2 +:+ "_integrals") lines in
                     Ok (Lines.add 1 ("cdef public " +:+ ctype +:+ " _" +:+ name2
                                      +:+ "_sum") lines)
                   else Ok lines
                 else Ok lines);
              if Model.isinstance_IOSubSequences subseqs then
                io ← iosequence seq;
                Ok (Lines.extend io lines)
              else Ok lines)
           lines;
       let lines :=
         if Model.isinstance_InputSequences subseqs
         then Lines.extend (loaddata subseqs) lines else lines in
       let lines :=
         if Model.isinstance_IOSubSequences subseqs then
           let lines := Lines.extend (openfiles subseqs) lines in
           let lines := Lines.extend (closefiles subseqs) lines in
           if negb (isinstance_InputSequence subseqs)
           then Lines.extend (savedata subseqs) lines else lines
         else lines in
       let lines :=
         if Model.isinstance_LinkSequences subseqs
         then Lines.extend (setpointer subseqs) lines else lines in
       Ok lines)
    [].

Definition numericalparameters : result Lines.t :=
  let lines : Lines.t := [] in
  if Model.NUMERICAL model then
    tint ← TYPE2STR options Model.Tint;
    tfloat ← TYPE2STR options Model.Tfloat;
    tbool ← TYPE2STR options Model.Tbool;
    let lines := Lines.add 0 "@cython.final" lines in
    let lines := Lines.add 0 "cdef class NumConsts(object):" lines in
    let lines :=
      fold_left (fun lines name =>
                   Lines.add 1 ("cdef public " +:+ tint +:+ " " +:+ name) lines)
        ["nmb_methods"; "nmb_stages"] lines in
    let lines :=
      fold_left (fun lines name =>
                   Lines.add 1 ("cdef public " +:+ tfloat +:+ " " +:+ name) lines)
        ["dt_increase"; "dt_decrease"] lines in
    let lines := Lines.add 1 "cdef public configutils.Config pub" lines in
    let lines := Lines.add 1 "cdef public double[:, :, :] a_coefs" lines in
    let lines := Lines.add 0 "cdef class NumVars(object):" lines in
    let lines :=
      fold_left (fun lines name =>
                   Lines.add 1 ("cdef public " +:+ tint +:+ " " +:+ name) lines)
        ["nmb_calls"; "idx_method"; "idx_stage"] lines in
    let lines :=
      fold_left (fun lines name =>
                   Lines.add 1 ("cdef public " +:+ tfloat +:+ " " +:+ name) lines)
        ["t0"; "t1"; "dt"; "dt_est"; "error"; "last_error"; "extrapolated_error"]
        lines in
    Ok (Lines.add 1 ("cdef public " +:+ tbool +:+ " f0_ready") lines)
  else Ok lines.

Definition modeldeclarations : Lines.t :=
  let lines : Lines.t := [] in
  let lines := Lines.add 0 "@cython.final" lines in
  let lines := Lines.add 0 "cdef class Model(object):" lines in
  let lines := Lines.add 1 "cdef public int idx_sim" lines in
  let lines :=
    fold_left
      (fun lines '(name, thing) =>
         Lines.add 1 ("cdef public " +:+ Model.subpars_classname thing +:+ " "
                      +:+ name) lines)
      (Model.parameters model) lines in
  let lines :=
    fold_left
      (fun lines '(name, thing) =>
         Lines.add 1 ("cdef public " +:+ Model.subseqs_classname thing +:+ " "
                      +:+ name) lines)
      (Model.sequences model) lines in
  let lines :=
    if Model.declares model "states" then
      let lines := Lines.add 1 "cdef public StateSequences old_states" lines in
      Lines.add 1 "cdef public StateSequences new_states" lines
    else lines in
  let lines :=
    if Model.hasattr model "numconsts"
    then Lines.add 1 "cdef public NumConsts numconsts" lines else lines in
  let lines :=
    if Model.hasattr model "numvars"
    then Lines.add 1 "cdef public NumVars numvars" lines else lines in
  lines.

Definition doit : Lines.t :=
  let lines : Lines.t := [] in
  let lines := Lines.add 1 ("cpdef inline void doit(self, int idx) "
                            +:+ _nogil options +:+ ":") lines in
  let lines := Lines.add 2 "self.idx_sim = idx" lines in
  let lines :=
    if Model.declares model "inputs"
    then Lines.add 2 "self.loaddata()" lines else lines in
  let lines :=
    match Model._INLET_METHODS model with
    | _ :: _ => Lines.add 2 "self.update_inlets()" lines
    | [] => lines
    end in
  let lines :=
    if Model.hasattr model "solve" then
      Lines.add 2 "self.solve()" lines
    else
      let lines := Lines.add 2 "self.run()" lines in
      if Model.declares model "states"
      then Lines.add 2 "self.new2old()" lines else lines in
  let lines :=
    match Model._OUTLET_METHODS model with
    | _ :: _ => Lines.add 2 "self.update_outlets()" lines
    | [] => lines
    end in
  let lines :=
    if Model.declares model "fluxes" || Model.declares model "states"
    then Lines.add 2 "self.savedata()" lines else lines in
  lines.

Definition iofunctions : Lines.t :=
  fold_left
    (fun lines func =>
       if String.eqb func "loaddata" && negb (Model.declares model "inputs")
       then lines
       else if String.eqb func "savedata"
               && (negb (Model.declares model "fluxes")
                   && negb (Model.declares model "states"))
       then lines
       else
         let nogil := mem func ["loaddata"; "savedata"] in
         let lines := Lines.add 1 (method_header options func nogil) lines in
         fold_left
           (fun lines '(name, subseqs) =>
              let applyfuncs :=
                if String.eqb func "loaddata" then ["inputs"]
                else if String.eqb func "savedata" then ["fluxes"; "states"]
                else ["inputs"; "fluxes"; "states"] in
              if mem name applyfuncs then
                if String.eqb func "closefiles" then
                  Lines.add 2 ("self." +:+ name +:+ "." +:+ func +:+ "()") lines
                else
                  Lines.add 2 ("self." +:+ name +:+ "." +:+ func
                               +:+ "(self.idx_sim)") lines
              else lines)
           (Model.sequences model) lines)
    ["openfiles"; "closefiles"; "loaddata"; "savedata"] [].

Definition new2old : Lines.t :=
  let lines : Lines.t := [] in
  match Model.getattr (Model.sequences model) "states" with
  | Some states =>
      let lines := Lines.add 1 (method_header options "new2old" true) lines in
      let lines := Lines.add 2 "cdef int jdx0, jdx1, jdx2, jdx3, jdx4, jdx5" lines in
      fold_left
        (fun lines '(name, seq) =>
           if (Model.NDIM seq =? 0)%nat then
             Lines.add 2 ("self.old_states." +:+ name +:+ " = self.new_states."
                          +:+ name) lines
           else
             let '(lines, indexing) :=
               index_loops 2
                 (fun idx => "for jdx" +:+ str_of_nat idx
                             +:+ " in range(self.states._" +:+ name +:+ "_length_"
                             +:+ str_of_nat idx +:+ "):")
                 (List.seq 0 (Model.NDIM seq)) lines "" in
             let indexing := init indexing in
             Lines.add (2 + Model.NDIM seq)
               ("self.old_states." +:+ name +:+ "[" +:+ indexing
                +:+ "] = self.new_states." +:+ name +:+ "[" +:+ indexing +:+ "]")
               lines)
        (sorted (Model.subseqs_items states)) lines
  | None => lines
  end.

Definition _call_methods (name : string) (methods : list string) : Lines.t :=
  let lines : Lines.t := [] in
  if Model.hasattr model name then
    let lines := Lines.add 1 (method_header options name true) lines in
    let '(lines, anything) :=
      fold_left
        (fun '(lines, anything) method =>
           (Lines.add 2 ("self." +:+ method +:+ "()") lines, true))
        methods (lines, false) in
    if negb anything then Lines.add 2 "pass" lines else lines
  else lines.

Definition update_receivers : Lines.t :=
  _call_methods "update_receivers" (Model._RECEIVER_METHODS model).

Definition update_inlets : Lines.t :=
  _call_methods "update_inlets" (Model._INLET_METHODS model).

Definition run : Lines.t :=
  _call_methods "run" (Model._RUN_METHODS model).

Definition update_outlets : Lines.t :=
  _call_methods "update_outlets" (Model._OUTLET_METHODS model).

Definition update_senders : Lines.t :=
  _call_methods "update_senders" (Model._SENDER_METHODS model).

Definition calculate_single_terms : Lines.t :=
  let lines := _call_methods "calculate_single_terms"
                 (Model._PART_ODE_METHODS model) in
  match lines with
  | first :: rest =>
      first :: "        self.numvars.nmb_calls =self.numvars.nmb_calls+1" :: rest
  | [] => lines
  end.

Definition calculate_full_terms : Lines.t :=
  _call_methods "calculate_full_terms" (Model._FULL_ODE_METHODS model).

Definition listofmodeluserfunctions : list (string * Model.Func) :=
  let lines :=
    List.filter
      (fun '(name, member) =>
         negb (mem name ["run"; "new2old"])
         && contains (Model.getsource member) "fastaccess")
      (Model.class_functions model) in
  let lines :=
    match List.find (fun item => String.eqb (fst item) "run")
            (Model.class_functions model) with
    | Some (_, run) => lines ++ [("run", run)]
    | None => lines
    end in
  lines ++
  List.filter
    (fun '(name, member) => contains (Model.getsource member) "fastaccess")
    (Model.instance_methods model).

Definition modeluserfunctions : result Lines.t :=
  for_each listofmodeluserfunctions
    (fun lines '(name, func) =>
       pyx ← FuncConverter.pyxlines options model name func;
       Ok (Lines.extend pyx lines))
    [].

(** [solve] and [extrapolate_error] translate the method of that name. *)
Definition convert_method (name : string) : result Lines.t :=
  let lines : Lines.t := [] in
  if Model.hasattr model name then
    func ← Model.getfunc (Model.attributes model) name;
    pyx ← FuncConverter.pyxlines options model name func;
    Ok (Lines.extend pyx lines)
  else Ok lines.

Definition solve : result Lines.t := convert_method "solve".

Definition higher_than_expected (name : string) : exception :=
  NotImplementedError ("NDIM of sequence `" +:+ name +:+ "` is higher than expected").

(** [self.model.sequences.<group>]; [None] has neither a [name] nor
    [numerics]. *)
Definition group (n : string) : result Model.SubSequences :=
  match Model.getattr (Model.sequences model) n with
  | Some subseqs => Ok subseqs
  | None => Raise (AttributeError "'NoneType' object has no attribute")
  end.

(** The generator [_assign_seqvalues]: the lines it yields. *)
Definition _assign_seqvalues (subseqs : Model.SubSequences) (target : string)
    (index : option string) (load : bool) : result (list string) :=
  let sname := Model.subseqs_name subseqs in
  let from1 := fun name : string => "self." +:+ sname +:+ "." +:+ name in
  let to1 := fun name : string =>
    "self." +:+ sname +:+ "._" +:+ name +:+ "_" +:+ target in
  let to1 :=
    match index with
    | Some index => fun name => to1 name +:+ "[self.numvars." +:+ index +:+ "]"
    | None => to1
    end in
  let '(from1, to1) := if load then (to1, from1) else (from1, to1) in
  for_each (Model.subseqs_items subseqs)
    (fun yielded '(name, seq) =>
       let from2 := from1 name in
       let to2 := to1 name in
       match Model.NDIM seq with
       | 0 => Ok (yielded ++ [to2 +:+ " = " +:+ from2])
       | 1 =>
           Ok (yielded ++
               ["cdef int idx0";
                "for idx0 in range(self." +:+ sname +:+ "._" +:+ name
                  +:+ "_length0):";
                "    " +:+ to2 +:+ "[idx0] = " +:+ from2 +:+ "[idx0]"])
       | 2 =>
           let yielded := yielded ++
               ["cdef int idx0, idx1";
                "for idx0 in range(self." +:+ sname +:+ "._" +:+ name
                  +:+ "_length0):"] in
           inner ← format "    for idx1 in range(self._%s_length1):" [sname; name];
           Ok (yielded ++
               [inner;
                "        " +:+ to2 +:+ "[idx0, idx1] = " +:+ from2
                  +:+ "[idx0, idx1]"])
       | _ => Raise (higher_than_expected name)
       end)
    [].

Definition get_point_states : result Lines.t :=
  decorate_method options model "get_point_states"
    (states ← group "states";
     _assign_seqvalues states "points" (Some "idx_stage") true).

Definition set_point_states : result Lines.t :=
  decorate_method options model "set_point_states"
    (states ← group "states";
     _assign_seqvalues states "points" (Some "idx_stage") false).

Definition set_result_states : result Lines.t :=
  decorate_method options model "set_result_states"
    (states ← group "states";
     _assign_seqvalues states "results" (Some "idx_method") false).

Definition get_sum_fluxes : result Lines.t :=
  decorate_method options model "get_sum_fluxes"
    (fluxes ← group "fluxes";
     _assign_seqvalues fluxes "sum" None true).

Definition set_point_fluxes : result Lines.t :=
  decorate_method options model "set_point_fluxes"
    (fluxes ← group "fluxes";
     _assign_seqvalues fluxes "points" (Some "idx_stage") false).

Definition set_result_fluxes : result Lines.t :=
  decorate_method options model "set_result_fluxes"
    (fluxes ← group "fluxes";
     _assign_seqvalues fluxes "results" (Some "idx_method") false).

Definition integrate_fluxes : result Lines.t :=
  decorate_method options model "integrate_fluxes"
    (fluxes ← group "fluxes";
     for_each (Model.numerics fluxes)
       (fun yielded '(name, seq) =>
          let to_ := "self.fluxes." +:+ name in
          let from_ := "self.fluxes._" +:+ name +:+ "_points" in
          let coefs := "self.numvars.dt * self.numconsts.a_coefs"
                       +:+ "[self.numvars.idx_method-1,self.numvars.idx_stage,jdx]" in
          match Model.NDIM seq with
          | 0 =>
              Ok (yielded ++
                  ["cdef int jdx";
                   to_ +:+ " = 0.";
                   "for jdx in range(self.numvars.idx_method):";
                   "    " +:+ to_ +:+ " = " +:+ to_ +:+ " +" +:+ coefs +:+ "*"
                     +:+ from_ +:+ "[jdx]"])
          | 1 =>
              Ok (yielded ++
                  ["cdef int jdx, idx0";
                   "for idx0 in range(self.fluxes._" +:+ name +:+ "_length0):";
                   "    " +:+ to_ +:+ "[idx0] = 0.";
                   "    for jdx in range(self.numvars.idx_method):";
                   "        " +:+ to_ +:+ "[idx0] = " +:+ to_ +:+ "[idx0] + "
                     +:+ coefs +:+ "*" +:+ from_ +:+ "[jdx, idx0]"])
          | 2 =>
              Ok (yielded ++
                  ["cdef int jdx, idx0, idx1";
                   "for idx0 in range(self.fluxes._" +:+ name +:+ "_length0):";
                   "    for idx1 in range(self.fluxes._" +:+ name +:+ "_length1):";
                   "        " +:+ to_ +:+ "[idx0, idx1] = 0.";
                   "        for jdx in range(self.numvars.idx_method):";
                   "            " +:+ to_ +:+ "[idx0, idx1] = " +:+ to_
                     +:+ "[idx0, idx1] + " +:+ coefs +:+ "*" +:+ from_
                     +:+ "[jdx, idx0, idx1]"])
          | _ => Raise (higher_than_expected name)
          end)
       []).

Definition reset_sum_fluxes : result Lines.t :=
  decorate_method options model "reset_sum_fluxes"
    (fluxes ← group "fluxes";
     for_each (Model.numerics fluxes)
       (fun yielded '(name, seq) =>
          let to_ := "self.fluxes._" +:+ name +:+ "_sum" in
          match Model.NDIM seq with
          | 0 => Ok (yielded ++ [to_ +:+ " = 0."])
          | 1 =>
              Ok (yielded ++
                  ["cdef int idx0";
                   "for idx0 in range(self.fluxes._" +:+ name +:+ "_length0):";
                   "    " +:+ to_ +:+ "[idx0] = 0."])
          | 2 =>
              Ok (yielded ++
                  ["cdef int idx0, idx1";
                   "for idx0 in range(self.fluxes._" +:+ name +:+ "_length0):";
                   "    for idx1 in range(self.fluxes._" +:+ name +:+ "_length1):";
                   "        " +:+ to_ +:+ "[idx0, idx1] = 0."])
          | _ => Raise (higher_than_expected name)
          end)
       []).

Definition addup_fluxes : result Lines.t :=
  decorate_method options model "addup_fluxes"
    (fluxes ← group "fluxes";
     for_each (Model.numerics fluxes)
       (fun yielded '(name, seq) =>
          let to_ := "self.fluxes._" +:+ name +:+ "_sum" in
          let from_ := "self.fluxes." +:+ name in
          match Model.NDIM seq with
          | 0 => Ok (yielded ++ [to_ +:+ " = " +:+ to_ +:+ " + " +:+ from_])
          | 1 =>
              Ok (yielded ++
                  ["cdef int idx0";
                   "for idx0 in range(self.fluxes._" +:+ name +:+ "_length0):";
                   "    " +:+ to_ +:+ "[idx0] = " +:+ to_ +:+ "[idx0] + " +:+ from_
                     +:+ "[idx0]"])
          | 2 =>
              Ok (yielded ++
                  ["cdef int idx0, idx1";
                   "for idx0 in range(self.fluxes._" +:+ name +:+ "_length0):";
                   "    for idx1 in range(self.fluxes._" +:+ name +:+ "_length1):";
                   "        " +:+ to_ +:+ "[idx0, idx1] = " +:+ to_
                     +:+ "[idx0, idx1] + " +:+ from_ +:+ "[idx0, idx1]"])
          | _ => Raise (higher_than_expected name)
          end)
       []).

Definition calculate_error : result Lines.t :=
  decorate_method options model "calculate_error"
    (let to_ := "self.numvars.error" in
     let index := "self.numvars.idx_method" in
     let yielded := [to_ +:+ " = 0."] in
     fluxes ← group "fluxes";
     for_each (Model.numerics fluxes)
       (fun yielded '(name, seq) =>
          let from_ := "self.fluxes._" +:+ name +:+ "_results" in
          match Model.NDIM seq with
          | 0 =>
              Ok (yielded ++
                  [to_ +:+ " = max(" +:+ to_ +:+ ", fabs(" +:+ from_ +:+ "["
                     +:+ index +:+ "]-" +:+ from_ +:+ "[" +:+ index +:+ "-1]))"])
          | 1 =>
              Ok (yielded ++
                  ["cdef int idx0";
                   "for idx0 in range(self.fluxes._" +:+ name +:+ "_length0):";
                   "    " +:+ to_ +:+ " = max(" +:+ to_ +:+ ", abs(" +:+ from_
                     +:+ "[" +:+ index +:+ ", idx0]-" +:+ from_ +:+ "[" +:+ index
                     +:+ "-1, idx0]))"])
          | 2 =>
              Ok (yielded ++
                  ["cdef int idx0, idx1";
                   "for idx0 in range(self.fluxes._" +:+ name +:+ "_length0):";
                   "    for idx1 in range(self.fluxes._" +:+ name +:+ "_length1):";
                   "        " +:+ to_ +:+ " = max(" +:+ to_ +:+ ", abs(" +:+ from_
                     +:+ "[" +:+ index +:+ ", idx0, idx1]-" +:+ from_ +:+ "["
                     +:+ index +:+ "-1, idx0, idx1]))"])
          | _ => Raise (higher_than_expected name)
          end)
       yielded).

Definition extrapolate_error : result Lines.t :=
  convert_method "extrapolate_error".

Definition modelstandardfunctions : Lines.t :=
  let lines : Lines.t := [] in
  let lines := Lines.extend doit lines in
  let lines := Lines.extend iofunctions lines in
  let lines := Lines.extend new2old lines in
  let lines := Lines.extend run lines in
  let lines := Lines.extend update_inlets lines in
  let lines := Lines.extend update_outlets lines in
  let lines := Lines.extend update_receivers lines in
  let lines := Lines.extend update_senders lines in
  lines.

Definition modelnumericfunctions : result Lines.t :=
  for_each
    [solve; Ok calculate_single_terms; Ok calculate_full_terms;
     get_point_states; set_point_states; set_result_states;
     get_sum_fluxes; set_point_fluxes; set_result_fluxes;
     integrate_fluxes; reset_sum_fluxes; addup_fluxes;
     calculate_error; extrapolate_error]
    (fun lines part => part ← part; Ok (Lines.extend part lines))
    [].

(** The texts [write] hands to [pxf.write], in its order. *)
Definition parts : list (result string) :=
  [Ok (Lines.repr cythonoptions);
   Ok (Lines.repr cimports);
   Lines.repr <$> constants;
   Lines.repr <$> parameters;
   Lines.repr <$> sequences;
   Lines.repr <$> numericalparameters;
   Ok (Lines.repr modeldeclarations);
   Ok (Lines.repr modelstandardfunctions);
   Lines.repr <$> modelnumericfunctions;
   Lines.repr <$> modeluserfunctions].

End Writer.
End PyxWriter.

(** ** The file system and the external tools, as far as the driver sees them *)

Module World.

(** A regular file: its [os.stat(...).st_mtime] and its text. *)
Record File : Type := {
  st_mtime : Z;
  content : string
}.

(** An entry of [os.walk]: [(dirpath, dirnames, filenames)]. *)
Definition dirinfo : Type := string * list string * list string.

(** What the driver asked of its collaborators, latest first. *)
Inductive event : Type :=
| Tested
| Translated (pyxpath : string)
| Compiled (pyxpath : string)
| Moved (src dst : string).

Record t : Type := {
  files : gmap string File;
  (** what [os.walk(buildpath)] yields; nothing when the directory is missing *)
  buildtree : list dirinfo;
  (** [pub.options.usecython] *)
  usecython : bool;
  trace : list event
}.

(** The collaborators of one invocation: the time the file system stamps on
    a file written now, the doctests, the Cython build (the build tree it
    leaves, or the error of the tool chain) and [shutil.move]. *)
Record Env : Type := {
  now : Z;
  tester_doit : result unit;
  cythonize : result (list dirinfo);
  shutil_move : string -> string -> result unit
}.

(** Code that changes the world and may raise: the changes made before an
    exception stay. *)
Definition M (A : Type) : Type := t -> t * result A.

Definition ret {A} (a : A) : M A := fun w => (w, Ok a).

Definition bind {A B} (m : M A) (k : A -> M B) : M B :=
  fun w =>
    match m w with
    | (w', Ok a) => k a w'
    | (w', Raise e) => (w', Raise e)
    end.

Definition lift {A} (r : result A) : M A := fun w => (w, r).

Definition get : M t := fun w => (w, Ok w).

Definition modify (f : t -> t) : M unit := fun w => (f w, Ok tt).

Definition log (e : event) : M unit :=
  modify (fun w => {| files := files w; buildtree := buildtree w;
                      usecython := usecython w; trace := e :: trace w |}).

Definition set_usecython (b : bool) : M unit :=
  modify (fun w => {| files := files w; buildtree := buildtree w;
                      usecython := b; trace := trace w |}).

Definition set_buildtree (tree : list dirinfo) : M unit :=
  modify (fun w => {| files := files w; buildtree := tree;
                      usecython := usecython w; trace := trace w |}).

Definition set_file (path : string) (f : File) : M unit :=
  modify (fun w => {| files := <[path := f]> (files w); buildtree := buildtree w;
                      usecython := usecython w; trace := trace w |}).

End World.

Notation "'let*' x ':=' m 'in' k" := (World.bind m (fun x => k))
  (at level 10, x pattern, m at level 100, k at level 200).

(** A computation that leaves every file as it is. *)
Definition keeps_files {A} (m : World.M A) : Prop :=
  forall w w' r, m w = (w', r) -> World.files w' = World.files w.

(** [os.path.join(a, b)] on a POSIX system *)
Definition path_join (a b : string) : string :=
  if startswith b "/" then b
  else if String.eqb a "" || endswith a "/" then a +:+ b
  else a +:+ "/" +:+ b.

(** Modelled from the spec: [objecttools.augmentexcmessage] is not among the
    sources; the error in flight is raised again with the prefix and the
    remediation hint added to its message, and stays fatal. *)
Definition augmentexcmessage (e : exception) (prefix suffix : string) : exception :=
  let augment := fun message =>
    prefix +:+ ", the following error occured: " +:+ message +:+ "  " +:+ suffix in
  match e with
  | TypeError m => TypeError (augment m)
  | IOError m => IOError (augment m)
  | OSError m => OSError (augment m)
  | NotImplementedError m => NotImplementedError (augment m)
  | AttributeError m => AttributeError (augment m)
  | IndexError m => IndexError (augment m)
  | KeyError m => KeyError (augment m)
  | StopIteration => StopIteration
  end.

(** ** class Cythonizer *)

Module Cythonizer.
Import World.

Section Driver.
Variable options : Options.t.
Variable self : CythonizerData.t.
Variable env : Env.

(** [l[-1]] and [l[-2]] *)
Definition last_item (l : list string) : result string :=
  match rev l with
  | x :: _ => Ok x
  | _ => Raise (IndexError "list index out of range")
  end.
Definition last_but_one (l : list string) : result string :=
  match rev l with
  | _ :: x :: _ => Ok x
  | _ => Raise (IndexError "list index out of range")
  end.

Definition pyname : result string :=
  let pymodule := CythonizerData.pymodule self in
  if endswith pymodule "__init__"
  then last_but_one (split pymodule ".")
  else last_item (split pymodule ".").

Definition cyname : result string :=
  n ← pyname; Ok ("c_" +:+ n).

Definition cydirpath : string := CythonizerData.cydirpath self.

Definition cyfilepath : result string :=
  n ← cyname; Ok (path_join cydirpath (n +:+ ".pyx")).

Definition buildpath : string := path_join cydirpath "_build".

(** The files of a class and its bases, up to the first one [inspect.getfile]
    refuses. *)
Fixpoint files_of_mro (parents : list (option string)) : list string :=
  match parents with
  | Some sourcefile :: rest => sourcefile :: files_of_mro rest
  | _ => []
  end.

(** The set [pysourcefiles] collects, listed in the order of first
    insertion. *)
Definition pysourcefiles : list string :=
  remove_dups
    (flat_map
       (fun '(name, child) =>
          match child with
          | CythonizerData.Class parents => files_of_mro parents
          | CythonizerData.Object _ _ => []
          end)
       (CythonizerData.locals self)).

(** [os.stat(path).st_mtime] *)
Definition stat_mtime (w : World.t) (path : string) : result Z :=
  match files w !! path with
  | Some f => Ok (st_mtime f)
  | None => Raise (OSError ("No such file or directory: " +:+ path))
  end.

(** The loop of [outdated] over the source files. *)
Fixpoint newer_than (w : World.t) (cydate : Z) (sources : list string)
  : result bool :=
  match sources with
  | [] => Ok false
  | pysourcefile :: rest =>
      pydate ← stat_mtime w pysourcefile;
      if (pydate >? cydate)%Z then Ok true else newer_than w cydate rest
  end.

Definition outdated (w : World.t) : result bool :=
  p ← cyfilepath;
  match files w !! p with
  | None => Ok true
  | Some _ =>
      cydate ← stat_mtime w p;
      newer_than w cydate pysourcefiles
  end.

(** [PyxWriter.write]: [open(pyxpath, 'w')] empties the file, every
    [pxf.write] appends to it. *)
Fixpoint write_parts (pyxpath : string) (texts : list (result string))
    (written : string) : M unit :=
  match texts with
  | [] => ret tt
  | text :: rest =>
      let* text := lift text in
      let written := written +:+ text in
      let* _ := set_file pyxpath {| st_mtime := now env; content := written |} in
      write_parts pyxpath rest written
  end.

(** The text a [write] that is not interrupted leaves in the file. *)
Fixpoint written_text (texts : list (result string)) (written : string)
  : result string :=
  match texts with
  | [] => Ok written
  | text :: rest => text ← text; written_text rest (written +:+ text)
  end.

Definition write (pyxpath : string) : M unit :=
  let* _ := set_file pyxpath {| st_mtime := now env; content := "" |} in
  write_parts pyxpath
    (PyxWriter.parts options self (CythonizerData.model self)) "".

Definition compile_ : M unit :=
  let* p := lift cyfilepath in
  let* tree := lift (cythonize env) in
  let* _ := set_buildtree tree in
  log (Compiled p).

(** The inner loop of [movedll]: the first file of the directory that
    carries the name of the module and the extension of the platform. *)
Fixpoint find_dll (cyname : string) (filenames : list string)
    (system_dependend_filename : option string) : option string :=
  match filenames with
  | [] => system_dependend_filename
  | filename :: rest =>
      if startswith filename cyname && endswith filename (dllextension options)
      then Some filename
      else find_dll cyname rest system_dependend_filename
  end.

Definition not_found_message : string :=
  "After trying to cythonize module %s, the resulting "
  +:+ "file %s could neither be found in directory %s nor "
  +:+ "its subdirectories.  The distul report should tell "
  +:+ "whether the file has been stored somewhere else,"
  +:+ "is named somehow else, or could not be build at "
  +:+ "all.".

(** The outer loop of [movedll] with its [else] branch. *)
Fixpoint movedll_loop (pyname cyname : string) (dirinfos : list dirinfo)
    (system_dependend_filename : option string) : M unit :=
  match dirinfos with
  | [] =>
      let* message := lift (format not_found_message [buildpath]) in
      lift (Raise (IOError message))
  | (dirpath, _, filenames) :: rest =>
      let system_dependend_filename :=
        find_dll cyname filenames system_dependend_filename in
      match system_dependend_filename with
      | Some filename =>
          if negb (String.eqb filename "") then
            let src := path_join dirpath filename in
            let dst := path_join cydirpath (cyname +:+ dllextension options) in
            match shutil_move env src dst with
            | Ok _ => log (Moved src dst)
            | Raise e =>
                let prefix :=
                  "After trying to cythonize module " +:+ pyname
                  +:+ ", when trying to move the final cython module "
                  +:+ filename +:+ " from directory " +:+ buildpath
                  +:+ " to directory " +:+ cydirpath in
                let suffix :=
                  "A likely error cause is that the cython module " +:+ cyname
                  +:+ " does already exist in this directory and is "
                  +:+ "currently blocked by another Python process.  "
                  +:+ "Maybe it helps to close all Python processes "
                  +:+ "and restart the cyhonization afterwards."
                  +:+ dllextension options in
                lift (Raise (augmentexcmessage e prefix suffix))
            end
          else movedll_loop pyname cyname rest system_dependend_filename
      | None => movedll_loop pyname cyname rest system_dependend_filename
      end
  end.

Definition movedll : M unit :=
  let* pyname := lift pyname in
  let* cyname := lift cyname in
  let* w := get in
  match buildtree w with
  | [] => lift (Raise StopIteration)
  | _ :: dirinfos => movedll_loop pyname cyname dirinfos None
  end.

Definition doit : M unit :=
  let* p := lift cyfilepath in
  let* _ := log (Translated p) in
  let* _ := write p in
  let* _ := compile_ in
  movedll.

Definition tester : M unit :=
  let* _ := lift (tester_doit env) in
  log Tested.

Definition complete : M unit :=
  let* w := get in
  let* stale := lift (outdated w) in
  if stale then
    let* _ :=
      if negb (Options.skipdoctests options) then
        let* _ := set_usecython false in tester
      else ret tt in
    let* _ := doit in
    if negb (Options.skipdoctests options) then
      let* _ := set_usecython true in tester
    else ret tt
  else ret tt.

End Driver.
End Cythonizer.

(** The names a group of sequences iterates over. *)
Definition names (subseqs : Model.SubSequences) : list string :=
  map fst (Model.subseqs_items subseqs).

(** ** The routines emitted for a group of link sequences, and what they do

    [alloc], [dealloc] and [setpointer1d] emit a header and, per sequence,
    statements of a fixed shape.  [routine] names these statements, [render]
    gives back the emitted lines, and [exec] runs them on the attributes of
    one instance and the blocks [PyMem_Malloc] handed out.  The statements
    are run on the attributes they name, whatever the class declares:
    [sequences] declares the pointer [double **name] and the length
    [_name_length_0] for a 1-dimensional sequence only, so that a run stands
    for a run of the compiled class where the sequences of the group are
    1-dimensional. *)

Module Emitted.

Inductive simple : Type :=
| SetLength (name : string)
| Malloc (name : string)
| Free (name : string)
| StoreAt (name : string).

Inductive stmt : Type :=
| Do (s : simple)
| IfName (name : string) (body : list simple).

Definition render_simple (indent : nat) (s : simple) : Lines.t :=
  match s with
  | SetLength n => Lines.add indent ("self._" +:+ n +:+ "_length_0 = length") []
  | Malloc n =>
      Lines.add indent
        ("self." +:+ n +:+ " = <double**> PyMem_Malloc(length * sizeof(double*))") []
  | Free n => Lines.add indent ("PyMem_Free(self." +:+ n +:+ ")") []
  | StoreAt n => Lines.add indent ("self." +:+ n +:+ "[idx] = value.p_value") []
  end.

Definition render (indent : nat) (s : stmt) : Lines.t :=
  match s with
  | Do s => render_simple indent s
  | IfName n body =>
      Lines.add indent ("if name == " +:+ DQUOTE +:+ n +:+ DQUOTE +:+ ":") []
      ++ flat_map (render_simple (S indent)) body
  end.

Record routine : Type := {
  header : string;
  body : list stmt
}.

Definition render_routine (r : routine) : Lines.t :=
  Lines.add 1 (header r) [] ++ flat_map (render 2) (body r).

Definition alloc (subseqs : Model.SubSequences) : routine :=
  {| header := "cpdef inline alloc(self, name, int length):";
     body := map (fun '(name, _) => IfName name [SetLength name; Malloc name])
               (Model.subseqs_items subseqs) |}.

Definition dealloc (subseqs : Model.SubSequences) : routine :=
  {| header := "cpdef inline dealloc(self):";
     body := map (fun '(name, _) => Do (Free name)) (Model.subseqs_items subseqs) |}.

Definition setpointer1d (subseqs : Model.SubSequences) : routine :=
  {| header :=
       "cpdef inline setpointer1d(self, str name, pointerutils.PDouble value, int idx):";
     body := map (fun '(name, _) => IfName name [StoreAt name])
               (Model.subseqs_items subseqs) |}.

(** An address; a block of [double*] slots, each empty or pointing into
    another model. *)
Abbreviation addr := nat.
Abbreviation block := (list (option nat)).

(** One instance of the emitted class and the allocator: the pointer
    attributes ([NULL] when absent, as in a fresh instance), the lengths, the
    blocks that are allocated, and the next address the allocator hands
    out (an address is not handed out twice). *)
Record state : Type := {
  pointers : gmap string addr;
  lengths : gmap string nat;
  heap : gmap addr block;
  next : addr
}.

Inductive fault : Type :=
| InvalidFree (a : addr)
| InvalidStore (name : string).

(** The arguments of a call. *)
Record args : Type := {
  arg_name : string;
  arg_length : nat;
  arg_idx : nat;
  arg_value : addr
}.

Definition exec_simple (a : args) (s : simple) (st : state) : fault + state :=
  match s with
  | SetLength n =>
      inr {| pointers := pointers st;
             lengths := <[n := arg_length a]> (lengths st);
             heap := heap st; next := next st |}
  | Malloc n =>
      inr {| pointers := <[n := next st]> (pointers st);
             lengths := lengths st;
             heap := <[next st := replicate (arg_length a) None]> (heap st);
             next := S (next st) |}
  | Free n =>
      match pointers st !! n with
      | None => inr st
      | Some p =>
          match heap st !! p with
          | Some _ =>
              inr {| pointers := pointers st; lengths := lengths st;
                     heap := delete p (heap st); next := next st |}
          | None => inl (InvalidFree p)
          end
      end
  | StoreAt n =>
      match pointers st !! n with
      | None => inl (InvalidStore n)
      | Some p =>
          match heap st !! p with
          | Some b =>
              if (arg_idx a <? length b)%nat then
                inr {| pointers := pointers st; lengths := lengths st;
                       heap := <[p := <[arg_idx a := Some (arg_value a)]> b]> (heap st);
                       next := next st |}
              else inl (InvalidStore n)
          | None => inl (InvalidStore n)
          end
      end
  end.

Fixpoint exec_block (a : args) (l : list simple) (st : state) : fault + state :=
  match l with
  | [] => inr st
  | s :: rest =>
      match exec_simple a s st with
      | inr st' => exec_block a rest st'
      | inl f => inl f
      end
  end.

Definition exec (a : args) (s : stmt) (st : state) : fault + state :=
  match s with
  | Do s => exec_simple a s st
  | IfName n body =>
      if String.eqb (arg_name a) n then exec_block a body st else inr st
  end.

Fixpoint exec_all (a : args) (l : list stmt) (st : state) : fault + state :=
  match l with
  | [] => inr st
  | s :: rest =>
      match exec a s st with
      | inr st' => exec_all a rest st'
      | inl f => inl f
      end
  end.

Definition call (r : routine) (a : args) (st : state) : fault + state :=
  exec_all a (body r) st.

(** [obj.alloc(name, length)] and [obj.dealloc()] *)
Definition call_alloc (subseqs : Model.SubSequences) (name : string)
    (length : nat) : state -> fault + state :=
  call (alloc subseqs)
    {| arg_name := name; arg_length := length; arg_idx := 0; arg_value := 0 |}.

Definition call_dealloc (subseqs : Model.SubSequences) : state -> fault + state :=
  call (dealloc subseqs)
    {| arg_name := ""; arg_length := 0; arg_idx := 0; arg_value := 0 |}.

(** A fresh instance: every pointer is [NULL], nothing is allocated. *)
Definition fresh : state :=
  {| pointers := ∅; lengths := ∅; heap := ∅; next := 1 |}.

End Emitted.

(** ** The per-step procedure as the design document describes it

    The stages of the procedure [doit] in their fixed order, the condition
    under which the document includes each, and the call each stands
    for. *)

Module Stages.

Inductive stage : Type :=
| LoadInputs | RunInlets | SolverStep | PlainUpdate | SwapStates
| RunOutlets | SaveOutputs.

Definition order : list stage :=
  [LoadInputs; RunInlets; SolverStep; PlainUpdate; SwapStates;
   RunOutlets; SaveOutputs].

Definition included (model : Model.t) (s : stage) : bool :=
  match s with
  | LoadInputs => Model.declares model "inputs"
  | RunInlets => negb (Nat.eqb (length (Model._INLET_METHODS model)) 0)
  | SolverStep => Model.hasattr model "solve"
  | PlainUpdate => negb (Model.hasattr model "solve")
  | SwapStates => negb (Model.hasattr model "solve") && Model.declares model "states"
  | RunOutlets => negb (Nat.eqb (length (Model._OUTLET_METHODS model)) 0)
  | SaveOutputs => Model.declares model "fluxes" || Model.declares model "states"
  end.

Definition call (s : stage) : string :=
  match s with
  | LoadInputs => "self.loaddata()"
  | RunInlets => "self.update_inlets()"
  | SolverStep => "self.solve()"
  | PlainUpdate => "self.run()"
  | SwapStates => "self.new2old()"
  | RunOutlets => "self.update_outlets()"
  | SaveOutputs => "self.savedata()"
  end.

End Stages.

(** ** The emitters of the numeric scaffolding, by the group they go through *)

Module Scaffolding.

(** The emitters that copy the states, those that copy the fluxes, and those
    that go through the numeric fluxes, each with the name of the method the
    model has to define. *)
Definition state_captures (options : Options.t) (model : Model.t)
  : list (string * result Lines.t) :=
  [("get_point_states", PyxWriter.get_point_states options model);
   ("set_point_states", PyxWriter.set_point_states options model);
   ("set_result_states", PyxWriter.set_result_states options model)].

Definition flux_captures (options : Options.t) (model : Model.t)
  : list (string * result Lines.t) :=
  [("get_sum_fluxes", PyxWriter.get_sum_fluxes options model);
   ("set_point_fluxes", PyxWriter.set_point_fluxes options model);
   ("set_result_fluxes", PyxWriter.set_result_fluxes options model)].

Definition numeric_flux_emitters (options : Options.t) (model : Model.t)
  : list (string * result Lines.t) :=
  [("integrate_fluxes", PyxWriter.integrate_fluxes options model);
   ("reset_sum_fluxes", PyxWriter.reset_sum_fluxes options model);
   ("addup_fluxes", PyxWriter.addup_fluxes options model);
   ("calculate_error", PyxWriter.calculate_error options model)].

Definition emitters (options : Options.t) (model : Model.t)
  : list (string * result Lines.t) :=
  state_captures options model ++ flux_captures options model
  ++ numeric_flux_emitters options model.

End Scaffolding.

(** ** Sample models and routines *)

(** A model with the groups [control] and [fluxes] and no other. *)
Definition model_flu : Model.t :=
  {| Model.parameters :=
       [("control", {| Model.subpars_classname := "ControlParameters";
                       Model.subpars_items := [] |})];
     Model.sequences :=
       [("fluxes", {| Model.subseqs_name := "fluxes";
                      Model.subseqs_class_ := Model.FluxSequences;
                      Model.subseqs_classname := "FluxSequences";
                      Model.subseqs_items := [] |})];
     Model.attributes := [];
     Model.NUMERICAL := false;
     Model._INLET_METHODS := [];
     Model._OUTLET_METHODS := [];
     Model._RECEIVER_METHODS := [];
     Model._SENDER_METHODS := [];
     Model._RUN_METHODS := ["calc_q_v1"];
     Model._PART_ODE_METHODS := [];
     Model._FULL_ODE_METHODS := [];
     Model.class_functions := [];
     Model.instance_methods := [] |}.

(** A routine that uses the shorthand [xyz] of no group. *)
Definition calc_q_v1 : Model.Func :=
  {| Model.getsource :=
       "    def calc_q_v1(self):" +:+ LF
       +:+ "        flu = self.sequences.fluxes.fastaccess" +:+ LF
       +:+ "        xyz = self.sequences.xyz.fastaccess" +:+ LF
       +:+ "        flu.q = xyz.a * 2." +:+ LF;
     Model.co_varnames := ["self"; "flu"; "xyz"];
     Model.getargs := ["self"] |}.

(** A routine whose comments number its steps: the brackets of its text
    close twice what was never opened. *)
Definition calc_r_v1 : Model.Func :=
  {| Model.getsource :=
       "    def calc_r_v1(self):" +:+ LF
       +:+ "        flu = self.sequences.fluxes.fastaccess" +:+ LF
       +:+ "        # 1) the first flux" +:+ LF
       +:+ "        flu.q = 2." +:+ LF
       +:+ "        # 2) the second flux" +:+ LF
       +:+ "        flu.r = 1." +:+ LF;
     Model.co_varnames := ["self"; "flu"];
     Model.getargs := ["self"] |}.

(** A routine with a compound assignment that a comment follows. *)
Definition calc_x_v1 : Model.Func :=
  {| Model.getsource :=
       "    def calc_x_v1(self):" +:+ LF
       +:+ "        flu = self.sequences.fluxes.fastaccess" +:+ LF
       +:+ "        a = flu.q" +:+ LF
       +:+ "        b = flu.r" +:+ LF
       +:+ "        x = 1." +:+ LF
       +:+ "        x += a*b  # c" +:+ LF
       +:+ "        flu.q = x" +:+ LF;
     Model.co_varnames := ["self"; "flu"; "a"; "b"; "x"];
     Model.getargs := ["self"] |}.

Definition fast : Options.t :=
  {| Options.fastcython := true; Options.skipdoctests := true;
     Options.windows := false; Options.int_dtype := "int64" |}.

(** The cythonizer of the module [hydpy.models.test]: the model class of
    the module, defined in [test_model.py] on top of [modeltools.py], and a
    constant. *)
Definition cythonizer_test : CythonizerData.t :=
  {| CythonizerData.pymodule := "hydpy.models.test";
     CythonizerData.locals :=
       [("Model", CythonizerData.Class
                    [Some "/hydpy/models/test/test_model.py";
                     Some "/hydpy/core/modeltools.py"; None]);
        ("CONSTANT", CythonizerData.Object Model.Tint "3")];
     CythonizerData.cydirpath := "/hydpy/cythons/autogen";
     CythonizerData.model := model_flu |}.

Definition pyx_test : string := "/hydpy/cythons/autogen/c_test.pyx".

Definition world_of (files : list (string * Z)) : World.t :=
  {| World.files :=
       list_to_map (map (fun '(path, t) =>
                           (path, {| World.st_mtime := t; World.content := "" |}))
                      files);
     World.buildtree := [];
     World.usecython := true;
     World.trace := [] |}.

(** No generated file; a generated file of time 100 with a source of time
    101; a generated file of time 100 with sources of times 99 and 42. *)
Definition world_missing : World.t :=
  world_of [("/hydpy/models/test/test_model.py", 101%Z);
            ("/hydpy/core/modeltools.py", 42%Z)].
Definition world_newer : World.t :=
  world_of [(pyx_test, 100%Z);
            ("/hydpy/models/test/test_model.py", 42%Z);
            ("/hydpy/core/modeltools.py", 101%Z)].
Definition world_older : World.t :=
  world_of [(pyx_test, 100%Z);
            ("/hydpy/models/test/test_model.py", 99%Z);
            ("/hydpy/core/modeltools.py", 42%Z)].

(** The build of [c_test] leaves the shared library in a subdirectory
    of the build directory; nothing blocks the move. *)
Definition env_at (now : Z) : World.Env :=
  {| World.now := now;
     World.tester_doit := Ok tt;
     World.cythonize :=
       Ok [("/hydpy/cythons/autogen/_build", ["hydpy"], []);
           ("/hydpy/cythons/autogen/_build/hydpy", [],
            ["c_test.cpython-36m-x86_64-linux-gnu.so"])];
     World.shutil_move := fun _ _ => Ok tt |}.

(** The generated file is missing and a source file carries a time, 200,
    that lies ahead of the clock. *)
Definition world_ahead : World.t :=
  world_of [("/hydpy/models/test/test_model.py", 200%Z);
            ("/hydpy/core/modeltools.py", 42%Z)].

(** The build directory after a compilation that left its object files
    but no shared library. *)
Definition world_without_dll : World.t :=
  {| World.files := ∅;
     World.buildtree :=
       [("/hydpy/cythons/autogen/_build", ["temp"], []);
        ("/hydpy/cythons/autogen/_build/temp", [], ["c_test.o"; "c_test.c"])];
     World.usecython := true;
     World.trace := [] |}.

(** A group of outlet sequences whose first sequence is 0-dimensional and
    whose second is 1-dimensional, and one with the two in the other
    order. *)
Definition link_sequence (n : string) (ndim : nat) : string * Model.Sequence :=
  (n, {| Model.name := n; Model.NDIM := ndim; Model.NUMERIC := false |}).

Definition outlets_0d_first : Model.SubSequences :=
  {| Model.subseqs_name := "outlets";
     Model.subseqs_class_ := Model.LinkSequences;
     Model.subseqs_classname := "OutletSequences";
     Model.subseqs_items := [link_sequence "q" 0; link_sequence "branched" 1] |}.

Definition outlets_1d_first : Model.SubSequences :=
  {| Model.subseqs_name := "outlets";
     Model.subseqs_class_ := Model.LinkSequences;
     Model.subseqs_classname := "OutletSequences";
     Model.subseqs_items := [link_sequence "branched" 1; link_sequence "q" 0] |}.

(** A group of outlet sequences that are all 1-dimensional. *)
Definition outlets_1d : Model.SubSequences :=
  {| Model.subseqs_name := "outlets";
     Model.subseqs_class_ := Model.LinkSequences;
     Model.subseqs_classname := "OutletSequences";
     Model.subseqs_items :=
       [link_sequence "branched" 1; link_sequence "overflow" 1] |}.

(** A model that defines every method of the numeric scaffolding and whose
    only sequence of three dimensions is a numeric state. *)
Definition numeric_sequence (n : string) (ndim : nat) : string * Model.Sequence :=
  (n, {| Model.name := n; Model.NDIM := ndim; Model.NUMERIC := true |}).

Definition model_3d_state : Model.t :=
  {| Model.parameters := [];
     Model.sequences :=
       [("fluxes", {| Model.subseqs_name := "fluxes";
                      Model.subseqs_class_ := Model.FluxSequences;
                      Model.subseqs_classname := "FluxSequences";
                      Model.subseqs_items := [numeric_sequence "q" 0] |});
        ("states", {| Model.subseqs_name := "states";
                      Model.subseqs_class_ := Model.StateSequences;
                      Model.subseqs_classname := "StateSequences";
                      Model.subseqs_items := [numeric_sequence "s" 3] |})];
     Model.attributes :=
       [("solve", None); ("get_point_states", None); ("set_point_states", None);
        ("set_result_states", None); ("get_sum_fluxes", None);
        ("set_point_fluxes", None); ("set_result_fluxes", None);
        ("integrate_fluxes", None); ("reset_sum_fluxes", None);
        ("addup_fluxes", None); ("calculate_error", None)];
     Model.NUMERICAL := true;
     Model._INLET_METHODS := [];
     Model._OUTLET_METHODS := [];
     Model._RECEIVER_METHODS := [];
     Model._SENDER_METHODS := [];
     Model._RUN_METHODS := [];
     Model._PART_ODE_METHODS := [];
     Model._FULL_ODE_METHODS := [];
     Model.class_functions := [];
     Model.instance_methods := [] |}.

(** The same with a numeric flux of three dimensions behind a scalar one. *)
Definition model_3d_flux : Model.t :=
  {| Model.parameters := [];
     Model.sequences :=
       [("fluxes", {| Model.subseqs_name := "fluxes";
                      Model.subseqs_class_ := Model.FluxSequences;
                      Model.subseqs_classname := "FluxSequences";
                      Model.subseqs_items :=
                        [numeric_sequence "q" 0; numeric_sequence "r" 3] |})];
     Model.attributes := Model.attributes model_3d_state;
     Model.NUMERICAL := true;
     Model._INLET_METHODS := [];
     Model._OUTLET_METHODS := [];
     Model._RECEIVER_METHODS := [];
     Model._SENDER_METHODS := [];
     Model._RUN_METHODS := [];
     Model._PART_ODE_METHODS := [];
     Model._FULL_ODE_METHODS := [];
     Model.class_functions := [];
     Model.instance_methods := [] |}.

(** A model that defines every method of the numeric scaffolding and has a
    numeric flux and a numeric state of two dimensions, each behind a scalar
    one. *)
Definition model_2d : Model.t :=
  {| Model.parameters := [];
     Model.sequences :=
       [("fluxes", {| Model.subseqs_name := "fluxes";
                      Model.subseqs_class_ := Model.FluxSequences;
                      Model.subseqs_classname := "FluxSequences";
                      Model.subseqs_items :=
                        [numeric_sequence "q" 0; numeric_sequence "r" 2] |});
        ("states", {| Model.subseqs_name := "states";
                      Model.subseqs_class_ := Model.StateSequences;
                      Model.subseqs_classname := "StateSequences";
                      Model.subseqs_items :=
                        [numeric_sequence "v" 0; numeric_sequence "s" 2] |})];
     Model.attributes := Model.attributes model_3d_state;
     Model.NUMERICAL := true;
     Model._INLET_METHODS := [];
     Model._OUTLET_METHODS := [];
     Model._RECEIVER_METHODS := [];
     Model._SENDER_METHODS := [];
     Model._RUN_METHODS := [];
     Model._PART_ODE_METHODS := [];
     Model._FULL_ODE_METHODS := [];
     Model.class_functions := [];
     Model.instance_methods := [] |}.

(** A model with a scalar and a 1-dimensional numeric flux that defines the
    method [calculate_error]. *)
Definition model_1d_flux : Model.t :=
  {| Model.parameters := [];
     Model.sequences :=
       [("fluxes", {| Model.subseqs_name := "fluxes";
                      Model.subseqs_class_ := Model.FluxSequences;
                      Model.subseqs_classname := "FluxSequences";
                      Model.subseqs_items :=
                        [numeric_sequence "q" 0; numeric_sequence "r" 1] |})];
     Model.attributes := [("solve", None); ("calculate_error", None)];
     Model.NUMERICAL := true;
     Model._INLET_METHODS := [];
     Model._OUTLET_METHODS := [];
     Model._RECEIVER_METHODS := [];
     Model._SENDER_METHODS := [];
     Model._RUN_METHODS := [];
     Model._PART_ODE_METHODS := [];
     Model._FULL_ODE_METHODS := [];
     Model.class_functions := [];
     Model.instance_methods := [] |}.

(** A generated file of time 100 whose sources carry the times 100 and 42. *)
Definition world_same_time : World.t :=
  world_of [(pyx_test, 100%Z);
            ("/hydpy/models/test/test_model.py", 100%Z);
            ("/hydpy/core/modeltools.py", 42%Z)].

(** A generated file of time 100, one source of time 42, the other
    deleted. *)
Definition world_source_deleted : World.t :=
  world_of [(pyx_test, 100%Z);
            ("/hydpy/models/test/test_model.py", 42%Z)].

(** The Cython build fails. *)
Definition env_build_fails (now : Z) : World.Env :=
  {| World.now := now;
     World.tester_doit := Ok tt;
     World.cythonize := Raise (OSError "command 'gcc' failed with exit status 1");
     World.shutil_move := fun _ _ => Ok tt |}.

Definition matches (options : Options.t) (cyname filename : string) : bool :=
  startswith filename cyname && endswith filename (dllextension options).

Definition world_built : World.t :=
  {| World.files := ∅;
     World.buildtree :=
       [("/hydpy/cythons/autogen/_build", ["temp"; "lib"], ["c_test.so"]);
        ("/hydpy/cythons/autogen/_build/temp", [], ["c_test.o"]);
        ("/hydpy/cythons/autogen/_build/lib", [],
         ["c_other.so"; "c_test.cpython-36m-x86_64-linux-gnu.so"; "c_test.so"])];
     World.usecython := true;
     World.trace := [] |}.

(** The six characters [remove_linebreaks_within_equations] counts. *)
Definition brackets : list ascii := ["("; "["; "{"; ")"; "]"; "}"]%char.

(** No character of [among] occurs in [s]. *)
Definition free_of (among : list ascii) (s : string) : bool :=
  forallb (fun c => Nat.eqb (count s c) 0) among.

(** * Properties *)

(** ** Strings *)

Lemma app_cons (c : ascii) (s t : string) : String c s +:+ t = String c (s +:+ t).
Proof. reflexivity. Qed.

Lemma append_nil_r (s : string) : s +:+ "" = s.
Proof. induction s as [|c s IH]; [reflexivity|]. rewrite app_cons, IH. reflexivity. Qed.

Lemma app_assoc_str (s t u : string) : (s +:+ t) +:+ u = s +:+ (t +:+ u).
Proof.
  induction s as [|c s IH]; [reflexivity|].
  rewrite !app_cons, IH. reflexivity.
Qed.

Lemma length_app_str (s t : string) :
  String.length (s +:+ t) = String.length s + String.length t.
Proof.
  induction s as [|c s IH]; [reflexivity|].
  rewrite app_cons. simpl. rewrite IH. reflexivity.
Qed.

Lemma app_inv_head_str (s t u : string) : s +:+ t = s +:+ u -> t = u.
Proof.
  induction s as [|c s IH]; [tauto|].
  rewrite !app_cons. intros H. injection H as H. auto.
Qed.

(** Two ways of cutting the same string share the shorter first part. *)
Lemma app_eq_app_str (a b c d : string) :
  a +:+ b = c +:+ d ->
  exists l, (a = c +:+ l /\ d = l +:+ b) \/ (c = a +:+ l /\ b = l +:+ d).
Proof.
  revert c. induction a as [|x a IH]; intros c H.
  - exists c. right. split; [reflexivity|exact H].
  - destruct c as [|y c].
    + exists (String x a). left. split; [reflexivity|]. symmetry. exact H.
    + rewrite !app_cons in H. injection H as -> H.
      destruct (IH _ H) as [l [[-> ->]|[-> ->]]]; exists l; [left|right];
        rewrite ?app_cons; split; reflexivity.
Qed.

Lemma startswith_spec (s p : string) :
  startswith s p = true <-> exists r, s = p +:+ r.
Proof.
  revert s. induction p as [|c p IH]; intros s.
  - destruct s; simpl; split; eauto.
  - destruct s as [|d s]; simpl.
    + split; [discriminate|]. intros [r H]. rewrite app_cons in H. discriminate.
    + rewrite andb_true_iff, IH. split.
      * intros [Hc [r ->]]. apply Ascii.eqb_eq in Hc as ->.
        exists r. reflexivity.
      * intros [r H]. rewrite app_cons in H. injection H as -> ->.
        split; [apply Ascii.eqb_refl|eauto].
Qed.

Lemma contains_spec (s sub : string) :
  contains s sub = true <-> exists a b, s = a +:+ sub +:+ b.
Proof.
  induction s as [|c s IH].
  - change (contains "" sub) with (startswith "" sub || false).
    rewrite orb_false_r, startswith_spec. split.
    + intros [r H]. exists "", r. exact H.
    + intros [a [b H]]. destruct a; [eauto|]. rewrite app_cons in H. discriminate.
  - change (contains (String c s) sub)
      with (startswith (String c s) sub || contains s sub).
    rewrite orb_true_iff, startswith_spec, IH. split.
    + intros [[r H]|[a [b H]]].
      * exists "", r. exact H.
      * exists (String c a), b. rewrite app_cons, H. reflexivity.
    + intros [a [b H]]. destruct a as [|x a].
      * left. exists b. exact H.
      * right. rewrite app_cons in H. injection H as -> ->. eauto.
Qed.

Lemma take_drop_str (k : nat) (s : string) : take k s +:+ drop k s = s.
Proof.
  revert s. induction k as [|k IH]; intros [|c s]; simpl; try reflexivity.
  rewrite app_cons, IH. reflexivity.
Qed.

Lemma take_app_length (l r : string) : take (String.length l) (l +:+ r) = l.
Proof.
  induction l as [|c l IH]; [reflexivity|].
  rewrite app_cons. simpl. rewrite IH. reflexivity.
Qed.

Lemma drop_app_length (l r : string) : drop (String.length l) (l +:+ r) = r.
Proof.
  induction l as [|c l IH]; [reflexivity|].
  rewrite app_cons. simpl. exact IH.
Qed.

Lemma endswith_app (a p : string) : endswith (a +:+ p) p = true.
Proof.
  unfold endswith. rewrite length_app_str.
  replace (String.length a + String.length p - String.length p)
    with (String.length a) by lia.
  rewrite drop_app_length, String.eqb_refl.
  apply andb_true_iff. split; [apply Nat.leb_le; lia|reflexivity].
Qed.

Lemma endswith_spec (s p : string) :
  endswith s p = true <-> exists a, s = a +:+ p.
Proof.
  split.
  - unfold endswith. intros H. apply andb_true_iff in H as [_ H].
    apply String.eqb_eq in H.
    exists (take (String.length s - String.length p) s).
    transitivity (take (String.length s - String.length p) s
                  +:+ drop (String.length s - String.length p) s).
    + symmetry. apply take_drop_str.
    + f_equal. exact H.
  - intros [a ->]. apply endswith_app.
Qed.

Lemma contains_app_cases (s t sub : string) :
  contains (s +:+ t) sub = true ->
  contains s sub = true \/ contains t sub = true \/ straddles s t sub = true.
Proof.
  rewrite !contains_spec. intros [a [b H]].
  destruct (app_eq_app_str _ _ _ _ H) as [l [[-> H2]|[-> ->]]]; [|eauto].
  symmetry in H2.
  destruct (app_eq_app_str _ _ _ _ H2) as [l' [[-> ->]|[-> ->]]].
  - left. exists a, l'. reflexivity.
  - destruct l as [|x l]; [right; left; exists "", b; reflexivity|].
    destruct l' as [|y l'].
    + left. exists a, "". rewrite !append_nil_r. reflexivity.
    + right. right. unfold straddles. apply existsb_exists.
      exists (String.length (String x l)). split.
      * apply in_seq. rewrite length_app_str. simpl. lia.
      * rewrite take_app_length, drop_app_length, endswith_app, andb_true_l.
        apply startswith_spec. eauto.
Qed.

Lemma contains_app_false (s t sub : string) :
  contains s sub = false -> contains t sub = false ->
  straddles s t sub = false -> contains (s +:+ t) sub = false.
Proof.
  intros Hs Ht Hst. destruct (contains (s +:+ t) sub) eqn:E; [|reflexivity].
  apply contains_app_cases in E as [E|[E|E]]; congruence.
Qed.

Lemma contains_app_l (s t sub : string) :
  contains s sub = true -> contains (s +:+ t) sub = true.
Proof.
  rewrite !contains_spec. intros [a [b ->]]. exists a, (b +:+ t).
  rewrite !app_assoc_str. reflexivity.
Qed.

Lemma contains_app_r (s t sub : string) :
  contains t sub = true -> contains (s +:+ t) sub = true.
Proof.
  rewrite !contains_spec. intros [a [b ->]]. exists (s +:+ a), b.
  rewrite !app_assoc_str. reflexivity.
Qed.

(** ** FuncConverter.remove_imath_operators *)

Lemma split_go_skip (sep x b : string) :
  split_go sep (x +:+ b) (String.length x) = split_go sep b 0.
Proof.
  induction x as [|c x IH]; [reflexivity|].
  rewrite app_cons. simpl. exact IH.
Qed.

Lemma split_none (s sep : string) :
  contains s sep = false -> split s sep = [s].
Proof.
  unfold split. induction s as [|c s IH]; [reflexivity|].
  change (contains (String c s) sep)
    with (startswith (String c s) sep || contains s sep).
  intros H. apply orb_false_iff in H as [H1 H2].
  change (split_go sep (String c s) 0)
    with (if startswith (String c s) sep
          then "" :: split_go sep s (String.length sep - 1)
          else cons_head c (split_go sep s 0)).
  rewrite H1, (IH H2). reflexivity.
Qed.

Lemma split_first (sep a b : string) :
  sep <> "" ->
  (forall a1 a2, a = a1 +:+ a2 -> a2 <> "" ->
                 startswith (a2 +:+ sep +:+ b) sep = false) ->
  split (a +:+ sep +:+ b) sep = a :: split b sep.
Proof.
  unfold split. intros Hsep. induction a as [|c a IH]; intros H.
  - destruct sep as [|x sep']; [congruence|].
    change ("" +:+ String x sep' +:+ b) with (String x (sep' +:+ b)).
    change (split_go (String x sep') (String x (sep' +:+ b)) 0)
      with (if startswith (String x (sep' +:+ b)) (String x sep')
            then "" :: split_go (String x sep') (sep' +:+ b)
                         (String.length (String x sep') - 1)
            else cons_head x (split_go (String x sep') (sep' +:+ b) 0)).
    replace (startswith (String x (sep' +:+ b)) (String x sep')) with true.
    + replace (String.length (String x sep') - 1) with (String.length sep')
        by (simpl; lia).
      rewrite split_go_skip. reflexivity.
    + symmetry. apply startswith_spec. exists b. reflexivity.
  - rewrite app_cons.
    change (split_go sep (String c (a +:+ sep +:+ b)) 0)
      with (if startswith (String c (a +:+ sep +:+ b)) sep
            then "" :: split_go sep (a +:+ sep +:+ b) (String.length sep - 1)
            else cons_head c (split_go sep (a +:+ sep +:+ b) 0)).
    rewrite <- app_cons, (H "" (String c a)) by (reflexivity || discriminate).
    rewrite IH; [reflexivity|].
    intros a1 a2 -> Ha2. apply (H (String c a1) a2); [reflexivity|exact Ha2].
Qed.

Lemma no_inner_occurrence (sep a b : string) :
  contains a sep = false -> straddles a (sep +:+ b) sep = false ->
  forall a1 a2, a = a1 +:+ a2 -> a2 <> "" ->
                startswith (a2 +:+ sep +:+ b) sep = false.
Proof.
  intros Ha Hst a1 a2 -> Ha2.
  destruct (startswith (a2 +:+ sep +:+ b) sep) eqn:E; [exfalso|reflexivity].
  apply startswith_spec in E as [r E].
  destruct (app_eq_app_str _ _ _ _ E) as [l [[-> _]|[Hs Hb]]].
  - assert (contains (a1 +:+ sep +:+ l) sep = true); [|congruence].
    apply contains_spec. eauto.
  - destruct l as [|y l].
    + rewrite append_nil_r in Hs. subst a2.
      assert (contains (a1 +:+ sep) sep = true); [|congruence].
      apply contains_spec. exists a1, "". rewrite append_nil_r. reflexivity.
    + assert (straddles (a1 +:+ a2) (sep +:+ b) sep = true); [|congruence].
      clear Ha Hst E. subst sep.
      unfold straddles. apply existsb_exists. exists (String.length a2). split.
      * apply in_seq. rewrite length_app_str.
        destruct a2; [congruence|]. simpl. lia.
      * rewrite take_app_length, drop_app_length.
        rewrite endswith_app, andb_true_l. apply startswith_spec.
        exists r. exact Hb.
Qed.

Lemma count_app (s t : string) (c : ascii) :
  count (s +:+ t) c = count s c + count t c.
Proof.
  induction s as [|d s IH]; [reflexivity|].
  rewrite app_cons. simpl. rewrite IH. lia.
Qed.

Lemma count_rep_space (n : nat) : count (rep n " ") " " = n.
Proof.
  induction n as [|n IH]; [reflexivity|].
  simpl rep. rewrite count_app, IH. reflexivity.
Qed.

Lemma lstrip_rep_space (n : nat) (s : string) : lstrip (rep n " " +:+ s) = lstrip s.
Proof. induction n as [|n IH]; [reflexivity|]. exact IH. Qed.

Lemma lstrip_length (s : string) : String.length (lstrip s) <= String.length s.
Proof.
  induction s as [|c s IH]; [reflexivity|].
  simpl. destruct (isspace c); simpl; lia.
Qed.

Lemma lstrip_fixed_app (s t : string) :
  lstrip s = s -> s <> "" -> lstrip (s +:+ t) = s +:+ t.
Proof.
  destruct s as [|c s]; [congruence|]. intros H _.
  rewrite app_cons. simpl in *. destruct (isspace c); [|reflexivity].
  pose proof (lstrip_length s) as Hl. rewrite H in Hl. simpl in Hl. lia.
Qed.

Lemma lstrip_suffix (s : string) : exists w, s = w +:+ lstrip s.
Proof.
  induction s as [|c s [w IH]]; [exists ""; reflexivity|].
  simpl. destruct (isspace c).
  - exists (String c w). rewrite app_cons, <- IH. reflexivity.
  - exists "". reflexivity.
Qed.

Lemma rstrip_prefix (s : string) : exists w, s = rstrip s +:+ w.
Proof.
  induction s as [|c s [w IH]]; [exists ""; reflexivity|].
  simpl. destruct (rstrip s) as [|d r] eqn:E.
  - destruct (isspace c).
    + exists (String c s). reflexivity.
    + exists w. rewrite app_cons. f_equal. exact IH.
  - exists w. rewrite app_cons. f_equal. exact IH.
Qed.

Lemma contains_strip (s sub : string) :
  contains s sub = false -> contains (strip s) sub = false.
Proof.
  intros H. destruct (contains (strip s) sub) eqn:E; [|reflexivity].
  destruct (lstrip_suffix s) as [w1 H1].
  destruct (rstrip_prefix (lstrip s)) as [w2 H2].
  assert (contains s sub = true); [|congruence].
  rewrite H1. apply contains_app_r. rewrite H2. apply contains_app_l. exact E.
Qed.

Lemma strip_rep_space (n : nat) (s : string) : strip (rep n " " +:+ s) = strip s.
Proof. unfold strip. rewrite lstrip_rep_space. reflexivity. Qed.

(** A character that does not occur in [sub] is not where [sub] starts. *)
Lemma startswith_cons_fresh (c : ascii) (t p : string) :
  count p c = 0 -> p <> "" -> startswith (String c t) p = false.
Proof.
  destruct p as [|d p]; [congruence|]. intros H _. simpl in *.
  rewrite Ascii.eqb_sym. destruct (Ascii.eqb d c); [discriminate|reflexivity].
Qed.

Lemma count_drop (k : nat) (s : string) (c : ascii) :
  count s c = 0 -> count (drop k s) c = 0.
Proof.
  revert s. induction k as [|k IH]; intros [|d s] H; simpl in *; try assumption.
  apply IH. lia.
Qed.

Lemma drop_nonempty (k : nat) (s : string) : k < String.length s -> drop k s <> "".
Proof.
  revert s. induction k as [|k IH]; intros [|d s] H; simpl in *;
    try lia; try discriminate.
  apply IH. lia.
Qed.

(** A string does not occur across a character it does not contain. *)
Lemma contains_sep (c : ascii) (s t sub : string) :
  count sub c = 0 -> sub <> "" ->
  contains s sub = false -> contains t sub = false ->
  contains (s +:+ String c t) sub = false.
Proof.
  intros Hc Hne Hs Ht. apply contains_app_false; [exact Hs| |].
  - change (contains (String c t) sub)
      with (startswith (String c t) sub || contains t sub).
    rewrite startswith_cons_fresh, Ht by assumption. reflexivity.
  - unfold straddles. destruct (existsb _ _) eqn:E; [|reflexivity].
    apply existsb_exists in E as [k [Hk E]]. apply in_seq in Hk.
    apply andb_true_iff in E as [_ E].
    rewrite startswith_cons_fresh in E; [discriminate| |].
    + apply count_drop. exact Hc.
    + apply drop_nonempty. lia.
Qed.

Lemma contains_rep_space (n : nat) (s sub : string) :
  count sub " " = 0 -> sub <> "" ->
  contains s sub = false -> contains (rep n " " +:+ s) sub = false.
Proof.
  intros Hc Hne Hs. induction n as [|n IH]; [exact Hs|].
  change (rep (S n) " " +:+ s) with ("" +:+ String " " (rep n " " +:+ s)).
  apply contains_sep; try assumption. destruct sub; [congruence|reflexivity].
Qed.

Lemma endswith_cons (c : ascii) (s p : string) :
  s <> "" -> endswith (String c s) p = true -> String.length p <= String.length s ->
  endswith s p = true.
Proof.
  intros _ H Hl. apply endswith_spec in H as [a H]. apply endswith_spec.
  destruct a as [|x a].
  - assert (String.length (String c s) = String.length p) by (rewrite H; reflexivity).
    simpl in *. lia.
  - rewrite app_cons in H. injection H as _ ->. eauto.
Qed.

Lemma endswith_rep_space (n : nat) (s : string) (c : ascii) :
  c <> " "%char -> endswith s (String c "") = false ->
  endswith (rep n " " +:+ s) (String c "") = false.
Proof.
  intros Hc Hs. induction n as [|n IH]; [exact Hs|].
  destruct (endswith (rep (S n) " " +:+ s) (String c "")) eqn:E; [|reflexivity].
  change (rep (S n) " " +:+ s) with (String " " (rep n " " +:+ s)) in E.
  destruct (rep n " " +:+ s) as [|d r] eqn:Er.
  - apply endswith_spec in E as [a E]. destruct a as [|x a].
    + injection E as E. congruence.
    + rewrite app_cons in E. injection E as _ E. destruct a; discriminate.
  - apply endswith_cons in E; [congruence|discriminate|simpl; lia].
Qed.

Lemma imath_step_skip (line o : string) :
  contains line o = false -> FuncConverter.imath_step line o = line.
Proof. intros H. unfold FuncConverter.imath_step. rewrite (split_none _ _ H). reflexivity. Qed.

Lemma imath_fold_skip (l : list string) (s : string) :
  (forall o, In o l -> contains s o = false) -> fold_left FuncConverter.imath_step l s = s.
Proof.
  induction l as [|o l IH]; intros H; [reflexivity|].
  simpl. rewrite imath_step_skip by (apply H; left; reflexivity).
  apply IH. intros o' Ho'. apply H. right. exact Ho'.
Qed.

Lemma imath_line_at (line out op : string) (pre post : list string) :
  FuncConverter.operators = pre ++ op :: post ->
  (forall o, In o pre -> contains line o = false) ->
  FuncConverter.imath_step line op = out ->
  (forall o, In o post -> contains out o = false) ->
  FuncConverter.remove_imath_line line = out.
Proof.
  intros Hops Hpre Hstep Hpost. unfold FuncConverter.remove_imath_line.
  rewrite Hops, fold_left_app. simpl.
  rewrite (imath_fold_skip pre line Hpre), Hstep.
  apply imath_fold_skip. exact Hpost.
Qed.

Lemma imath_step_at (n : nat) (lhs op rhs : string) :
  op <> "" ->
  lstrip (lhs +:+ op +:+ rhs) = lhs +:+ op +:+ rhs ->
  contains (rep n " " +:+ lhs) op = false ->
  straddles (rep n " " +:+ lhs) (op +:+ rhs) op = false ->
  contains rhs op = false ->
  FuncConverter.imath_step (rep n " " +:+ lhs +:+ op +:+ rhs) op
  = rep n " " +:+ strip lhs +:+ " = " +:+ strip lhs +:+ " " +:+ init op
    +:+ " (" +:+ strip rhs +:+ ")".
Proof.
  intros Hop Hls Hx Hst Hr. unfold FuncConverter.imath_step.
  assert (Hsplit : split (rep n " " +:+ lhs +:+ op +:+ rhs) op
                   = [rep n " " +:+ lhs; rhs]).
  { rewrite <- app_assoc_str.
    rewrite split_first, (split_none rhs op Hr); [reflexivity|exact Hop|].
    apply no_inner_occurrence; assumption. }
  rewrite Hsplit. simpl length. simpl map. simpl nth.
  change (1 <? 2)%nat with true. cbv iota.
  rewrite count_app, count_rep_space, lstrip_rep_space, Hls.
  replace (n + count (lhs +:+ op +:+ rhs) " " - count (lhs +:+ op +:+ rhs) " ")
    with n by lia.
  rewrite strip_rep_space. reflexivity.
Qed.

Lemma rewritten_clean_gen (il l pre r o : string) :
  count o " " = 0 -> count o "(" = 0 -> count o ")" = 0 -> o <> "" ->
  contains il o = false -> contains "=" o = false -> contains l o = false ->
  contains pre o = false -> contains r o = false ->
  contains (il +:+ " = " +:+ l +:+ " " +:+ pre +:+ " (" +:+ r +:+ ")") o = false.
Proof.
  intros Hsp Hop Hcl Hne Hil Heq Hl Hpre Hr.
  assert (He : contains "" o = false) by (destruct o; [congruence|reflexivity]).
  apply (contains_sep " " il ("=" +:+ " " +:+ l +:+ " " +:+ pre +:+ " (" +:+ r +:+ ")"));
    try assumption.
  apply (contains_sep " " "=" (l +:+ " " +:+ pre +:+ " (" +:+ r +:+ ")"));
    try assumption.
  apply (contains_sep " " l (pre +:+ " (" +:+ r +:+ ")")); try assumption.
  apply (contains_sep " " pre ("(" +:+ r +:+ ")")); try assumption.
  apply (contains_sep "(" "" (r +:+ ")")); try assumption.
  apply (contains_sep ")" r ""); assumption.
Qed.

Ltac in_operators H :=
  simpl in H;
  repeat (destruct H as [H|H]; [symmetry in H; subst|]); [..|contradiction].

Lemma operators_fresh (o : string) :
  In o FuncConverter.operators ->
  count o " " = 0 /\ count o "(" = 0 /\ count o ")" = 0 /\ o <> ""
  /\ contains "=" o = false.
Proof. intros H. in_operators H; repeat split; discriminate. Qed.

Lemma rewritten_clean (n : nat) (lhs op rhs o : string) :
  In op FuncConverter.operators -> In o FuncConverter.operators ->
  contains lhs o = false -> contains rhs o = false ->
  contains (rep n " " +:+ strip lhs +:+ " = " +:+ strip lhs +:+ " " +:+ init op
            +:+ " (" +:+ strip rhs +:+ ")") o = false.
Proof.
  intros Hop Ho Hl Hr.
  destruct (operators_fresh o Ho) as (Hsp & Hpo & Hpc & Hne & Heq).
  rewrite <- app_assoc_str.
  apply rewritten_clean_gen; try assumption.
  - apply contains_rep_space; try assumption. apply contains_strip. exact Hl.
  - apply contains_strip. exact Hl.
  - clear Hl Hr. in_operators Hop; in_operators Ho; reflexivity.
  - apply contains_strip. exact Hr.
Qed.

Section CompoundAssignment.
Variables (n : nat) (lhs rhs : string).
Hypothesis Hls : lstrip lhs = lhs.
Hypothesis Hstar : endswith lhs "*" = false.
Hypothesis Hslash : endswith lhs "/" = false.
Hypothesis Hl : forall o, In o FuncConverter.operators -> contains lhs o = false.
Hypothesis Hr : forall o, In o FuncConverter.operators -> contains rhs o = false.

Lemma target_no_operator (o : string) :
  In o FuncConverter.operators -> contains (rep n " " +:+ lhs) o = false.
Proof.
  intros Ho. destruct (operators_fresh o Ho) as (Hsp & _ & _ & Hne & _).
  apply contains_rep_space; auto.
Qed.

Lemma target_lstrip (op : string) :
  In op FuncConverter.operators -> lstrip (lhs +:+ op +:+ rhs) = lhs +:+ op +:+ rhs.
Proof.
  intros Hop. destruct lhs as [|c l] eqn:E.
  - in_operators Hop; reflexivity.
  - apply lstrip_fixed_app; [exact Hls|discriminate].
Qed.

Lemma target_straddles (op o : string) :
  In op FuncConverter.operators -> In o FuncConverter.operators ->
  straddles (rep n " " +:+ lhs) (op +:+ rhs) o = false.
Proof.
  intros Hop Ho.
  assert (Hs : endswith (rep n " " +:+ lhs) "*" = false)
    by (apply endswith_rep_space; [discriminate|exact Hstar]).
  assert (Hd : endswith (rep n " " +:+ lhs) "/" = false)
    by (apply endswith_rep_space; [discriminate|exact Hslash]).
  remember (rep n " " +:+ lhs) as X eqn:EX. clear EX.
  unfold straddles.
  in_operators Hop; in_operators Ho;
    cbv -[endswith andb orb]; rewrite ?Hs, ?Hd, ?andb_false_r; reflexivity.
Qed.

Lemma operator_straddles (op o : string) :
  In op FuncConverter.operators -> In o FuncConverter.operators -> straddles op rhs o = false.
Proof.
  intros Hop Ho. unfold straddles.
  in_operators Hop; in_operators Ho; reflexivity.
Qed.

Lemma line_no_operator (op o : string) :
  In op FuncConverter.operators -> In o FuncConverter.operators ->
  contains op o = false ->
  contains (rep n " " +:+ lhs +:+ op +:+ rhs) o = false.
Proof.
  intros Hop Ho Hc. rewrite <- app_assoc_str.
  apply contains_app_false.
  - apply target_no_operator. exact Ho.
  - apply contains_app_false; [exact Hc|apply Hr; exact Ho|].
    apply operator_straddles; assumption.
  - apply target_straddles; assumption.
Qed.

Lemma remove_imath_line_rewrites (op : string) :
  In op FuncConverter.operators ->
  FuncConverter.remove_imath_line (rep n " " +:+ lhs +:+ op +:+ rhs)
  = rep n " " +:+ strip lhs +:+ " = " +:+ strip lhs +:+ " " +:+ init op
    +:+ " (" +:+ strip rhs +:+ ")".
Proof.
  intros Hop.
  assert (Hat : forall pre post, FuncConverter.operators = pre ++ op :: post ->
            (forall o, In o pre -> contains op o = false) ->
            FuncConverter.remove_imath_line (rep n " " +:+ lhs +:+ op +:+ rhs)
            = rep n " " +:+ strip lhs +:+ " = " +:+ strip lhs +:+ " "
              +:+ init op +:+ " (" +:+ strip rhs +:+ ")").
  { intros pre post Hops Hpre.
    apply (imath_line_at _ _ op pre post Hops).
    - intros o Ho. apply line_no_operator.
      + exact Hop.
      + rewrite Hops. apply in_or_app. left. exact Ho.
      + apply Hpre. exact Ho.
    - apply imath_step_at.
      + clear -Hop. in_operators Hop; discriminate.
      + apply target_lstrip. exact Hop.
      + apply target_no_operator. exact Hop.
      + apply target_straddles; assumption.
      + apply Hr. exact Hop.
    - intros o Ho.
      assert (Ho' : In o FuncConverter.operators)
        by (rewrite Hops; apply in_or_app; right; right; exact Ho).
      apply rewritten_clean; auto. }
  assert (Hop' := Hop). simpl in Hop'.
  destruct Hop' as [E|[E|[E|[E|[E|[E|[E|[]]]]]]]]; symmetry in E.
  - apply (Hat [] ["-="; "**="; "*="; "//="; "/="; "%="]);
      [rewrite E; reflexivity|]. intros o [].
  - apply (Hat ["+="] ["**="; "*="; "//="; "/="; "%="]);
      [rewrite E; reflexivity|].
    intros o Ho. rewrite E. in_operators Ho; reflexivity.
  - apply (Hat ["+="; "-="] ["*="; "//="; "/="; "%="]);
      [rewrite E; reflexivity|].
    intros o Ho. rewrite E. in_operators Ho; reflexivity.
  - apply (Hat ["+="; "-="; "**="] ["//="; "/="; "%="]);
      [rewrite E; reflexivity|].
    intros o Ho. rewrite E. in_operators Ho; reflexivity.
  - apply (Hat ["+="; "-="; "**="; "*="] ["/="; "%="]);
      [rewrite E; reflexivity|].
    intros o Ho. rewrite E. in_operators Ho; reflexivity.
  - apply (Hat ["+="; "-="; "**="; "*="; "//="] ["%="]);
      [rewrite E; reflexivity|].
    intros o Ho. rewrite E. in_operators Ho; reflexivity.
  - apply (Hat ["+="; "-="; "**="; "*="; "//="; "/="] []);
      [rewrite E; reflexivity|].
    intros o Ho. rewrite E. in_operators Ho; reflexivity.
Qed.

End CompoundAssignment.

Lemma remove_imath_operators_app (l1 l2 : list string) :
  FuncConverter.remove_imath_operators (l1 ++ l2)
  = FuncConverter.remove_imath_operators l1 ++ FuncConverter.remove_imath_operators l2.
Proof. apply map_app. Qed.



(** ** FuncConverter.cleanlines *)

Lemma replace_none (s old new : string) :
  contains s old = false -> replace s old new = s.
Proof.
  unfold replace. induction s as [|c s IH]; [reflexivity|].
  change (contains (String c s) old)
    with (startswith (String c s) old || contains s old).
  intros H. apply orb_false_iff in H as [H1 H2].
  change (replace_go old new (String c s) 0)
    with (if startswith (String c s) old
          then new +:+ replace_go old new s (String.length old - 1)
          else String c (replace_go old new s 0)).
  rewrite H1, (IH H2). reflexivity.
Qed.

(** C4, as stated, fails.  The routine [calc_q_v1] uses the shorthand [xyz]
    of no group; in the routine [calc_r_v1] the count of the brackets ends at
    minus two, so that every line behind the first comment is joined to it
    and cut with it.  Both are translated without an error. *)
Lemma cleanlines_accepts_malformed_routine :
  (contains (Model.getsource calc_q_v1) "xyz." = true
   /\ mem "xyz" (FuncConverter.collectorshortcuts model_flu calc_q_v1) = false
   /\ FuncConverter.cleanlines model_flu "calc_q_v1" calc_q_v1
      = Ok ["def calc_q_v1(self):";
            "        self.fluxes.q = xyz.a * 2."]
   /\ FuncConverter.pyxlines fast model_flu "calc_q_v1" calc_q_v1
      = Ok ["    cpdef inline void calc_q_v1(self)  nogil:";
            "        cdef int xyz";
            "            self.fluxes.q = xyz.a * 2."])
  /\ (FuncConverter.final_counter (Model.getsource calc_r_v1) 0 = (-2)%Z
      /\ FuncConverter.cleanlines model_flu "calc_r_v1" calc_r_v1
         = Ok ["def calc_r_v1(self):"]
      /\ FuncConverter.pyxlines fast model_flu "calc_r_v1" calc_r_v1
         = Ok ["    cpdef inline void calc_r_v1(self)  nogil:"]).
Proof. repeat split; vm_compute; reflexivity. Qed.

(** C4, amended.  The translation checks neither the shorthands nor the
    brackets of a routine: whatever the model, the name and the routine,
    [cleanlines] and [pyxlines] return lines, or raise the [IndexError] of a
    source without a line, whose message is the same for every routine. *)
Theorem translation_reports_no_error
    (options : Options.t) (model : Model.t) (funcname : string)
    (func : Model.Func) :
  (is_Ok (FuncConverter.cleanlines model funcname func) = true
   \/ FuncConverter.cleanlines model funcname func
      = Raise (IndexError "list assignment index out of range"))
  /\ (is_Ok (FuncConverter.pyxlines options model funcname func) = true
      \/ FuncConverter.pyxlines options model funcname func
         = Raise (IndexError "list assignment index out of range")
      \/ FuncConverter.pyxlines options model funcname func
         = Raise (IndexError "list index out of range")).
Proof.
  unfold FuncConverter.pyxlines, FuncConverter.untypedinternalvarnames,
    FuncConverter.untypedarguments.
  assert (H : is_Ok (FuncConverter.cleanlines model funcname func) = true
              \/ FuncConverter.cleanlines model funcname func
                 = Raise (IndexError "list assignment index out of range")).
  { unfold FuncConverter.cleanlines.
    destruct (FuncConverter.remove_imath_operators _); [right|left]; reflexivity. }
  split; [exact H|].
  destruct H as [H|H].
  - destruct (FuncConverter.cleanlines model funcname func) as [lines|e];
      [|discriminate].
    destruct lines as [|line0 rest]; [right; right; reflexivity|].
    left. cbn.
    destruct (List.filter _ (FuncConverter.untypedvarnames model func));
      reflexivity.
  - right. left. rewrite H. reflexivity.
Qed.

(** C3.  In the routine [calc_x_v1] a comment follows the compound
    assignment [x += a*b].  [cleanlines] rewrites the line before it removes
    the comment, so that the bracket that closes the expression is cut with
    the comment: the line comes out as [x = x + (a*b], and no line that
    [cleanlines] or [pyxlines] returns holds [x = x + (a*b)]. *)
Theorem compound_assignment_loses_bracket :
  In "        x += a*b  # c" (splitlines (Model.getsource calc_x_v1))
  /\ FuncConverter.remove_imath_line "        x += a*b  # c"
     = "        x = x + (a*b  # c)"
  /\ exists clean pyx,
       FuncConverter.cleanlines model_flu "calc_x_v1" calc_x_v1 = Ok clean
       /\ FuncConverter.pyxlines fast model_flu "calc_x_v1" calc_x_v1 = Ok pyx
       /\ clean = ["def calc_x_v1(self):";
                   "        a = self.fluxes.q";
                   "        b = self.fluxes.r";
                   "        x = 1.";
                   "        x = x + (a*b";
                   "        self.fluxes.q = x"]
       /\ pyx = ["    cpdef inline void calc_x_v1(self)  nogil:";
                 "        cdef int a, b, x";
                 "            a = self.fluxes.q";
                 "            b = self.fluxes.r";
                 "            x = 1.";
                 "            x = x + (a*b";
                 "            self.fluxes.q = x"]
       /\ existsb (fun line => contains line "x = x + (a*b)") (clean ++ pyx)
          = false.
Proof.
  split; [vm_compute; tauto|]. split; [vm_compute; reflexivity|].
  eexists _, _. split; [vm_compute; reflexivity|].
  split; [vm_compute; reflexivity|].
  split; [reflexivity|]. split; [reflexivity|]. vm_compute. reflexivity.
Qed.

(** ** Cythonizer.outdated *)

Lemma newer_than_stale (w : World.t) (cydate : Z) (sources : list string) :
  (forall src, In src sources -> is_Some (World.files w !! src)) ->
  (exists src g, In src sources /\ World.files w !! src = Some g
                 /\ (cydate < World.st_mtime g)%Z) ->
  Cythonizer.newer_than w cydate sources = Ok true.
Proof.
  induction sources as [|s sources IH]; intros Hall (src & g & Hin & Hg & Hlt).
  - destruct Hin.
  - simpl. unfold Cythonizer.stat_mtime.
    destruct (Hall s (or_introl eq_refl)) as [f Hf]. rewrite Hf. simpl.
    destruct (World.st_mtime f >? cydate)%Z eqn:E; [reflexivity|].
    apply IH.
    + intros x Hx. apply Hall. right. exact Hx.
    + destruct Hin as [->|Hin].
      * rewrite Hf in Hg. injection Hg as ->. lia.
      * exists src, g. auto.
Qed.

Lemma newer_than_fresh (w : World.t) (cydate : Z) (sources : list string) :
  (forall src, In src sources ->
     exists g, World.files w !! src = Some g /\ (World.st_mtime g <= cydate)%Z) ->
  Cythonizer.newer_than w cydate sources = Ok false.
Proof.
  induction sources as [|s sources IH]; intros Hall; [reflexivity|].
  simpl. unfold Cythonizer.stat_mtime.
  destruct (Hall s (or_introl eq_refl)) as (g & Hg & Hle). rewrite Hg. simpl.
  replace (World.st_mtime g >? cydate)%Z with false by lia.
  apply IH. intros x Hx. apply Hall. right. exact Hx.
Qed.

(** C1.  [outdated] answers [True] when the generated file is missing.  When
    it exists with modification time [T] and every source file can be
    examined, the answer is [True] as soon as one source file of the classes
    of the model has time [T + 1] or later, and [False] when every one has
    time [T - 1] or earlier. *)
Theorem staleness_query (self : CythonizerData.t) (w : World.t) (p : string) :
  Cythonizer.cyfilepath self = Ok p ->
  (World.files w !! p = None -> Cythonizer.outdated self w = Ok true)
  /\ (forall f, World.files w !! p = Some f ->
        (forall src, In src (Cythonizer.pysourcefiles self) ->
                     is_Some (World.files w !! src)) ->
        (exists src g, In src (Cythonizer.pysourcefiles self)
                       /\ World.files w !! src = Some g
                       /\ (World.st_mtime f + 1 <= World.st_mtime g)%Z) ->
        Cythonizer.outdated self w = Ok true)
  /\ (forall f, World.files w !! p = Some f ->
        (forall src, In src (Cythonizer.pysourcefiles self) ->
           exists g, World.files w !! src = Some g
                     /\ (World.st_mtime g <= World.st_mtime f - 1)%Z) ->
        Cythonizer.outdated self w = Ok false).
Proof.
  intros Hp. unfold Cythonizer.outdated. rewrite Hp. simpl.
  split; [|split].
  - intros ->. reflexivity.
  - intros f Hf Hall (src & g & Hin & Hg & Hlt).
    unfold Cythonizer.stat_mtime. rewrite Hf. simpl.
    apply newer_than_stale; [exact Hall|]. exists src, g. repeat split; auto. lia.
  - intros f Hf Hall. unfold Cythonizer.stat_mtime. rewrite Hf. simpl.
    apply newer_than_fresh. intros src Hin.
    destruct (Hall src Hin) as (g & Hg & Hle). exists g. split; [exact Hg|lia].
Qed.

Lemma staleness_query_witness :
  Cythonizer.outdated cythonizer_test world_missing = Ok true
  /\ Cythonizer.outdated cythonizer_test world_newer = Ok true
  /\ Cythonizer.outdated cythonizer_test world_older = Ok false.
Proof.
  split; [|split].
  - apply (staleness_query cythonizer_test world_missing pyx_test eq_refl).
    vm_compute. reflexivity.
  - apply (proj1 (proj2 (staleness_query cythonizer_test world_newer pyx_test eq_refl))
             {| World.st_mtime := 100; World.content := "" |}).
    + vm_compute. reflexivity.
    + intros src Hin. vm_compute in Hin.
      destruct Hin as [<-|[<-|[]]]; vm_compute; eauto.
    + exists "/hydpy/core/modeltools.py",
        {| World.st_mtime := 101; World.content := "" |}.
      split; [vm_compute; tauto|]. split; [vm_compute; reflexivity|simpl; lia].
  - apply (proj2 (proj2 (staleness_query cythonizer_test world_older pyx_test eq_refl))
             {| World.st_mtime := 100; World.content := "" |}).
    + vm_compute. reflexivity.
    + intros src Hin. vm_compute in Hin.
      destruct Hin as [<-|[<-|[]]]; eexists; (split; [vm_compute; reflexivity|simpl; lia]).
Defined.

(** ** Cythonizer.complete *)

Lemma bind_ok_inv {A B} (m : World.M A) (k : A -> World.M B) w w' b :
  World.bind m k w = (w', Ok b) ->
  exists a w0, m w = (w0, Ok a) /\ k a w0 = (w', Ok b).
Proof.
  unfold World.bind. destruct (m w) as [w0 [a|e]]; intros H; [eauto|].
  injection H as _ H. discriminate.
Qed.

Lemma keeps_files_bind {A B} (m : World.M A) (k : A -> World.M B) :
  keeps_files m -> (forall a, keeps_files (k a)) -> keeps_files (World.bind m k).
Proof.
  intros Hm Hk w w' r. unfold World.bind.
  destruct (m w) as [w0 [a|e]] eqn:E; intros H.
  - rewrite (Hk a _ _ _ H). apply (Hm _ _ _ E).
  - injection H as <- _. apply (Hm _ _ _ E).
Qed.

Lemma keeps_files_ret {A} (a : A) : keeps_files (World.ret a).
Proof. intros w w' r H. injection H as <- _. reflexivity. Qed.

Lemma keeps_files_lift {A} (x : result A) : keeps_files (World.lift x).
Proof. intros w w' r H. injection H as <- _. reflexivity. Qed.

Lemma keeps_files_get : keeps_files World.get.
Proof. intros w w' r H. injection H as <- _. reflexivity. Qed.

Lemma keeps_files_log (e : World.event) : keeps_files (World.log e).
Proof. intros w w' r H. injection H as <- _. reflexivity. Qed.

Lemma keeps_files_set_usecython (b : bool) : keeps_files (World.set_usecython b).
Proof. intros w w' r H. injection H as <- _. reflexivity. Qed.

Lemma keeps_files_set_buildtree tree : keeps_files (World.set_buildtree tree).
Proof. intros w w' r H. injection H as <- _. reflexivity. Qed.

Create HintDb keeps.
#[local] Hint Resolve keeps_files_ret keeps_files_lift keeps_files_get keeps_files_log
  keeps_files_set_usecython keeps_files_set_buildtree : keeps.

Section Pipeline.
Variable options : Options.t.
Variable self : CythonizerData.t.

Lemma keeps_files_tester env : keeps_files (Cythonizer.tester env).
Proof.
  unfold Cythonizer.tester. apply keeps_files_bind; auto with keeps.
Qed.

Lemma keeps_files_compile_ env : keeps_files (Cythonizer.compile_ self env).
Proof.
  unfold Cythonizer.compile_.
  repeat (apply keeps_files_bind; [auto with keeps|intros ?]). auto with keeps.
Qed.

Lemma keeps_files_movedll_loop env pyname cyname dirinfos sdf :
  keeps_files (Cythonizer.movedll_loop options self env pyname cyname dirinfos sdf).
Proof.
  revert sdf. induction dirinfos as [|[[dirpath dirnames] filenames] rest IH];
    intros sdf; simpl.
  - apply keeps_files_bind; auto with keeps.
  - destruct (Cythonizer.find_dll options cyname filenames sdf) as [filename|];
      [|apply IH].
    destruct (negb (String.eqb filename "")); [|apply IH].
    destruct (World.shutil_move env _ _); auto with keeps.
Qed.

Lemma keeps_files_movedll env : keeps_files (Cythonizer.movedll options self env).
Proof.
  unfold Cythonizer.movedll.
  repeat (apply keeps_files_bind; [auto with keeps|intros ?]).
  destruct (World.buildtree _); auto with keeps.
  apply keeps_files_movedll_loop.
Qed.

Lemma write_parts_ok env p texts written w w' :
  World.files w !! p = Some {| World.st_mtime := World.now env;
                               World.content := written |} ->
  Cythonizer.write_parts env p texts written w = (w', Ok tt) ->
  exists text,
    Cythonizer.written_text texts written = Ok text
    /\ World.files w'
       = <[p := {| World.st_mtime := World.now env; World.content := text |}]>
           (World.files w).
Proof.
  revert written w. induction texts as [|text texts IH]; intros written w Hp H.
  - injection H as <-. exists written. split; [reflexivity|].
    symmetry. apply insert_id. exact Hp.
  - simpl in H. apply bind_ok_inv in H as (t & w0 & H0 & H).
    destruct text as [t'|e]; [|injection H0 as _ H0; discriminate].
    injection H0 as <- <-.
    apply bind_ok_inv in H as ([] & w1 & H1 & H).
    injection H1 as <-.
    apply IH in H as (txt & Htxt & Hfiles).
    + exists txt. split; [exact Htxt|].
      rewrite Hfiles. simpl. apply insert_insert_eq.
    + simpl. apply lookup_insert_eq.
Qed.

Lemma write_ok env p w w' :
  Cythonizer.write options self env p w = (w', Ok tt) ->
  exists text,
    Cythonizer.written_text
      (PyxWriter.parts options self (CythonizerData.model self)) "" = Ok text
    /\ World.files w'
       = <[p := {| World.st_mtime := World.now env; World.content := text |}]>
           (World.files w).
Proof.
  unfold Cythonizer.write. intros H.
  apply bind_ok_inv in H as ([] & w0 & H0 & H). injection H0 as <-.
  apply write_parts_ok in H as (text & Htext & Hfiles).
  - exists text. split; [exact Htext|]. rewrite Hfiles. simpl.
    apply insert_insert_eq.
  - simpl. apply lookup_insert_eq.
Qed.

Lemma doit_ok env p w w' :
  Cythonizer.cyfilepath self = Ok p ->
  Cythonizer.doit options self env w = (w', Ok tt) ->
  exists text,
    Cythonizer.written_text
      (PyxWriter.parts options self (CythonizerData.model self)) "" = Ok text
    /\ World.files w'
       = <[p := {| World.st_mtime := World.now env; World.content := text |}]>
           (World.files w).
Proof.
  intros Hp H. unfold Cythonizer.doit in H. rewrite Hp in H.
  apply bind_ok_inv in H as (p' & w0 & H0 & H). injection H0 as <- <-.
  apply bind_ok_inv in H as ([] & w1 & H1 & H). injection H1 as <-.
  apply bind_ok_inv in H as ([] & w2 & H2 & H).
  apply write_ok in H2 as (text & Htext & Hfiles).
  apply bind_ok_inv in H as ([] & w3 & H3 & H).
  apply keeps_files_compile_ in H3. apply keeps_files_movedll in H.
  exists text. split; [exact Htext|]. rewrite H, H3, Hfiles. reflexivity.
Qed.

Lemma outdated_ext w w' :
  World.files w = World.files w' ->
  Cythonizer.outdated self w = Cythonizer.outdated self w'.
Proof.
  intros H. unfold Cythonizer.outdated, Cythonizer.stat_mtime. rewrite H.
  destruct (Cythonizer.cyfilepath self) as [p|e]; [|reflexivity]. simpl.
  destruct (World.files w' !! p); [|reflexivity]. simpl.
  induction (Cythonizer.pysourcefiles self) as [|s l IH]; [reflexivity|].
  simpl. unfold Cythonizer.stat_mtime. rewrite H.
  destruct (World.files w' !! s); [|reflexivity]. simpl.
  destruct (_ >? _)%Z; [reflexivity|exact IH].
Qed.

Lemma complete_ok env w w1 :
  Cythonizer.complete options self env w = (w1, Ok tt) ->
  (Cythonizer.outdated self w = Ok false /\ w1 = w)
  \/ (Cythonizer.outdated self w = Ok true
      /\ exists p text,
           Cythonizer.cyfilepath self = Ok p
           /\ Cythonizer.written_text
                (PyxWriter.parts options self (CythonizerData.model self)) ""
              = Ok text
           /\ World.files w1
              = <[p := {| World.st_mtime := World.now env;
                          World.content := text |}]> (World.files w)).
Proof.
  unfold Cythonizer.complete. intros H.
  apply bind_ok_inv in H as (w0 & w0' & H0 & H). injection H0 as <- <-.
  apply bind_ok_inv in H as (stale & w0' & H0 & H). injection H0 as <- H0.
  destruct stale.
  - right. split; [exact H0|].
    apply bind_ok_inv in H as ([] & wa & Ha & H).
    apply bind_ok_inv in H as ([] & wb & Hb & H).
    assert (Hfa : World.files wa = World.files w).
    { destruct (negb (Options.skipdoctests options)).
      - revert Ha. apply keeps_files_bind; auto with keeps.
        intros ?. apply keeps_files_tester.
      - revert Ha. apply keeps_files_ret. }
    assert (Hfb : World.files w1 = World.files wb).
    { destruct (negb (Options.skipdoctests options)).
      - revert H. apply keeps_files_bind; auto with keeps.
        intros ?. apply keeps_files_tester.
      - revert H. apply keeps_files_ret. }
    destruct (Cythonizer.cyfilepath self) as [p|e] eqn:Hp.
    + destruct (doit_ok env p wa wb Hp Hb) as (text & Htext & Hfiles).
      exists p, text. repeat split; auto. rewrite Hfb, Hfiles, Hfa. reflexivity.
    + unfold Cythonizer.outdated in H0. rewrite Hp in H0. discriminate.
  - left. split; [exact H0|]. injection H as <-. reflexivity.
Qed.

End Pipeline.

(** C2, as stated, fails: with a source file whose time, 200, lies ahead of
    the time, 100, the generated file is stamped with, the first run
    succeeds, the detector still answers [True] afterwards, and the second
    run translates and compiles again although nothing has changed. *)
Lemma second_run_repeats_when_source_ahead :
  let first := Cythonizer.complete fast cythonizer_test (env_at 100) world_ahead in
  let second := Cythonizer.complete fast cythonizer_test (env_at 101) first.1 in
  first.2 = Ok tt
  /\ Cythonizer.outdated cythonizer_test first.1 = Ok true
  /\ second.2 = Ok tt
  /\ World.trace second.1
     = [World.Moved
          "/hydpy/cythons/autogen/_build/hydpy/c_test.cpython-36m-x86_64-linux-gnu.so"
          "/hydpy/cythons/autogen/c_test.so";
        World.Compiled pyx_test; World.Translated pyx_test]
       ++ World.trace first.1.
Proof. vm_compute. repeat split; reflexivity. Qed.

(** C2, amended.  When a run of [complete] succeeds and no source file
    carries a time later than the one the generated file is stamped with,
    the detector answers [False] afterwards and a second run, whatever its
    collaborators would do, changes nothing: it neither writes, compiles
    nor moves, and the generated file keeps its bytes.  The bytes a run that
    translates leaves are those of the ten parts of [write], which the model
    and the options determine. *)
Theorem pipeline_twice
    (options : Options.t) (self : CythonizerData.t) (env1 env2 : World.Env)
    (w w1 : World.t) :
  Cythonizer.complete options self env1 w = (w1, Ok tt) ->
  (forall src, In src (Cythonizer.pysourcefiles self) ->
     exists g, World.files w !! src = Some g
               /\ (World.st_mtime g <= World.now env1)%Z) ->
  Cythonizer.outdated self w1 = Ok false
  /\ Cythonizer.complete options self env2 w1 = (w1, Ok tt)
  /\ (Cythonizer.outdated self w = Ok true ->
      exists p text,
        Cythonizer.cyfilepath self = Ok p
        /\ Cythonizer.written_text
             (PyxWriter.parts options self (CythonizerData.model self)) ""
           = Ok text
        /\ World.files w1 !! p
           = Some {| World.st_mtime := World.now env1; World.content := text |}).
Proof.
  intros H Hsrc.
  assert (Hfresh : Cythonizer.outdated self w1 = Ok false).
  { destruct (complete_ok _ _ _ _ _ H) as [[H0 ->]|[_ (p & text & Hp & _ & Hf)]];
      [exact H0|].
    unfold Cythonizer.outdated, Cythonizer.stat_mtime.
    rewrite Hp, Hf. simpl. rewrite lookup_insert_eq. simpl.
    apply newer_than_fresh. intros src Hin.
    destruct (decide (p = src)) as [<-|Hne].
    - rewrite Hf, lookup_insert_eq. eexists. split; [reflexivity|simpl; lia].
    - rewrite Hf, lookup_insert_ne by exact Hne. apply Hsrc. exact Hin. }
  split; [exact Hfresh|]. split.
  - unfold Cythonizer.complete, World.bind, World.get, World.lift.
    rewrite Hfresh. reflexivity.
  - intros Hstale.
    destruct (complete_ok _ _ _ _ _ H) as [[H0 _]|[_ (p & text & Hp & Ht & Hf)]];
      [congruence|].
    exists p, text. repeat split; auto. rewrite Hf. apply lookup_insert_eq.
Qed.

Lemma pipeline_twice_witness :
  let first := Cythonizer.complete fast cythonizer_test (env_at 150) world_missing in
  Cythonizer.outdated cythonizer_test first.1 = Ok false
  /\ Cythonizer.complete fast cythonizer_test (env_at 151) first.1 = (first.1, Ok tt).
Proof.
  assert (H : Cythonizer.complete fast cythonizer_test (env_at 150) world_missing
              = ((Cythonizer.complete fast cythonizer_test (env_at 150)
                    world_missing).1, Ok tt)).
  { vm_compute. reflexivity. }
  destruct (pipeline_twice fast cythonizer_test (env_at 150) (env_at 151)
              world_missing _ H) as (H1 & H2 & _).
  - intros src Hin. vm_compute in Hin.
    destruct Hin as [<-|[<-|[]]]; eexists;
      (split; [vm_compute; reflexivity|simpl; lia]).
  - split; assumption.
Defined.

(** ** Cythonizer.movedll *)

Lemma format_not_found_message (buildpath : string) :
  format Cythonizer.not_found_message [buildpath]
  = Raise (TypeError "not enough arguments for format string").
Proof. reflexivity. Qed.

Lemma find_dll_none (options : Options.t) (cyname : string) (filenames : list string) :
  Forall (fun filename =>
            startswith filename cyname
            && endswith filename (dllextension options) = false) filenames ->
  Cythonizer.find_dll options cyname filenames None = None.
Proof.
  induction 1 as [|filename filenames H _ IH]; [reflexivity|].
  simpl. rewrite H. exact IH.
Qed.

(** C9.  When the build tree holds, below its root, no file that starts with
    the name of the module and ends with the extension of the platform,
    [movedll] reaches the [else] branch of its loop; the message there has
    three conversions and is given one argument, so what is raised is a
    [TypeError] about the format, not an [IOError] that names the
    directory searched. *)
Theorem movedll_not_found
    (options : Options.t) (self : CythonizerData.t) (env : World.Env)
    (w : World.t) (pyname : string) (root : World.dirinfo)
    (dirinfos : list World.dirinfo) :
  Cythonizer.pyname self = Ok pyname ->
  World.buildtree w = root :: dirinfos ->
  Forall (fun dirinfo : World.dirinfo =>
            Forall (fun filename =>
                      startswith filename ("c_" +:+ pyname)
                      && endswith filename (dllextension options) = false)
              dirinfo.2)
    dirinfos ->
  Cythonizer.movedll options self env w
  = (w, Raise (TypeError "not enough arguments for format string")).
Proof.
  intros Hname Htree Hnone.
  unfold Cythonizer.movedll, Cythonizer.cyname. rewrite Hname. simpl.
  unfold World.bind, World.lift, World.get. simpl. rewrite Htree.
  clear Htree. induction Hnone as [|[[dirpath dirnames] filenames] rest H _ IH].
  - simpl. unfold World.bind, World.lift.
    rewrite format_not_found_message. reflexivity.
  - simpl. simpl in H. rewrite (find_dll_none _ _ _ H). exact IH.
Qed.

Lemma movedll_not_found_witness :
  Cythonizer.movedll fast cythonizer_test (env_at 100) world_without_dll
  = (world_without_dll,
     Raise (TypeError "not enough arguments for format string")).
Proof.
  apply (movedll_not_found fast cythonizer_test (env_at 100) world_without_dll
           "test" ("/hydpy/cythons/autogen/_build", ["temp"], [])
           [("/hydpy/cythons/autogen/_build/temp", [], ["c_test.o"; "c_test.c"])]).
  - reflexivity.
  - reflexivity.
  - repeat constructor.
Defined.

(** ** PyxWriter.doit *)

(** C5.  The procedure [doit] consists of its header, the assignment of
    the step index and, in the fixed order of the design document, the call
    of every stage whose condition holds for the model; a stage whose
    condition fails contributes no line. *)
Theorem doit_stages (options : Options.t) (model : Model.t) :
  PyxWriter.doit options model
  = ["    cpdef inline void doit(self, int idx) " +:+ _nogil options +:+ ":";
     "        self.idx_sim = idx"]
    ++ map (fun s => "        " +:+ Stages.call s)
         (List.filter (Stages.included model) Stages.order).
Proof.
  unfold PyxWriter.doit, Stages.order. cbn [List.filter Stages.included].
  destruct (Model.declares model "inputs"),
    (Model._INLET_METHODS model) as [|? ?],
    (Model.hasattr model "solve"),
    (Model.declares model "states"),
    (Model._OUTLET_METHODS model) as [|? ?],
    (Model.declares model "fluxes"); reflexivity.
Qed.

(** ** PyxWriter.setpointer and the routines it emits *)

Lemma fold_left_lines {A} (f : Lines.t -> A -> Lines.t) (g : A -> Lines.t)
    (items : list A) (lines : Lines.t) :
  (forall lines item, f lines item = lines ++ g item) ->
  fold_left f items lines = lines ++ flat_map g items.
Proof.
  intros H. revert lines. induction items as [|item items IH]; intros lines; simpl.
  - rewrite List.app_nil_r. reflexivity.
  - rewrite IH, H, <- app_assoc. reflexivity.
Qed.

Lemma flat_map_map {A B C} (f : B -> list C) (h : A -> B) (l : list A) :
  flat_map f (map h l) = flat_map (fun x => f (h x)) l.
Proof. induction l as [|x l IH]; simpl; [reflexivity|]. rewrite IH. reflexivity. Qed.

Lemma alloc_rendered (subseqs : Model.SubSequences) :
  PyxWriter.alloc subseqs = Emitted.render_routine (Emitted.alloc subseqs).
Proof.
  unfold PyxWriter.alloc, Emitted.render_routine, Emitted.alloc.
  cbv zeta. cbn [Emitted.header Emitted.body]. rewrite flat_map_map. apply fold_left_lines.
  intros lines [name seq]. unfold Lines.add. simpl.
  rewrite <- !app_assoc. reflexivity.
Qed.

Lemma dealloc_rendered (subseqs : Model.SubSequences) :
  PyxWriter.dealloc subseqs = Emitted.render_routine (Emitted.dealloc subseqs).
Proof.
  unfold PyxWriter.dealloc, Emitted.render_routine, Emitted.dealloc.
  cbv zeta. cbn [Emitted.header Emitted.body]. rewrite flat_map_map. apply fold_left_lines.
  intros lines [name seq]. reflexivity.
Qed.

Lemma setpointer1d_rendered (subseqs : Model.SubSequences) :
  PyxWriter.setpointer1d subseqs
  = Emitted.render_routine (Emitted.setpointer1d subseqs).
Proof.
  unfold PyxWriter.setpointer1d, Emitted.render_routine, Emitted.setpointer1d.
  cbv zeta. cbn [Emitted.header Emitted.body]. rewrite flat_map_map. apply fold_left_lines.
  intros lines [name seq]. unfold Lines.add. simpl.
  rewrite <- !app_assoc. reflexivity.
Qed.

Lemma map_items_names {B} (f : string -> B) (items : list (string * Model.Sequence)) :
  map (fun '(name, _) => f name) items = map f (map fst items).
Proof.
  induction items as [|[name seq] items IH]; simpl; [reflexivity|].
  rewrite IH. reflexivity.
Qed.

(** The branches for the other sequences leave the call without effect. *)
Lemma branches_skipped (a : Emitted.args) (branch : string -> list Emitted.simple)
    (ks : list string) (st : Emitted.state) :
  ~ In (Emitted.arg_name a) ks ->
  Emitted.exec_all a (map (fun k => Emitted.IfName k (branch k)) ks) st = inr st.
Proof.
  induction ks as [|k ks IH]; intros Hn; [reflexivity|].
  simpl. destruct (String.eqb_spec (Emitted.arg_name a) k) as [E|E].
  - exfalso. apply Hn. left. symmetry. exact E.
  - apply IH. intros H. apply Hn. right. exact H.
Qed.

Lemma branch_taken (a : Emitted.args) (branch : string -> list Emitted.simple)
    (ks : list string) (st : Emitted.state) :
  NoDup ks -> In (Emitted.arg_name a) ks ->
  Emitted.exec_all a (map (fun k => Emitted.IfName k (branch k)) ks) st
  = Emitted.exec_block a (branch (Emitted.arg_name a)) st.
Proof.
  induction 1 as [|k ks Hk Hnd IH]; intros Hin; [destruct Hin|].
  simpl. destruct (String.eqb_spec (Emitted.arg_name a) k) as [E|E].
  - subst k. destruct (Emitted.exec_block a _ st) as [f|st']; [reflexivity|].
    apply branches_skipped. rewrite <- list_elem_of_In. exact Hk.
  - apply IH. destruct Hin as [Hin|Hin]; [congruence|exact Hin].
Qed.

Lemma free_others (a : Emitted.args) (ks : list string) (st : Emitted.state) :
  (forall k, In k ks -> Emitted.pointers st !! k = None) ->
  Emitted.exec_all a (map (fun k => Emitted.Do (Emitted.Free k)) ks) st = inr st.
Proof.
  induction ks as [|k ks IH]; intros H; [reflexivity|].
  simpl. rewrite (H k (or_introl eq_refl)). apply IH.
  intros k' Hk'. apply H. right. exact Hk'.
Qed.

Lemma free_one (a : Emitted.args) (ks : list string) (n : string)
    (p : Emitted.addr) (st : Emitted.state) :
  NoDup ks -> In n ks ->
  (forall k, In k ks -> k <> n -> Emitted.pointers st !! k = None) ->
  Emitted.pointers st !! n = Some p ->
  Emitted.exec_all a (map (fun k => Emitted.Do (Emitted.Free k)) ks) st
  = match Emitted.heap st !! p with
    | Some _ =>
        inr {| Emitted.pointers := Emitted.pointers st;
               Emitted.lengths := Emitted.lengths st;
               Emitted.heap := delete p (Emitted.heap st);
               Emitted.next := Emitted.next st |}
    | None => inl (Emitted.InvalidFree p)
    end.
Proof.
  induction 1 as [|k ks Hk Hnd IH]; intros Hin Hnull Hp; [destruct Hin|].
  simpl. destruct (String.eqb_spec k n) as [E|E].
  - subst k. rewrite Hp. destruct (Emitted.heap st !! p); [|reflexivity].
    apply free_others. simpl. intros k' Hk'. apply Hnull; [right; exact Hk'|].
    intros ->. apply Hk. rewrite list_elem_of_In. exact Hk'.
  - rewrite (Hnull k (or_introl eq_refl) E). apply IH.
    + destruct Hin as [Hin|Hin]; [congruence|exact Hin].
    + intros k' Hk' Hne. apply Hnull; [right; exact Hk'|exact Hne].
    + exact Hp.
Qed.

Section LinkGroup.
Variable subseqs : Model.SubSequences.
Hypothesis distinct : NoDup (names subseqs).
Variable n : string.
Hypothesis member : In n (names subseqs).

Lemma call_alloc_spec (len : nat) (st : Emitted.state) :
  Emitted.call_alloc subseqs n len st
  = inr {| Emitted.pointers := <[n := Emitted.next st]> (Emitted.pointers st);
           Emitted.lengths := <[n := len]> (Emitted.lengths st);
           Emitted.heap :=
             <[Emitted.next st := replicate len None]> (Emitted.heap st);
           Emitted.next := S (Emitted.next st) |}.
Proof.
  unfold Emitted.call_alloc, Emitted.call, Emitted.alloc.
  cbn [Emitted.body]. rewrite map_items_names.
  rewrite (branch_taken _ (fun k => [Emitted.SetLength k; Emitted.Malloc k]));
    [reflexivity|exact distinct|exact member].
Qed.

Lemma call_setpointer1d_spec (idx : nat) (value p : Emitted.addr)
    (b : Emitted.block) (st : Emitted.state) :
  Emitted.pointers st !! n = Some p -> Emitted.heap st !! p = Some b ->
  idx < length b ->
  Emitted.call (Emitted.setpointer1d subseqs)
    {| Emitted.arg_name := n; Emitted.arg_length := 0;
       Emitted.arg_idx := idx; Emitted.arg_value := value |} st
  = inr {| Emitted.pointers := Emitted.pointers st;
           Emitted.lengths := Emitted.lengths st;
           Emitted.heap := <[p := <[idx := Some value]> b]> (Emitted.heap st);
           Emitted.next := Emitted.next st |}.
Proof.
  intros Hp Hb Hidx.
  unfold Emitted.call, Emitted.setpointer1d.
  cbn [Emitted.body]. rewrite map_items_names.
  rewrite (branch_taken _ (fun k => [Emitted.StoreAt k]));
    [|exact distinct|exact member].
  cbn [Emitted.exec_block Emitted.exec_simple Emitted.arg_name Emitted.arg_idx
       Emitted.arg_value].
  rewrite Hp. cbv beta iota. rewrite Hb.
  replace (idx <? length b)%nat with true by (symmetry; apply Nat.ltb_lt; exact Hidx).
  reflexivity.
Qed.

Lemma call_dealloc_spec (p : Emitted.addr) (st : Emitted.state) :
  (forall k, In k (names subseqs) -> k <> n -> Emitted.pointers st !! k = None) ->
  Emitted.pointers st !! n = Some p ->
  Emitted.call_dealloc subseqs st
  = match Emitted.heap st !! p with
    | Some _ =>
        inr {| Emitted.pointers := Emitted.pointers st;
               Emitted.lengths := Emitted.lengths st;
               Emitted.heap := delete p (Emitted.heap st);
               Emitted.next := Emitted.next st |}
    | None => inl (Emitted.InvalidFree p)
    end.
Proof.
  intros Hnull Hp.
  unfold Emitted.call_dealloc, Emitted.call, Emitted.dealloc.
  cbn [Emitted.body]. rewrite map_items_names.
  apply (free_one _ _ n); assumption.
Qed.

End LinkGroup.

Lemma setpointer_unfold (subseqs : Model.SubSequences) :
  PyxWriter.setpointer subseqs
  = match Model.subseqs_items subseqs with
    | first :: _ =>
        (if (Model.NDIM first.2 =? 0)%nat then PyxWriter.setpointer0d subseqs else [])
        ++ (if (Model.NDIM first.2 =? 1)%nat
            then PyxWriter.alloc subseqs ++ PyxWriter.dealloc subseqs
                 ++ PyxWriter.setpointer1d subseqs
            else [])
    | [] => []
    end.
Proof.
  unfold PyxWriter.setpointer, Lines.extend.
  remember (PyxWriter.setpointer0d subseqs) as s0 eqn:E0.
  remember (PyxWriter.alloc subseqs) as a eqn:Ea.
  remember (PyxWriter.dealloc subseqs) as d eqn:Ed.
  remember (PyxWriter.setpointer1d subseqs) as s1 eqn:E1.
  clear E0 Ea Ed E1.
  destruct (Model.subseqs_items subseqs) as [|[name seq] rest]; [reflexivity|].
  cbn [snd]. destruct (Model.NDIM seq =? 0)%nat, (Model.NDIM seq =? 1)%nat;
    cbn [app]; rewrite ?List.app_nil_r, <- ?app_assoc; reflexivity.
Qed.

(** C7, as stated, fails: in a group whose first sequence is 0-dimensional
    the 1-dimensional sequence [branched] gets no [alloc], [dealloc] or
    [setpointer1d]; the group gets the routine [setpointer0d] alone. *)
Lemma setpointer_skips_1d_behind_0d :
  PyxWriter.setpointer outlets_0d_first = PyxWriter.setpointer0d outlets_0d_first
  /\ mem "    cpdef inline alloc(self, name, int length):"
       (PyxWriter.setpointer outlets_0d_first) = false
  /\ mem "    cpdef inline dealloc(self):"
       (PyxWriter.setpointer outlets_0d_first) = false
  /\ mem "    cpdef inline setpointer1d(self, str name, pointerutils.PDouble value, int idx):"
       (PyxWriter.setpointer outlets_0d_first) = false.
Proof. repeat split; reflexivity. Qed.

(** C7, amended.  The first sequence of a group of link sequences decides.
    When it is 1-dimensional, [setpointer] emits [alloc], [dealloc] and
    [setpointer1d], each with one branch or statement per sequence of the
    group; when it is not, none of the three is emitted.  For distinct
    names, [alloc] records the length under the name passed and reserves a
    fresh block of that many slots, [setpointer1d] stores the address at the
    slot, and [dealloc] releases the block. *)
Theorem setpointer_first_sequence_decides
    (subseqs : Model.SubSequences) (first : string * Model.Sequence)
    (rest : list (string * Model.Sequence)) (n : string) :
  Model.subseqs_items subseqs = first :: rest ->
  NoDup (names subseqs) -> In n (names subseqs) ->
  (Model.NDIM first.2 = 1 ->
     PyxWriter.setpointer subseqs
     = Emitted.render_routine (Emitted.alloc subseqs)
       ++ Emitted.render_routine (Emitted.dealloc subseqs)
       ++ Emitted.render_routine (Emitted.setpointer1d subseqs))
  /\ (Model.NDIM first.2 <> 1 ->
        PyxWriter.setpointer subseqs
        = if (Model.NDIM first.2 =? 0)%nat
          then PyxWriter.setpointer0d subseqs else [])
  /\ (forall len st,
        Emitted.call_alloc subseqs n len st
        = inr {| Emitted.pointers := <[n := Emitted.next st]> (Emitted.pointers st);
                 Emitted.lengths := <[n := len]> (Emitted.lengths st);
                 Emitted.heap :=
                   <[Emitted.next st := replicate len None]> (Emitted.heap st);
                 Emitted.next := S (Emitted.next st) |})
  /\ (forall idx value p (b : list (option nat)) st,
        Emitted.pointers st !! n = Some p -> Emitted.heap st !! p = Some b ->
        idx < length b ->
        Emitted.call (Emitted.setpointer1d subseqs)
          {| Emitted.arg_name := n; Emitted.arg_length := 0;
             Emitted.arg_idx := idx; Emitted.arg_value := value |} st
        = inr {| Emitted.pointers := Emitted.pointers st;
                 Emitted.lengths := Emitted.lengths st;
                 Emitted.heap := <[p := <[idx := Some value]> b]> (Emitted.heap st);
                 Emitted.next := Emitted.next st |})
  /\ (forall p (b : list (option nat)) st,
        (forall k, In k (names subseqs) -> k <> n ->
                   Emitted.pointers st !! k = None) ->
        Emitted.pointers st !! n = Some p -> Emitted.heap st !! p = Some b ->
        Emitted.call_dealloc subseqs st
        = inr {| Emitted.pointers := Emitted.pointers st;
                 Emitted.lengths := Emitted.lengths st;
                 Emitted.heap := delete p (Emitted.heap st);
                 Emitted.next := Emitted.next st |}).
Proof.
  intros Hitems Hnd Hin. destruct first as [name seq]. cbn [snd].
  split; [|split; [|split; [|split]]].
  - intros H1. rewrite setpointer_unfold, Hitems. cbn [snd]. rewrite H1.
    cbn [Nat.eqb app].
    rewrite alloc_rendered, dealloc_rendered, setpointer1d_rendered.
    reflexivity.
  - intros H1. rewrite setpointer_unfold, Hitems. cbn [snd].
    replace (Model.NDIM seq =? 1)%nat with false
      by (symmetry; apply Nat.eqb_neq; exact H1).
    apply List.app_nil_r.
  - intros len st. apply call_alloc_spec; assumption.
  - intros idx value p b st. apply call_setpointer1d_spec; assumption.
  - intros p b st Hnull Hp Hb.
    rewrite (call_dealloc_spec subseqs Hnd n Hin p st Hnull Hp), Hb. reflexivity.
Qed.

Lemma setpointer_first_sequence_decides_witness :
  PyxWriter.setpointer outlets_1d_first
  = Emitted.render_routine (Emitted.alloc outlets_1d_first)
    ++ Emitted.render_routine (Emitted.dealloc outlets_1d_first)
    ++ Emitted.render_routine (Emitted.setpointer1d outlets_1d_first).
Proof.
  apply (setpointer_first_sequence_decides outlets_1d_first
           (link_sequence "branched" 1) [link_sequence "q" 0] "branched").
  - reflexivity.
  - repeat constructor; rewrite list_elem_of_In; simpl; intuition discriminate.
  - simpl. tauto.
  - reflexivity.
Defined.

(** ** The emitted dealloc *)

(** C8, as stated, fails: in the group [outlets_1d] of two 1-dimensional
    sequences, after [alloc("branched", 3)] and [dealloc()] the attribute
    [branched] still holds the address of the released block, and a second
    [dealloc()] frees that address once more. *)
Lemma dealloc_twice_frees_twice :
  Forall (fun item => Model.NDIM item.2 = 1) (Model.subseqs_items outlets_1d)
  /\ exists s1 s2,
    Emitted.call_alloc outlets_1d "branched" 3 Emitted.fresh = inr s1
    /\ Emitted.call_dealloc outlets_1d s1 = inr s2
    /\ Emitted.pointers s2 !! "branched" = Some 1
    /\ Emitted.heap s2 !! 1 = None
    /\ Emitted.call_dealloc outlets_1d s2 = inl (Emitted.InvalidFree 1).
Proof.
  split; [repeat constructor|].
  eexists _, _. split; [reflexivity|]. split; [reflexivity|].
  repeat split; reflexivity.
Qed.

(** C8, amended.  In a fresh instance of a group with distinct names,
    [alloc(n, 3)] followed by [dealloc()] releases the block and leaves
    nothing allocated; the attributes of the other sequences stay [NULL];
    the attribute [n] keeps the address of the released block, and a second
    [dealloc()] passes that address to [PyMem_Free] again. *)
Theorem dealloc_keeps_pointer (subseqs : Model.SubSequences) (n : string) :
  NoDup (names subseqs) -> In n (names subseqs) ->
  exists s1 s2,
    Emitted.call_alloc subseqs n 3 Emitted.fresh = inr s1
    /\ Emitted.call_dealloc subseqs s1 = inr s2
    /\ Emitted.heap s2 = ∅
    /\ (forall k, k <> n -> Emitted.pointers s2 !! k = None)
    /\ Emitted.pointers s2 !! n = Some 1
    /\ Emitted.call_dealloc subseqs s2 = inl (Emitted.InvalidFree 1).
Proof.
  intros Hnd Hin.
  eexists _, _. split; [apply call_alloc_spec; assumption|].
  simpl. split.
  - rewrite (call_dealloc_spec subseqs Hnd n Hin 1).
    + simpl. rewrite lookup_insert_eq. reflexivity.
    + simpl. intros k _ Hk. rewrite lookup_insert_ne by congruence.
      apply lookup_empty.
    + simpl. apply lookup_insert_eq.
  - simpl. split; [rewrite delete_insert_eq; apply delete_empty|]. split.
    + intros k Hk. rewrite lookup_insert_ne by congruence. apply lookup_empty.
    + split; [apply lookup_insert_eq|].
      rewrite (call_dealloc_spec subseqs Hnd n Hin 1).
      * simpl. rewrite lookup_delete_eq. reflexivity.
      * simpl. intros k _ Hk. rewrite lookup_insert_ne by congruence.
        apply lookup_empty.
      * simpl. apply lookup_insert_eq.
Qed.

Lemma dealloc_keeps_pointer_witness :
  exists s1 s2,
    Emitted.call_alloc outlets_1d "branched" 3 Emitted.fresh = inr s1
    /\ Emitted.call_dealloc outlets_1d s1 = inr s2
    /\ Emitted.heap s2 = ∅
    /\ (forall k, k <> "branched" -> Emitted.pointers s2 !! k = None)
    /\ Emitted.pointers s2 !! "branched" = Some 1
    /\ Emitted.call_dealloc outlets_1d s2 = inl (Emitted.InvalidFree 1).
Proof.
  apply (dealloc_keeps_pointer outlets_1d "branched").
  - repeat constructor; rewrite list_elem_of_In; simpl; intuition discriminate.
  - simpl. tauto.
Defined.

(** ** The emitters of the numeric scaffolding *)

Lemma for_each_raises {A S} (body : S -> A -> result S) (before after : list A)
    (x : A) (s : S) (e : exception) :
  (forall s a, In a before -> exists s', body s a = Ok s') ->
  (forall s, body s x = Raise e) ->
  for_each (before ++ x :: after) body s = Raise e.
Proof.
  intros Hbefore Hx. revert s.
  induction before as [|a before IH]; intros s; simpl.
  - rewrite Hx. reflexivity.
  - destruct (Hbefore s a (or_introl eq_refl)) as [s' ->]. simpl.
    apply IH. intros s0 a0 Ha0. apply Hbefore. right. exact Ha0.
Qed.

Lemma assign_seqvalues_raises (subseqs : Model.SubSequences) (target : string) (index : option string)
    (load : bool) (before after : list (string * Model.Sequence))
    (name : string) (seq : Model.Sequence) :
  Model.subseqs_items subseqs = before ++ (name, seq) :: after ->
  Forall (fun item : string * Model.Sequence => Model.NDIM item.2 <= 1) before ->
  3 <= Model.NDIM seq ->
  PyxWriter._assign_seqvalues subseqs target index load
  = Raise (PyxWriter.higher_than_expected name).
Proof.
  intros Hitems Hbefore Hseq. unfold PyxWriter._assign_seqvalues.
  rewrite Hitems. destruct load; cbv zeta;
    (apply for_each_raises;
     [ intros s [n sq] Hin;
       rewrite List.Forall_forall in Hbefore; specialize (Hbefore _ Hin); simpl in Hbefore;
       destruct (Model.NDIM sq) as [|[|k]]; [eauto|eauto|lia]
     | intros s; destruct (Model.NDIM seq) as [|[|[|k]]]; [lia|lia|lia|reflexivity] ]).
Qed.

Lemma bind_raise {A B} (m : result A) (k : A -> result B) (e : exception) :
  m = Raise e -> m ≫= k = Raise e.
Proof. intros ->. reflexivity. Qed.

Ltac raises_on_3d Hbefore :=
  apply for_each_raises;
  [ let s := fresh "s" in
    let n := fresh "n" in
    let sq := fresh "sq" in
    let Hin := fresh "Hin" in
    intros s [n sq] Hin;
    rewrite List.Forall_forall in Hbefore; specialize (Hbefore _ Hin);
    simpl in Hbefore;
    destruct (Model.NDIM sq) as [|[|[|?]]]; [eauto|eauto|eauto|lia]
  | let s := fresh "s" in
    intros s;
    match goal with
    | |- context [Model.NDIM ?seq] =>
        destruct (Model.NDIM seq) as [|[|[|?]]]; [lia|lia|lia|reflexivity]
    end ].



(** In [_assign_seqvalues] the header of the inner loop of a 2-dimensional
    sequence has one conversion and is given two arguments. *)
Lemma assign_seqvalues_raises_2d (subseqs : Model.SubSequences) (target : string)
    (index : option string) (load : bool)
    (before after : list (string * Model.Sequence))
    (name : string) (seq : Model.Sequence) :
  Model.subseqs_items subseqs = before ++ (name, seq) :: after ->
  Forall (fun item : string * Model.Sequence => Model.NDIM item.2 <= 1) before ->
  Model.NDIM seq = 2 ->
  PyxWriter._assign_seqvalues subseqs target index load
  = Raise (TypeError "not all arguments converted during string formatting").
Proof.
  intros Hitems Hbefore Hseq. unfold PyxWriter._assign_seqvalues.
  rewrite Hitems. destruct load; cbv zeta;
    (apply for_each_raises;
     [ intros s [n sq] Hin;
       rewrite List.Forall_forall in Hbefore; specialize (Hbefore _ Hin);
       simpl in Hbefore;
       destruct (Model.NDIM sq) as [|[|k]]; [eauto|eauto|lia]
     | intros s; rewrite Hseq; reflexivity ]).
Qed.

Lemma for_each_ok {A S} (body : S -> A -> result S) (items : list A) (s : S) :
  (forall s item, In item items -> is_Ok (body s item) = true) ->
  is_Ok (for_each items body s) = true.
Proof.
  revert s. induction items as [|item items IH]; intros s H; [reflexivity|].
  simpl. pose proof (H s item (or_introl eq_refl)) as Hitem.
  destruct (body s item) as [s'|e]; [|discriminate]. simpl.
  apply IH. intros s0 i Hi. apply H. right. exact Hi.
Qed.

Ltac accepts_2d Hdims :=
  apply for_each_ok;
  let s := fresh "s" in
  let n := fresh "n" in
  let sq := fresh "sq" in
  let Hin := fresh "Hin" in
  intros s [n sq] Hin;
  rewrite List.Forall_forall in Hdims; specialize (Hdims _ Hin);
  simpl in Hdims;
  destruct (Model.NDIM sq) as [|[|[|?]]]; [reflexivity|reflexivity|reflexivity|lia].

(** C10.  The six emitters that copy the states or the fluxes raise
    [TypeError] at a sequence of two dimensions that stands behind sequences
    of at most one dimension: [_assign_seqvalues] formats the header of the
    inner loop with one conversion and two arguments.  The four emitters that
    go through the numeric fluxes emit their loops for sequences of up to two
    dimensions. *)
Theorem captures_reject_2d
    (options : Options.t) (model : Model.t)
    (before after : list (string * Model.Sequence))
    (name : string) (seq : Model.Sequence) :
  Model.NDIM seq = 2 ->
  Forall (fun item : string * Model.Sequence => Model.NDIM item.2 <= 1) before ->
  (forall method emitter states,
      In (method, emitter) (Scaffolding.state_captures options model) ->
      Model.hasattr model method = true ->
      Model.getattr (Model.sequences model) "states" = Some states ->
      Model.subseqs_items states = before ++ (name, seq) :: after ->
      emitter
      = Raise (TypeError "not all arguments converted during string formatting"))
  /\ (forall method emitter fluxes,
        In (method, emitter) (Scaffolding.flux_captures options model) ->
        Model.hasattr model method = true ->
        Model.getattr (Model.sequences model) "fluxes" = Some fluxes ->
        Model.subseqs_items fluxes = before ++ (name, seq) :: after ->
        emitter
        = Raise (TypeError "not all arguments converted during string formatting"))
  /\ (forall method emitter fluxes,
        In (method, emitter) (Scaffolding.numeric_flux_emitters options model) ->
        Model.getattr (Model.sequences model) "fluxes" = Some fluxes ->
        Forall (fun item : string * Model.Sequence => Model.NDIM item.2 <= 2)
          (Model.numerics fluxes) ->
        is_Ok emitter = true).
Proof.
  intros Hseq Hbefore. split; [|split].
  - intros method emitter states Hin Hattr Hget Hitems.
    simpl in Hin.
    repeat (destruct Hin as [Hin|Hin];
            [injection Hin as <- <-;
             match goal with
             | |- ?f options model = _ => unfold f
             end;
             unfold decorate_method, PyxWriter.group; rewrite Hattr, Hget; simpl;
             rewrite (assign_seqvalues_raises_2d _ _ _ _ _ _ _ _ Hitems Hbefore Hseq);
             reflexivity|]).
    destruct Hin.
  - intros method emitter fluxes Hin Hattr Hget Hitems.
    simpl in Hin.
    repeat (destruct Hin as [Hin|Hin];
            [injection Hin as <- <-;
             match goal with
             | |- ?f options model = _ => unfold f
             end;
             unfold decorate_method, PyxWriter.group; rewrite Hattr, Hget; simpl;
             rewrite (assign_seqvalues_raises_2d _ _ _ _ _ _ _ _ Hitems Hbefore Hseq);
             reflexivity|]).
    destruct Hin.
  - intros method emitter fluxes Hin Hget Hdims.
    simpl in Hin.
    repeat (destruct Hin as [Hin|Hin];
            [injection Hin as <- <-;
             match goal with
             | |- is_Ok (?f options model) = _ => unfold f
             end;
             unfold decorate_method, PyxWriter.group; rewrite Hget;
             destruct (Model.hasattr model _); [|reflexivity];
             cbv zeta; simpl mbind;
             match goal with
             | |- is_Ok (?m ≫= _) = true =>
                 assert (Hm : is_Ok m = true) by accepts_2d Hdims;
                 destruct m; [reflexivity|discriminate]
             end|]).
    destruct Hin.
Qed.

Lemma captures_reject_2d_witness :
  PyxWriter.get_point_states fast model_2d
  = Raise (TypeError "not all arguments converted during string formatting")
  /\ PyxWriter.set_result_fluxes fast model_2d
     = Raise (TypeError "not all arguments converted during string formatting")
  /\ is_Ok (PyxWriter.integrate_fluxes fast model_2d) = true.
Proof.
  assert (Hseq : Model.NDIM (numeric_sequence "s" 2).2 = 2) by reflexivity.
  assert (Hstate :
    Forall (fun item : string * Model.Sequence => Model.NDIM item.2 <= 1)
      [numeric_sequence "v" 0]) by (repeat constructor).
  assert (Hflux :
    Forall (fun item : string * Model.Sequence => Model.NDIM item.2 <= 1)
      [numeric_sequence "q" 0]) by (repeat constructor).
  destruct (captures_reject_2d fast model_2d [numeric_sequence "v" 0] []
              "s" (numeric_sequence "s" 2).2 Hseq Hstate) as (Hstates & _ & _).
  destruct (captures_reject_2d fast model_2d [numeric_sequence "q" 0] []
              "r" (numeric_sequence "r" 2).2 Hseq Hflux) as (_ & Hfluxes & Hnum).
  split; [|split].
  - apply (Hstates "get_point_states" _
             {| Model.subseqs_name := "states";
                Model.subseqs_class_ := Model.StateSequences;
                Model.subseqs_classname := "StateSequences";
                Model.subseqs_items :=
                  [numeric_sequence "v" 0; numeric_sequence "s" 2] |});
      [simpl; tauto|reflexivity..].
  - apply (Hfluxes "set_result_fluxes" _
             {| Model.subseqs_name := "fluxes";
                Model.subseqs_class_ := Model.FluxSequences;
                Model.subseqs_classname := "FluxSequences";
                Model.subseqs_items :=
                  [numeric_sequence "q" 0; numeric_sequence "r" 2] |});
      [simpl; tauto|reflexivity..].
  - apply (Hnum "integrate_fluxes" _
             {| Model.subseqs_name := "fluxes";
                Model.subseqs_class_ := Model.FluxSequences;
                Model.subseqs_classname := "FluxSequences";
                Model.subseqs_items :=
                  [numeric_sequence "q" 0; numeric_sequence "r" 2] |});
      [simpl; tauto|reflexivity|repeat constructor].
Defined.

(** ** PyxWriter.calculate_error *)

Lemma for_each_yields {A} (body : list string -> A -> result (list string))
    (g : A -> list string) (items : list A) (yielded : list string) :
  (forall yielded item, In item items -> body yielded item = Ok (yielded ++ g item)) ->
  for_each items body yielded = Ok (yielded ++ flat_map g items).
Proof.
  revert yielded. induction items as [|item items IH]; intros yielded H; simpl.
  - rewrite List.app_nil_r. reflexivity.
  - rewrite (H yielded item (or_introl eq_refl)). simpl.
    rewrite IH, <- app_assoc; [reflexivity|].
    intros y i Hi. apply H. right. exact Hi.
Qed.

Lemma fold_left_add (indent : nat) (yielded : list string) (lines : Lines.t) :
  fold_left (fun lines line => Lines.add indent line lines) yielded lines
  = lines ++ map (fun line => rep (indent * 4) " " +:+ line) yielded.
Proof.
  revert lines. induction yielded as [|line yielded IH]; intros lines; simpl.
  - rewrite List.app_nil_r. reflexivity.
  - rewrite IH. unfold Lines.add. rewrite <- app_assoc. reflexivity.
Qed.

(** For scalar numeric fluxes the routine is as the design document says:
    the error starts at zero and takes, flux by flux, the maximum with the
    absolute difference of the results of the method and of the one
    before. *)
Lemma calculate_error_of_scalars (options : Options.t) (model : Model.t)
    (fluxes : Model.SubSequences) :
  Model.hasattr model "calculate_error" = true ->
  Model.getattr (Model.sequences model) "fluxes" = Some fluxes ->
  Forall (fun item : string * Model.Sequence => Model.NDIM item.2 = 0)
    (Model.numerics fluxes) ->
  PyxWriter.calculate_error options model
  = Ok (("    " +:+ method_header options "calculate_error" true)
        :: "        self.numvars.error = 0."
        :: map (fun item : string * Model.Sequence =>
                  "        self.numvars.error = max(self.numvars.error, fabs("
                  +:+ "self.fluxes._" +:+ item.1 +:+ "_results[self.numvars.idx_method]-"
                  +:+ "self.fluxes._" +:+ item.1
                  +:+ "_results[self.numvars.idx_method-1]))")
            (Model.numerics fluxes)).
Proof.
  intros Hattr Hget Hscalar.
  unfold PyxWriter.calculate_error, decorate_method, PyxWriter.group.
  rewrite Hattr, Hget. cbv zeta. simpl mbind.
  rewrite (for_each_yields _
             (fun item : string * Model.Sequence =>
                ["self.numvars.error = max(self.numvars.error, fabs("
                 +:+ "self.fluxes._" +:+ item.1
                 +:+ "_results[self.numvars.idx_method]-"
                 +:+ "self.fluxes._" +:+ item.1
                 +:+ "_results[self.numvars.idx_method-1]))"])).
  - simpl mbind. rewrite fold_left_add. unfold Lines.add. cbn [app].
    apply (f_equal Ok). apply (f_equal2 cons); [reflexivity|].
    apply (f_equal2 cons); [reflexivity|].
    clear Hscalar.
    induction (Model.numerics fluxes) as [|item items IH]; [reflexivity|].
    cbn [flat_map map app]. rewrite IH. reflexivity.
  - intros yielded [name seq] Hin.
    rewrite List.Forall_forall in Hscalar. specialize (Hscalar _ Hin).
    simpl in Hscalar. rewrite Hscalar. cbn [fst].
    rewrite !app_assoc_str. reflexivity.
Qed.

(** C6.  For a 1-dimensional numeric flux [r] the emitted routine runs its
    loop up to [self.fluxes._r_length0], an attribute the emitted class does
    not have: the declarations name the length [_r_length_0], and no line of
    them holds [_r_length0]. *)
Theorem calculate_error_loops_to_undeclared_length :
  PyxWriter.calculate_error fast model_1d_flux
  = Ok ["    cpdef inline void calculate_error(self) nogil:";
        "        self.numvars.error = 0.";
        "        self.numvars.error = max(self.numvars.error, fabs(self.fluxes._q_results[self.numvars.idx_method]-self.fluxes._q_results[self.numvars.idx_method-1]))";
        "        cdef int idx0";
        "        for idx0 in range(self.fluxes._r_length0):";
        "            self.numvars.error = max(self.numvars.error, abs(self.fluxes._r_results[self.numvars.idx_method, idx0]-self.fluxes._r_results[self.numvars.idx_method-1, idx0]))"]
  /\ exists declarations,
       PyxWriter.sequences fast model_1d_flux = Ok declarations
       /\ mem "    cdef public int _r_length_0" declarations = true
       /\ forallb (fun line => negb (contains line "_r_length0")) declarations
          = true.
Proof.
  split; [reflexivity|]. eexists. split; [reflexivity|].
  split; vm_compute; reflexivity.
Qed.

(** ** More on Cythonizer.outdated *)

Lemma newer_than_false_inv (w : World.t) (cydate : Z) (sources : list string) :
  Cythonizer.newer_than w cydate sources = Ok false ->
  forall src, In src sources ->
    exists g, World.files w !! src = Some g /\ (World.st_mtime g <= cydate)%Z.
Proof.
  induction sources as [|s sources IH]; intros H src Hin; [destruct Hin|].
  simpl in H. unfold Cythonizer.stat_mtime in H.
  destruct (World.files w !! s) as [g|] eqn:Eg; [|discriminate].
  simpl in H. destruct (World.st_mtime g >? cydate)%Z eqn:E; [discriminate|].
  destruct Hin as [<-|Hin].
  - exists g. split; [exact Eg|lia].
  - apply IH; assumption.
Qed.





(** ** Cythonizer.pysourcefiles *)

Lemma files_of_mro_app (before : list string) (behind : list (option string)) :
  Cythonizer.files_of_mro (map Some before ++ behind)
  = before ++ Cythonizer.files_of_mro behind.
Proof.
  induction before as [|b before IH]; [reflexivity|].
  simpl. rewrite IH. reflexivity.
Qed.

Lemma files_of_mro_prefix (parents : list (option string)) :
  exists behind,
    parents = map Some (Cythonizer.files_of_mro parents) ++ behind.
Proof.
  induction parents as [|[s|] parents [behind IH]].
  - exists []. reflexivity.
  - exists behind. simpl. rewrite <- IH. reflexivity.
  - exists (None :: parents). reflexivity.
Qed.


(** ** Cythonizer.complete after a failure *)

Lemma bind_inv {A B} (m : World.M A) (k : A -> World.M B) w w' r :
  World.bind m k w = (w', r) ->
  (exists e, m w = (w', Raise e) /\ r = Raise e)
  \/ (exists a w0, m w = (w0, Ok a) /\ k a w0 = (w', r)).
Proof.
  unfold World.bind. destruct (m w) as [w0 [a|e]]; intros H.
  - right. eauto.
  - left. injection H as <- <-. eauto.
Qed.

Section Failure.
Variable options : Options.t.
Variable self : CythonizerData.t.
Variable env : World.Env.

Lemma write_parts_stamps p texts written w w' r :
  World.files w !! p = Some {| World.st_mtime := World.now env;
                               World.content := written |} ->
  Cythonizer.write_parts env p texts written w = (w', r) ->
  exists text,
    World.files w'
    = <[p := {| World.st_mtime := World.now env; World.content := text |}]>
        (World.files w).
Proof.
  revert written w. induction texts as [|text texts IH]; intros written w Hp H.
  - injection H as <- _. exists written. symmetry. apply insert_id. exact Hp.
  - simpl in H. destruct text as [t|e].
    + unfold World.bind, World.lift in H. simpl in H.
      apply IH in H as [txt Hfiles].
      * exists txt. rewrite Hfiles. simpl. apply insert_insert_eq.
      * simpl. apply lookup_insert_eq.
    + injection H as <- _. exists written. symmetry. apply insert_id. exact Hp.
Qed.

Lemma write_stamps p w w' r :
  Cythonizer.write options self env p w = (w', r) ->
  exists text,
    World.files w'
    = <[p := {| World.st_mtime := World.now env; World.content := text |}]>
        (World.files w).
Proof.
  unfold Cythonizer.write, World.bind, World.set_file, World.modify. intros H.
  apply write_parts_stamps in H as [text Hfiles].
  - exists text. rewrite Hfiles. simpl. apply insert_insert_eq.
  - simpl. apply lookup_insert_eq.
Qed.

Lemma doit_stamps p w w' r :
  Cythonizer.cyfilepath self = Ok p ->
  Cythonizer.doit options self env w = (w', r) ->
  exists text,
    World.files w'
    = <[p := {| World.st_mtime := World.now env; World.content := text |}]>
        (World.files w).
Proof.
  intros Hp H. unfold Cythonizer.doit in H. rewrite Hp in H.
  unfold World.bind at 1 in H. unfold World.lift at 1 in H.
  unfold World.bind at 1 in H. unfold World.log at 1, World.modify in H.
  apply bind_inv in H as [(e & Hw & _)|([] & w2 & Hw & H)].
  - apply write_stamps in Hw. exact Hw.
  - apply write_stamps in Hw as [text Hfiles].
    exists text. simpl in Hfiles. rewrite <- Hfiles.
    revert H. apply keeps_files_bind.
    + apply keeps_files_compile_.
    + intros _. apply keeps_files_movedll.
Qed.

End Failure.

Lemma stamped_is_fresh (self : CythonizerData.t) (w w1 : World.t) (p text : string)
    (now : Z) :
  Cythonizer.cyfilepath self = Ok p ->
  World.files w1
  = <[p := {| World.st_mtime := now; World.content := text |}]> (World.files w) ->
  (forall src, In src (Cythonizer.pysourcefiles self) ->
     exists g, World.files w !! src = Some g /\ (World.st_mtime g <= now)%Z) ->
  Cythonizer.outdated self w1 = Ok false.
Proof.
  intros Hp Hf Hsrc.
  unfold Cythonizer.outdated, Cythonizer.stat_mtime.
  rewrite Hp, Hf. simpl. rewrite lookup_insert_eq. simpl.
  apply newer_than_fresh. intros src Hin.
  destruct (decide (p = src)) as [<-|Hne].
  - rewrite Hf, lookup_insert_eq. eexists. split; [reflexivity|simpl; lia].
  - rewrite Hf, lookup_insert_ne by exact Hne. apply Hsrc. exact Hin.
Qed.



(** ** Cythonizer.movedll when the library is there *)

Lemma find_dll_first (options : Options.t) (cyname : string)
    (before behind : list string) (filename : string) (current : option string) :
  Forall (fun f => matches options cyname f = false) before ->
  matches options cyname filename = true ->
  Cythonizer.find_dll options cyname (before ++ filename :: behind) current
  = Some filename.
Proof.
  intros Hbefore Hm. induction Hbefore as [|f before Hf _ IH]; simpl.
  - unfold matches in Hm. rewrite Hm. reflexivity.
  - unfold matches in Hf. rewrite Hf. exact IH.
Qed.



(** ** Cythonizer.pyname *)

Lemma split_join_dot (parents : list string) (last : string) :
  Forall (fun s => contains s "." = false) (parents ++ [last]) ->
  split (join "." (parents ++ [last])) "." = parents ++ [last].
Proof.
  induction parents as [|a parents IH]; intros H.
  - apply Forall_inv in H. simpl. apply split_none. exact H.
  - change ((a :: parents) ++ [last]) with (a :: (parents ++ [last])) in *.
    pose proof (Forall_inv H) as Ha. apply Forall_inv_tail in H.
    assert (Hjoin : join "." (a :: (parents ++ [last]))
                    = a +:+ "." +:+ join "." (parents ++ [last])).
    { destruct parents; reflexivity. }
    rewrite Hjoin, split_first, (IH H); [reflexivity|discriminate|].
    apply no_inner_occurrence; [exact Ha|reflexivity].
Qed.



(** ** More on FuncConverter.remove_imath_operators *)



(** ** More on FuncConverter.cleanlines *)

Lemma nth_cons_head (c : ascii) (l : list string) :
  nth 0 (cons_head c l) "" = String c (nth 0 l "").
Proof. destruct l; reflexivity. Qed.

(** The first piece of [s.split(sep)] is the text before the first [sep]. *)
Lemma split_head (sep s : string) :
  sep <> "" ->
  contains (nth 0 (split s sep) "") sep = false
  /\ exists rest, s = nth 0 (split s sep) "" +:+ rest.
Proof.
  intros Hsep. unfold split. induction s as [|c s [IH [rest Hrest]]].
  - split; [|exists ""; reflexivity].
    destruct sep; [congruence|reflexivity].
  - change (split_go sep (String c s) 0)
      with (if startswith (String c s) sep
            then "" :: split_go sep s (String.length sep - 1)
            else cons_head c (split_go sep s 0)).
    destruct (startswith (String c s) sep) eqn:E.
    + split; [|exists (String c s); reflexivity].
      destruct sep; [congruence|reflexivity].
    + rewrite nth_cons_head. split.
      * change (contains (String c (nth 0 (split_go sep s 0) "")) sep)
          with (startswith (String c (nth 0 (split_go sep s 0) "")) sep
                || contains (nth 0 (split_go sep s 0) "") sep).
        rewrite IH, orb_false_r.
        destruct (startswith (String c (nth 0 (split_go sep s 0) "")) sep) eqn:E';
          [|reflexivity].
        apply startswith_spec in E' as [r E'].
        assert (startswith (String c s) sep = true); [|congruence].
        apply startswith_spec. exists (r +:+ rest).
        rewrite <- app_assoc_str, <- E', app_cons, <- Hrest. reflexivity.
      * exists rest. rewrite app_cons, <- Hrest. reflexivity.
Qed.

Lemma rstrip_idempotent (s : string) : rstrip (rstrip s) = rstrip s.
Proof.
  induction s as [|c s IH]; [reflexivity|].
  simpl. destruct (rstrip s) as [|d r] eqn:E.
  - destruct (isspace c) eqn:Ec; [reflexivity|]. simpl. rewrite Ec. reflexivity.
  - change (rstrip (String c (String d r)))
      with (match rstrip (String d r) with
            | "" => if isspace c then "" else String c ""
            | String x y => String c (String x y)
            end).
    rewrite IH. reflexivity.
Qed.

Lemma contains_rstrip (s sub : string) :
  contains s sub = false -> contains (rstrip s) sub = false.
Proof.
  intros H. destruct (contains (rstrip s) sub) eqn:E; [|reflexivity].
  destruct (rstrip_prefix s) as [w Hw].
  assert (contains s sub = true); [|congruence].
  rewrite Hw. apply contains_app_l. exact E.
Qed.

(** The three list comprehensions that end [cleanlines]. *)
Lemma comprehensions_clean (lines : list string) :
  Forall (fun l => l <> "" /\ rstrip l = l /\ contains l "#" = false
                   /\ contains l "fastaccess" = false)
    (map rstrip
       (List.filter (fun l => negb (String.eqb (rstrip l) ""))
          (List.filter (fun l => negb (contains l "fastaccess"))
             (map (fun l => nth 0 (split l "#") "") lines)))).
Proof.
  apply List.Forall_forall. intros l Hl.
  apply in_map_iff in Hl as [l1 [<- Hl1]].
  apply filter_In in Hl1 as [Hl1 Hne].
  apply filter_In in Hl1 as [Hl1 Hfast].
  apply in_map_iff in Hl1 as [l0 [<- _]].
  apply negb_true_iff in Hne, Hfast.
  apply String.eqb_neq in Hne.
  destruct (split_head "#" l0) as [Hhash _]; [discriminate|].
  repeat split.
  - exact Hne.
  - apply rstrip_idempotent.
  - apply contains_rstrip. exact Hhash.
  - apply contains_rstrip. exact Hfast.
Qed.



(** ** Cythonizer.complete and the doctests *)



(** ** PyxWriter.parameters and PyxWriter.sequences: the types and
    dimensionalities they can declare *)

Lemma for_each_is_Ok {A S} (body : S -> A -> result S) (P : A -> Prop)
    (items : list A) (s : S) :
  (forall s item, is_Ok (body s item) = true <-> P item) ->
  is_Ok (for_each items body s) = true <-> Forall P items.
Proof.
  intros H. revert s. induction items as [|item items IH]; intros s; simpl.
  - split; [constructor|reflexivity].
  - pose proof (H s item) as Hitem.
    destruct (body s item) as [s'|e]; simpl in *.
    + rewrite IH. split.
      * intros Hitems. constructor; [apply Hitem; reflexivity|exact Hitems].
      * intros Hitems. exact (Forall_inv_tail Hitems).
    + split; [discriminate|]. intros Hitems.
      apply Hitem. exact (Forall_inv Hitems).
Qed.

Lemma is_Ok_bind_Ok {A B} (m : result A) (f : A -> B) :
  is_Ok (m ≫= fun a => Ok (f a)) = is_Ok m.
Proof. destruct m; reflexivity. Qed.



(** ** PyxWriter.iofunctions without a group to read or write *)

Lemma getattr_None (seqs : list (string * Model.SubSequences)) (n : string) :
  Model.getattr seqs n = None ->
  Forall (fun item : string * Model.SubSequences => String.eqb item.1 n = false)
    seqs.
Proof.
  induction seqs as [|[k v] seqs IH]; simpl; [constructor|].
  destruct (String.eqb k n) eqn:E; [discriminate|].
  intros H. constructor; [exact E|exact (IH H)].
Qed.

Lemma declares_false (model : Model.t) (n : string) :
  Model.declares model n = false ->
  Forall (fun item : string * Model.SubSequences => String.eqb item.1 n = false)
    (Model.sequences model).
Proof.
  unfold Model.declares. intros H. apply getattr_None.
  destruct (Model.getattr _ _); [discriminate|reflexivity].
Qed.

Lemma fold_skip {A} (f : Lines.t -> A -> Lines.t) (items : list A)
    (lines : Lines.t) :
  Forall (fun item => forall lines, f lines item = lines) items ->
  fold_left f items lines = lines.
Proof.
  induction 1 as [|item items Hitem _ IH]; [reflexivity|].
  simpl. rewrite Hitem. exact IH.
Qed.



(** ** FuncConverter.remove_linebreaks_within_equations *)

Lemma replace_lf_cons (c : ascii) (s : string) :
  replace (String c s) LF ""
  = if Ascii.eqb c "010" then replace s LF "" else String c (replace s LF "").
Proof.
  unfold replace.
  change (replace_go LF "" (String c s) 0)
    with (if Ascii.eqb c "010" && startswith s ""
          then "" +:+ replace_go LF "" s 0
          else String c (replace_go LF "" s 0)).
  replace (startswith s "") with true by (destruct s; reflexivity).
  rewrite andb_true_r. destruct (Ascii.eqb c "010"); reflexivity.
Qed.

Lemma opening_spec (c : ascii) :
  contains "([{" (String c "")
  = Ascii.eqb c "(" || Ascii.eqb c "[" || Ascii.eqb c "{".
Proof.
  cbv beta iota delta [contains startswith].
  rewrite (Ascii.eqb_sym "("), (Ascii.eqb_sym "["), (Ascii.eqb_sym "{").
  destruct (Ascii.eqb c "("), (Ascii.eqb c "["), (Ascii.eqb c "{"); reflexivity.
Qed.

Lemma closing_spec (c : ascii) :
  contains ")]}" (String c "")
  = Ascii.eqb c ")" || Ascii.eqb c "]" || Ascii.eqb c "}".
Proof.
  cbv beta iota delta [contains startswith].
  rewrite (Ascii.eqb_sym ")"), (Ascii.eqb_sym "]"), (Ascii.eqb_sym "}").
  destruct (Ascii.eqb c ")"), (Ascii.eqb c "]"), (Ascii.eqb c "}"); reflexivity.
Qed.

Lemma free_of_cons (among : list ascii) (c : ascii) (s : string) :
  free_of among (String c s) = true ->
  Forall (fun b => Ascii.eqb c b = false) among /\ free_of among s = true.
Proof.
  unfold free_of. induction among as [|b among IH]; simpl; [auto|].
  intros H. apply andb_true_iff in H as [Hb H].
  destruct (IH H) as [IH1 IH2].
  destruct (Ascii.eqb c b) eqn:E; [discriminate|]. simpl in Hb.
  split; [constructor; [exact E|exact IH1]|].
  rewrite Hb, IH2. reflexivity.
Qed.


Lemma linebreaks_plain (s t : string) (counter : Z) :
  free_of brackets s = true ->
  FuncConverter.remove_linebreaks_go (s +:+ t) counter
  = (if (counter =? 0)%Z then s else replace s LF "")
    +:+ FuncConverter.remove_linebreaks_go t counter.
Proof.
  induction s as [|c s IH]; intros H.
  - destruct (counter =? 0)%Z; reflexivity.
  - apply free_of_cons in H as [Hc H]. specialize (IH H).
    rewrite app_cons. cbn [FuncConverter.remove_linebreaks_go].
    rewrite opening_spec, closing_spec.
    repeat (apply Forall_cons_iff in Hc as [?Hb Hc]).
    rewrite Hb, Hb0, Hb1, Hb2, Hb3, Hb4. cbn [orb].
    rewrite IH, replace_lf_cons.
    destruct (counter =? 0)%Z, (Ascii.eqb c "010"); reflexivity.
Qed.

Lemma linebreaks_bracket (c : ascii) (t : string) (counter : Z) :
  Ascii.eqb c "010" = false ->
  FuncConverter.remove_linebreaks_go (String c t) counter
  = String c
      (FuncConverter.remove_linebreaks_go t
         (if contains "([{" (String c "") then counter + 1
          else if contains ")]}" (String c "") then counter - 1
          else counter)).
Proof.
  intros H. cbn [FuncConverter.remove_linebreaks_go].
  rewrite H, andb_false_r. reflexivity.
Qed.

Lemma bracket_not_linefeed (c : ascii) :
  contains "([{" (String c "") || contains ")]}" (String c "") = true ->
  Ascii.eqb c "010" = false.
Proof.
  rewrite opening_spec, closing_spec.
  destruct (Ascii.eqb c "010") eqn:E; [|reflexivity].
  apply Ascii.eqb_eq in E. subst c. discriminate.
Qed.



Lemma linebreaks_open (s : string) (counter : Z) :
  (0 < counter)%Z -> free_of [")"; "]"; "}"]%char s = true ->
  FuncConverter.remove_linebreaks_go s counter = replace s LF "".
Proof.
  revert counter. induction s as [|c s IH]; intros counter Hk H; [reflexivity|].
  apply free_of_cons in H as [Hc H].
  cbn [FuncConverter.remove_linebreaks_go]. rewrite closing_spec.
  repeat (apply Forall_cons_iff in Hc as [?Hb Hc]).
  rewrite Hb, Hb0, Hb1. cbn [orb]. rewrite replace_lf_cons.
  destruct (contains "([{" (String c "")) eqn:Eo.
  - rewrite (bracket_not_linefeed c) by (rewrite Eo; reflexivity).
    rewrite andb_false_r. cbn [negb]. f_equal. apply IH; [lia|exact H].
  - destruct (Ascii.eqb c "010").
    + replace (counter =? 0)%Z with false by (symmetry; apply Z.eqb_neq; lia).
      cbn [negb andb]. apply IH; assumption.
    + rewrite andb_false_r. cbn [negb]. f_equal. apply IH; assumption.
Qed.

Lemma linebreaks_closed (s : string) (counter : Z) :
  (counter < 0)%Z -> free_of ["("; "["; "{"]%char s = true ->
  FuncConverter.remove_linebreaks_go s counter = replace s LF "".
Proof.
  revert counter. induction s as [|c s IH]; intros counter Hk H; [reflexivity|].
  apply free_of_cons in H as [Hc H].
  cbn [FuncConverter.remove_linebreaks_go]. rewrite opening_spec.
  repeat (apply Forall_cons_iff in Hc as [?Hb Hc]).
  rewrite Hb, Hb0, Hb1. cbn [orb]. rewrite replace_lf_cons.
  destruct (contains ")]}" (String c "")) eqn:Eo.
  - rewrite (bracket_not_linefeed c) by (rewrite Eo; apply orb_true_r).
    rewrite andb_false_r. cbn [negb]. f_equal. apply IH; [lia|exact H].
  - destruct (Ascii.eqb c "010").
    + replace (counter =? 0)%Z with false by (symmetry; apply Z.eqb_neq; lia).
      cbn [negb andb]. apply IH; assumption.
    + rewrite andb_false_r. cbn [negb]. f_equal. apply IH; assumption.
Qed.



(** ** FuncConverter.pyxlines: the signature *)

Lemma replace_go_skip (old new x b : string) :
  replace_go old new (x +:+ b) (String.length x) = replace_go old new b 0.
Proof.
  induction x as [|c x IH]; [reflexivity|].
  rewrite app_cons. simpl. exact IH.
Qed.

Lemma replace_first (old new a b : string) :
  old <> "" ->
  (forall a1 a2, a = a1 +:+ a2 -> a2 <> "" ->
                 startswith (a2 +:+ old +:+ b) old = false) ->
  replace (a +:+ old +:+ b) old new = a +:+ new +:+ replace b old new.
Proof.
  unfold replace. intros Hold. induction a as [|c a IH]; intros H.
  - destruct old as [|x old']; [congruence|].
    change ("" +:+ String x old' +:+ b) with (String x (old' +:+ b)).
    change (replace_go (String x old') new (String x (old' +:+ b)) 0)
      with (if startswith (String x (old' +:+ b)) (String x old')
            then new +:+ replace_go (String x old') new (old' +:+ b)
                           (String.length (String x old') - 1)
            else String x (replace_go (String x old') new (old' +:+ b) 0)).
    replace (startswith (String x (old' +:+ b)) (String x old')) with true.
    + replace (String.length (String x old') - 1) with (String.length old')
        by (simpl; lia).
      rewrite replace_go_skip. reflexivity.
    + symmetry. apply startswith_spec. exists b. reflexivity.
  - rewrite app_cons.
    change (replace_go old new (String c (a +:+ old +:+ b)) 0)
      with (if startswith (String c (a +:+ old +:+ b)) old
            then new +:+ replace_go old new (a +:+ old +:+ b)
                           (String.length old - 1)
            else String c (replace_go old new (a +:+ old +:+ b) 0)).
    rewrite <- app_cons, (H "" (String c a)) by (reflexivity || discriminate).
    rewrite IH; [rewrite app_cons; reflexivity|].
    intros a1 a2 -> Ha2. apply (H (String c a1) a2); [reflexivity|exact Ha2].
Qed.

(** No occurrence of [old] starts within a text that lacks the first
    character of [old]. *)
Lemma no_inner_by_head (d : ascii) (old' a b : string) :
  count a d = 0 ->
  forall a1 a2, a = a1 +:+ a2 -> a2 <> "" ->
                startswith (a2 +:+ String d old' +:+ b) (String d old') = false.
Proof.
  intros Hcount a1 a2 -> Ha2. destruct a2 as [|c a2]; [congruence|].
  rewrite count_app in Hcount. simpl in Hcount.
  rewrite app_cons. simpl.
  destruct (Ascii.eqb c d); [lia|reflexivity].
Qed.

Lemma contains_absent (s sub : string) (c : ascii) :
  count s c = 0 -> count sub c <> 0 -> contains s sub = false.
Proof.
  intros Hs Hsub. destruct (contains s sub) eqn:E; [|reflexivity].
  apply contains_spec in E as [a [b ->]].
  rewrite !count_app in Hs. lia.
Qed.

Lemma free_of_count (among : list ascii) (s : string) (c : ascii) :
  free_of among s = true -> In c among -> count s c = 0.
Proof.
  unfold free_of. rewrite forallb_forall. intros H Hc.
  apply Nat.eqb_eq. apply H. exact Hc.
Qed.

Lemma rstrip_fixed_app (s t : string) :
  rstrip t = t -> t <> "" -> rstrip (s +:+ t) = s +:+ t.
Proof.
  intros Ht Hne. induction s as [|c s IH]; [exact Ht|].
  rewrite app_cons. simpl. rewrite IH.
  destruct (s +:+ t) eqn:E; [|reflexivity].
  destruct s; [change ("" +:+ t) with t in E; congruence
              |rewrite app_cons in E; discriminate].
Qed.

Lemma filter_none {A} (f : A -> bool) (l : list A) :
  (forall x, In x l -> f x = false) -> List.filter f l = [].
Proof.
  induction l as [|x l IH]; intros H; [reflexivity|].
  simpl. rewrite (H x (or_introl eq_refl)). apply IH.
  intros y Hy. apply H. right. exact Hy.
Qed.

Lemma filter_all {A} (f : A -> bool) (l : list A) :
  (forall x, In x l -> f x = true) -> List.filter f l = l.
Proof.
  induction l as [|x l IH]; intros H; [reflexivity|].
  simpl. rewrite (H x (or_introl eq_refl)). f_equal. apply IH.
  intros y Hy. apply H. right. exact Hy.
Qed.

Section Signature.
Variable funcname : string.
Hypothesis Hfree : free_of ["#"; " "; ","; ")"]%char funcname = true.
Hypothesis Hfast : contains funcname "fastaccess" = false.

Let defline : string := "def " +:+ funcname +:+ "(self):".

Lemma defline_count (c : ascii) :
  In c ["#"; " "; ","; ")"]%char -> count (funcname +:+ "(self") c = 0.
Proof.
  intros Hc. rewrite count_app, (free_of_count _ _ _ Hfree Hc).
  simpl in Hc. repeat (destruct Hc as [<-|Hc]; [reflexivity|]). destruct Hc.
Qed.

Lemma defline_kept (rest : list string) :
  map rstrip
    (List.filter (fun l => negb (String.eqb (rstrip l) ""))
       (List.filter (fun l => negb (contains l "fastaccess"))
          (map (fun l => nth 0 (split l "#") "") (defline :: rest))))
  = defline
    :: map rstrip
         (List.filter (fun l => negb (String.eqb (rstrip l) ""))
            (List.filter (fun l => negb (contains l "fastaccess"))
               (map (fun l => nth 0 (split l "#") "") rest))).
Proof.
  assert (Hhash : contains defline "#" = false).
  { apply (contains_absent _ _ "#"); [|discriminate].
    unfold defline. rewrite !count_app.
    rewrite (free_of_count _ _ _ Hfree) by (simpl; tauto). reflexivity. }
  assert (Hword : contains defline "fastaccess" = false).
  { unfold defline.
    change ("def " +:+ funcname +:+ "(self):")
      with ("def" +:+ String " " (funcname +:+ String "(" "self):")).
    apply contains_sep; [reflexivity|discriminate|reflexivity|].
    apply contains_sep; [reflexivity|discriminate|exact Hfast|reflexivity]. }
  assert (Hstrip : rstrip defline = defline).
  { unfold defline. rewrite <- app_assoc_str.
    change "(self):" with ("(self)" +:+ ":"). rewrite <- app_assoc_str.
    apply rstrip_fixed_app; [reflexivity|discriminate]. }
  cbn [map]. rewrite (split_none _ _ Hhash). cbn [nth List.filter].
  rewrite Hword. cbn [negb List.filter]. rewrite Hstrip.
  replace (String.eqb defline "") with false by reflexivity.
  cbn [negb map]. rewrite Hstrip. reflexivity.
Qed.


End Signature.


(** ** PyxWriter.doit and the routines it calls *)

Lemma fold_left_keeps {A} (f : Lines.t -> A -> Lines.t) (items : list A)
    (lines : Lines.t) (x : string) :
  (forall lines item, In x lines -> In x (f lines item)) ->
  In x lines -> In x (fold_left f items lines).
Proof.
  intros Hf. revert lines. induction items as [|item items IH];
    intros lines Hx; [exact Hx|].
  simpl. apply IH. apply Hf. exact Hx.
Qed.

Lemma add_keeps (indent : nat) (line : string) (lines : Lines.t) (x : string) :
  In x lines -> In x (Lines.add indent line lines).
Proof. intros H. unfold Lines.add. apply in_or_app. left. exact H. Qed.

Lemma add_here (indent : nat) (line : string) (lines : Lines.t) (x : string) :
  x = rep (indent * 4) " " +:+ line -> In x (Lines.add indent line lines).
Proof.
  intros ->. unfold Lines.add. apply in_or_app. right. left. reflexivity.
Qed.

Lemma index_loops_keeps (level : nat) (header : nat -> string) (idxs : list nat)
    (lines : Lines.t) (indexing x : string) :
  In x lines ->
  In x (PyxWriter.index_loops level header idxs lines indexing).1.
Proof.
  revert lines indexing. induction idxs as [|idx idxs IH];
    intros lines indexing Hx; [exact Hx|].
  simpl. apply IH. apply add_keeps. exact Hx.
Qed.

Lemma iofunctions_keeps (func : string) (seqs : list (string * Model.SubSequences))
    (lines : Lines.t) (x : string) :
  In x lines ->
  In x (fold_left
          (fun (lines : Lines.t) '(name, subseqs) =>
             let applyfuncs :=
               if String.eqb func "loaddata" then ["inputs"]
               else if String.eqb func "savedata" then ["fluxes"; "states"]
               else ["inputs"; "fluxes"; "states"] in
             if mem name applyfuncs then
               if String.eqb func "closefiles" then
                 Lines.add 2 ("self." +:+ name +:+ "." +:+ func +:+ "()") lines
               else
                 Lines.add 2 ("self." +:+ name +:+ "." +:+ func
                              +:+ "(self.idx_sim)") lines
             else lines)
          seqs lines).
Proof.
  apply fold_left_keeps. intros l [name subseqs] Hl. cbv zeta.
  destruct (mem name _); [|exact Hl].
  destruct (String.eqb func "closefiles"); apply add_keeps; exact Hl.
Qed.

Lemma loaddata_defined (options : Options.t) (model : Model.t) :
  Model.declares model "inputs" = true ->
  In ("    " +:+ method_header options "loaddata" true)
    (PyxWriter.iofunctions options model).
Proof.
  intros Hi. unfold PyxWriter.iofunctions. cbn [fold_left]. rewrite Hi.
  change (String.eqb "openfiles" "loaddata") with false.
  change (String.eqb "openfiles" "savedata") with false.
  change (String.eqb "closefiles" "loaddata") with false.
  change (String.eqb "closefiles" "savedata") with false.
  change (String.eqb "loaddata" "loaddata") with true.
  change (String.eqb "loaddata" "savedata") with false.
  change (String.eqb "savedata" "loaddata") with false.
  change (String.eqb "savedata" "savedata") with true.
  cbn [andb negb].
  destruct (negb (Model.declares model "fluxes")
            && negb (Model.declares model "states")).
  - apply (iofunctions_keeps "loaddata"). apply add_here. reflexivity.
  - apply (iofunctions_keeps "savedata"). apply add_keeps.
    apply (iofunctions_keeps "loaddata"). apply add_here. reflexivity.
Qed.

Lemma savedata_defined (options : Options.t) (model : Model.t) :
  Model.declares model "fluxes" || Model.declares model "states" = true ->
  In ("    " +:+ method_header options "savedata" true)
    (PyxWriter.iofunctions options model).
Proof.
  intros Hs. unfold PyxWriter.iofunctions. cbn [fold_left].
  change (String.eqb "openfiles" "loaddata") with false.
  change (String.eqb "openfiles" "savedata") with false.
  change (String.eqb "closefiles" "loaddata") with false.
  change (String.eqb "closefiles" "savedata") with false.
  change (String.eqb "loaddata" "loaddata") with true.
  change (String.eqb "loaddata" "savedata") with false.
  change (String.eqb "savedata" "loaddata") with false.
  change (String.eqb "savedata" "savedata") with true.
  cbn [andb].
  replace (negb (Model.declares model "fluxes")
           && negb (Model.declares model "states")) with false
    by (destruct (Model.declares model "fluxes"),
          (Model.declares model "states"); try reflexivity; discriminate).
  apply (iofunctions_keeps "savedata"). apply add_here. reflexivity.
Qed.

Lemma new2old_defined (options : Options.t) (model : Model.t) :
  Model.declares model "states" = true ->
  In ("    " +:+ method_header options "new2old" true)
    (PyxWriter.new2old options model).
Proof.
  unfold Model.declares, PyxWriter.new2old.
  destruct (Model.getattr (Model.sequences model) "states") as [states|];
    [intros _|discriminate].
  apply fold_left_keeps.
  - intros lines [name seq] Hl.
    destruct (Model.NDIM seq =? 0)%nat; [apply add_keeps; exact Hl|].
    match goal with
    | |- context [PyxWriter.index_loops ?l ?h ?i lines ?x] =>
        pose proof (index_loops_keeps l h i lines x _ Hl) as Hkeep;
        destruct (PyxWriter.index_loops l h i lines x) as [lines' indexing]
    end.
    apply add_keeps. exact Hkeep.
  - apply add_keeps. apply add_here. reflexivity.
Qed.


